(** * Code classification of the campaign backend (CodeService)

    A shallow embedding of the code service of the prize campaign backend:
    the normaliser [norm], the winner variant list built at the start of
    every listing view, the four listing views ([getWinners], [getLosers],
    [getWinnerCodes], [getNonWinnerCodes]) and the single code lookup
    [getCodeMonth].

    Strings are sequences of 8-bit code units standing for ASCII text: the
    case mapping acts on [a-z] only and the white space of [trim] is the
    ASCII white space; units above 127 are left alone. *)

From Stdlib Require Import Bool Arith ZArith Lia List Ascii String.
From Stdlib Require Import Sorting.Sorted Sorting.Permutation.
Import ListNotations.

Open Scope string_scope.
Open Scope list_scope.

(** ** JavaScript string primitives *)

Module Js.

(** White space removed by [String.prototype.trim], ASCII range:
    TAB, LF, VT, FF, CR and SPACE. *)
Definition isWhiteSpace (c : ascii) : bool :=
  let n := nat_of_ascii c in
  (((9 <=? n) && (n <=? 13)) || (n =? 32))%nat.

Definition toUpperChar (c : ascii) : ascii :=
  let n := nat_of_ascii c in
  if ((97 <=? n) && (n <=? 122))%nat then ascii_of_nat (n - 32) else c.

Definition isHyphen (c : ascii) : bool := Ascii.eqb c "-".

Fixpoint toUpperCase (s : string) : string :=
  match s with
  | EmptyString => EmptyString
  | String c s' => String (toUpperChar c) (toUpperCase s')
  end.

(** [s.replace(/-/g, '')] *)
Fixpoint replaceHyphens (s : string) : string :=
  match s with
  | EmptyString => EmptyString
  | String c s' =>
      if isHyphen c then replaceHyphens s' else String c (replaceHyphens s')
  end.

Fixpoint trimStart (s : string) : string :=
  match s with
  | EmptyString => EmptyString
  | String c s' => if isWhiteSpace c then trimStart s' else s
  end.

Fixpoint trimEnd (s : string) : string :=
  match s with
  | EmptyString => EmptyString
  | String c s' =>
      match trimEnd s' with
      | EmptyString => if isWhiteSpace c then EmptyString else String c EmptyString
      | t => String c t
      end
  end.

Definition trim (s : string) : string := trimEnd (trimStart s).

(** [s.slice(from, to)] for non-negative indices. *)
Definition slice (s : string) (from to : nat) : string :=
  substring from (Nat.min to (String.length s) - from) s.

(** [s.slice(from)] *)
Definition sliceFrom (s : string) (from : nat) : string :=
  substring from (String.length s - from) s.

(** [s.includes(t)] *)
Fixpoint includes (s t : string) : bool :=
  prefix t s ||
  match s with
  | EmptyString => false
  | String _ s' => includes s' t
  end.

(** [s || ''] on a string: the empty string is the only falsy one. *)
Definition orEmpty (s : string) : string :=
  match s with
  | EmptyString => EmptyString
  | _ => s
  end.

(** Truthiness of an optional string ([if (query.search)]). *)
Definition truthy (o : option string) : option string :=
  match o with
  | Some EmptyString => None
  | other => other
  end.

(** [a ?? d] *)
Definition nullish {A : Type} (a : option A) (d : A) : A :=
  match a with
  | Some x => x
  | None => d
  end.

Fixpoint all (P : ascii -> bool) (s : string) : bool :=
  match s with
  | EmptyString => true
  | String c s' => P c && all P s'
  end.

End Js.

(** ** The normaliser and the winner variants *)

(** [const norm = (s) => (s || '').trim().toUpperCase().replace(/-/g, '')] *)
Definition norm (s : string) : string :=
  Js.replaceHyphens (Js.toUpperCase (Js.trim (Js.orEmpty s))).

(** The normaliser as the specification words it: trim, then upper case,
    then remove every hyphen. *)
Definition norm_spec (s : string) : string :=
  let trimmed := Js.trim s in
  let upper := Js.toUpperCase trimmed in
  Js.replaceHyphens upper.

(** [normalized.length === 10 ? `${normalized.slice(0, 6)}-${normalized.slice(6)}` : normalized] *)
Definition withHyphen (normalized : string) : string :=
  if (String.length normalized =? 10)%nat
  then (Js.slice normalized 0 6 ++ "-" ++ Js.sliceFrom normalized 6)%string
  else normalized.

(** The four strings pushed for one winner value. *)
Definition pushed (code : string) : list string :=
  let normalized := norm code in
  [code; withHyphen normalized; normalized; Js.replaceHyphens code].

(** The loop
    [for (const code of winnerValues) { ...; winnerValueFilters.push(...) }]
    starting from the empty array. *)
Definition winnerValueFilters (winnerValues : list string) : list string :=
  fold_left (fun acc code => acc ++ pushed code) winnerValues [].

(** Literal membership, as the [In(...)] operator tests it. *)
Definition member (v : string) (l : list string) : bool :=
  existsb (String.eqb v) l.

(** ** Entities

    Modelled from the spec: the entity classes ([Code], [Winner], [Gift],
    [User]) are not among the sources.  A record carries the columns the
    service names in its [where], [select] and [order] clauses; dates are
    instants on an integer time line, and a nullable column is an option. *)

Module Gift.
Record t := mk
  { _id : string; id : Z; name : string; type : string;
    image : string; images : list string; deletedAt : option Z }.
End Gift.

Module User.
Record t := mk
  { _id : string; tgId : Z; tgFirstName : string; tgLastName : string;
    firstName : string; phoneNumber : string }.
End User.

Module Winner.
Record t := mk { value : string; deletedAt : option Z }.
End Winner.

Module Code.
Record t := mk
  { _id : string; id : Z; value : string; giftId : option string;
    isUsed : bool; usedAt : option Z; usedById : option string;
    month : option string; deletedAt : option Z }.
End Code.

(** The persisted state: one table per repository. *)
Record DB := mkDB
  { codes : list Code.t; winners : list Winner.t;
    gifts : list Gift.t; users : list User.t }.

(** Modelled from the spec: the class [PagingDto] is not among the sources.
    The query object is [{search?, page?, limit?}], with the two ordering
    fields other methods of the service read; every field is optional. *)
Record PagingDto := mkPaging
  { search : option string; limit : option Z; page : option Z;
    orderBy : option string; orderType : option string }.

(** A property of a returned row that the query may leave out. *)
Inductive Loaded (A : Type) : Type :=
| NotSelected
| Value (a : A).
Arguments NotSelected {A}.
Arguments Value {A} a.

(** A row as a listing view returns it.  The columns [_id], [id], [value],
    [isUsed], [usedAt], [usedById] are selected by all four views; [giftId]
    and the two relations are selected by some of them only. *)
Module CodeRow.
Record t := mk
  { _id : string; id : Z; value : string; isUsed : bool;
    usedAt : option Z; usedById : option string;
    giftId : Loaded (option string);
    gift : Loaded (option Gift.t);
    usedBy : Loaded (option User.t) }.
End CodeRow.

Record Page := mkPage { data : list CodeRow.t; total : nat }.

Record CodeMonth := mkCodeMonth { cm_value : string; cm_month : option string }.

(** ** The query objects handed to the ORM *)

Inductive NullTest := IsNull.

(** Operators assigned to [where.value]. *)
Inductive FindOperator :=
| In_ (values : list string)
| Not (op : FindOperator)
| Like (pattern : string).

(** What the property [where.value] holds: nothing, JavaScript [null], or
    an operator. *)
Inductive WhereValue :=
| Undefined
| Null
| Op (op : FindOperator).

Record Where := mkWhere
  { w_deletedAt : NullTest; w_isUsed : option bool; w_value : WhereValue }.

Definition setValue (w : Where) (v : WhereValue) : Where :=
  {| w_deletedAt := w_deletedAt w; w_isUsed := w_isUsed w; w_value := v |}.

Inductive Relation := RelGift | RelUsedBy.

Inductive Order := UsedAtDesc | IdAsc.

Record FindOptions := mkFind
  { where_ : Where; relations : list Relation; selectGiftId : bool;
    order : Order; take : Z; skip : Z }.

(** ** The ORM and the database, as the service relies on them

    The repositories are those of the ORM; what follows is the part of their
    behaviour the service uses.  Values are compared literally, code unit by
    code unit.  In this module a query is one the database accepts, with a
    limit of at least 1; what becomes of the other queries is written out
    in [Postgres] below. *)

Module Orm.

(** SQL [LIKE]: [%] matches any run of characters, [_] any one character,
    a backslash makes the next pattern character literal; comparison is
    by code unit. *)
Fixpoint sqlLike (pattern v : string) {struct pattern} : bool :=
  match pattern with
  | EmptyString => match v with EmptyString => true | _ => false end
  | String p pattern' =>
      if Ascii.eqb p "%" then
        (fix star (v : string) : bool :=
           sqlLike pattern' v ||
           match v with
           | EmptyString => false
           | String _ v' => star v'
           end) v
      else if Ascii.eqb p "_" then
        match v with
        | EmptyString => false
        | String _ v' => sqlLike pattern' v'
        end
      else if Ascii.eqb p "\" then
        match pattern', v with
        | String q pattern'', String c v' => Ascii.eqb q c && sqlLike pattern'' v'
        | _, _ => false
        end
      else
        match v with
        | EmptyString => false
        | String c v' => Ascii.eqb p c && sqlLike pattern' v'
        end
  end.

(** An operator on the (non-null) [value] column.  [In([])] is rendered
    as the false condition [0=1]. *)
Fixpoint evalOperator (op : FindOperator) (v : string) : bool :=
  match op with
  | In_ values => member v values
  | Not op' => negb (evalOperator op' v)
  | Like pattern => sqlLike pattern v
  end.

(** A key of [where] whose value is [undefined] or [null] is skipped when
    the condition is built: it constrains nothing. *)
Definition evalWhereValue (w : WhereValue) (v : string) : bool :=
  match w with
  | Undefined => true
  | Null => true
  | Op op => evalOperator op v
  end.

Definition notDeleted (c : Code.t) : bool :=
  match Code.deletedAt c with None => true | Some _ => false end.

Definition rowMatches (w : Where) (c : Code.t) : bool :=
  match w_deletedAt w with IsNull => notDeleted c end
  && match w_isUsed w with
     | None => true
     | Some b => Bool.eqb (Code.isUsed c) b
     end
  && evalWhereValue (w_value w) (Code.value c).

(** [ORDER BY "usedAt" DESC] and [ORDER BY id ASC]; [before o a b] says
    that [a] may stand before [b].  A row without a date is put before the
    dated ones in descending order. *)
Definition before (o : Order) (a b : Code.t) : bool :=
  match o with
  | UsedAtDesc =>
      match Code.usedAt a, Code.usedAt b with
      | None, _ => true
      | Some _, None => false
      | Some x, Some y => (y <=? x)%Z
      end
  | IdAsc => (Code.id a <=? Code.id b)%Z
  end.

Fixpoint insert (o : Order) (x : Code.t) (l : list Code.t) : list Code.t :=
  match l with
  | [] => [x]
  | y :: l' => if before o x y then x :: l else y :: insert o x l'
  end.

(** Rows with equal keys keep their table order (the database itself
    leaves their order open, see [Postgres.findAndCount]). *)
Fixpoint sort (o : Order) (l : list Code.t) : list Code.t :=
  match l with
  | [] => []
  | x :: l' => insert o x (sort o l')
  end.

Definition hasRelation (r : Relation) (rs : list Relation) : bool :=
  existsb (fun r' => match r, r' with
                     | RelGift, RelGift | RelUsedBy, RelUsedBy => true
                     | _, _ => false
                     end) rs.

Definition joinGift (d : DB) (c : Code.t) : option Gift.t :=
  match Code.giftId c with
  | None => None
  | Some g => find (fun x => String.eqb (Gift._id x) g) (gifts d)
  end.

Definition joinUser (d : DB) (c : Code.t) : option User.t :=
  match Code.usedById c with
  | None => None
  | Some u => find (fun x => String.eqb (User._id x) u) (users d)
  end.

Definition project (d : DB) (rels : list Relation) (withGiftId : bool)
    (c : Code.t) : CodeRow.t :=
  {| CodeRow._id := Code._id c;
     CodeRow.id := Code.id c;
     CodeRow.value := Code.value c;
     CodeRow.isUsed := Code.isUsed c;
     CodeRow.usedAt := Code.usedAt c;
     CodeRow.usedById := Code.usedById c;
     CodeRow.giftId :=
       if withGiftId then Value (Code.giftId c) else NotSelected;
     CodeRow.gift :=
       if hasRelation RelGift rels then Value (joinGift d c)
       else NotSelected;
     CodeRow.usedBy :=
       if hasRelation RelUsedBy rels then Value (joinUser d c)
       else NotSelected |}.

(** The matching rows in order, before [take] and [skip] apply. *)
Definition selected (d : DB) (o : FindOptions) : list Code.t :=
  sort (order o) (filter (rowMatches (where_ o)) (codes d)).

(** [LIMIT take OFFSET skip], for a limit of at least 1 and an offset that
    is not negative. *)
Definition paginate {A : Type} (take skip : Z) (l : list A) : list A :=
  firstn (Z.to_nat take) (skipn (Z.to_nat skip) l).

(** [findAndCount]: the requested page and the number of all matches. *)
Definition findAndCount (d : DB) (o : FindOptions) : list CodeRow.t * nat :=
  let rows := selected d o in
  (map (project d (relations o) (selectGiftId o))
       (paginate (take o) (skip o) rows),
   List.length rows).

(** [findOne] with a list of alternatives [{ value: v, deletedAt: IsNull() }]
    joined by OR. *)
Definition findOneByValues (d : DB) (values : list string) : option Code.t :=
  find (fun c => notDeleted c && member (Code.value c) values) (codes d).

(** [winnerRepository.find({ where: { deletedAt: IsNull() } })] *)
Definition findWinners (d : DB) : list Winner.t :=
  filter (fun w => match Winner.deletedAt w with None => true | Some _ => false end)
         (winners d).

End Orm.

(** ** The service monad

    A service method runs against the persisted state and the query object
    its caller handed in (the object is shared with the caller, so what the
    method assigns to its fields is part of the outcome), and either returns
    or throws. *)

(** [CodeException.NotFound()] is the only exception the methods below
    construct; [QueryFailed] is the error with which the database rejects a
    query (a negative [LIMIT] or [OFFSET]), which the ORM passes on. *)
Inductive Exn := NotFound | QueryFailed.

Inductive Result (A : Type) : Type :=
| Ok (a : A)
| Throw (e : Exn).
Arguments Ok {A} a.
Arguments Throw {A} e.

Record World := mkWorld { db : DB; query : PagingDto }.

Definition M (A : Type) : Type := World -> Result A * World.

Definition ret {A : Type} (a : A) : M A := fun w => (Ok a, w).

Definition throw {A : Type} (e : Exn) : M A := fun w => (Throw e, w).

Definition bind {A B : Type} (m : M A) (k : A -> M B) : M B :=
  fun w =>
    match m w with
    | (Ok a, w') => k a w'
    | (Throw e, w') => (Throw e, w')
    end.

Notation "x <- m ;; k" := (bind m (fun x => k))
  (at level 61, m at next level, right associativity).

Definition readQuery : M PagingDto := fun w => (Ok (query w), w).

(** [query.limit = query.limit ?? 10]; the value now held is returned. *)
Definition assignLimit : M Z :=
  fun w =>
    let q := query w in
    let l := Js.nullish (limit q) 10%Z in
    (Ok l,
     {| db := db w;
        query := {| search := search q; limit := Some l; page := page q;
                    orderBy := orderBy q; orderType := orderType q |} |}).

(** [query.page = query.page ?? 1] *)
Definition assignPage : M Z :=
  fun w =>
    let q := query w in
    let p := Js.nullish (page q) 1%Z in
    (Ok p,
     {| db := db w;
        query := {| search := search q; limit := limit q; page := Some p;
                    orderBy := orderBy q; orderType := orderType q |} |}).

Definition winnerRepository_find : M (list Winner.t) :=
  fun w => (Ok (Orm.findWinners (db w)), w).

(** [repository.findAndCount] on the queries a page is cut for: a [take] of
    at least 1 and a [skip] that is not negative, rows with equal sort keys
    in table order.  [Postgres.findAndCount] below is the call on every
    query. *)
Definition repository_findAndCount (o : FindOptions) : M (list CodeRow.t * nat) :=
  fun w => (Ok (Orm.findAndCount (db w) o), w).

Definition repository_findOne (values : list string) : M (option Code.t) :=
  fun w => (Ok (Orm.findOneByValues (db w) values), w).

(** ** CodeService *)

(** [Like(`%${query.search}%`)] *)
Definition likeContains (s : string) : FindOperator :=
  Like ("%" ++ s ++ "%")%string.

(** The four listing views.  Each ends in one call of
    [this.repository.findAndCount]; the views are written over that call,
    [findAndCount] below, and are run further down against the repository
    on the queries it cuts a page for ([repository_findAndCount]) and
    against the repository on every query ([Postgres.findAndCount]). *)
Module CodeService.

Section Views.

Variable findAndCount : FindOptions -> M (list CodeRow.t * nat).

(** [async getWinners(query: PagingDto)] *)
Definition getWinners : M Page :=
  allWinners <- winnerRepository_find ;;
  let winnerValues := map Winner.value allWinners in
  let filters := winnerValueFilters winnerValues in
  let where0 :=
    {| w_deletedAt := IsNull; w_isUsed := Some true; w_value := Undefined |} in
  let where1 :=
    if (0 <? List.length filters)%nat
    then setValue where0 (Op (In_ filters))
    else setValue where0 Null in
  q <- readQuery ;;
  let where2 :=
    match Js.truthy (search q) with
    | Some s =>
        let w := setValue where1 (Op (likeContains s)) in
        if (0 <? List.length filters)%nat
        then setValue w (Op (In_ (filter (fun v => Js.includes v s) filters)))
        else w
    | None => where1
    end in
  l <- assignLimit ;;
  p <- assignPage ;;
  r <- findAndCount
         {| where_ := where2; relations := [RelUsedBy; RelGift];
            selectGiftId := true; order := UsedAtDesc;
            take := l; skip := ((p - 1) * l)%Z |} ;;
  ret {| data := fst r; total := snd r |}.

(** [async getLosers(query: PagingDto)] *)
Definition getLosers : M Page :=
  allWinners <- winnerRepository_find ;;
  let winnerValues := map Winner.value allWinners in
  let filters := winnerValueFilters winnerValues in
  let where0 :=
    {| w_deletedAt := IsNull; w_isUsed := Some true; w_value := Undefined |} in
  let where1 :=
    if (0 <? List.length filters)%nat
    then setValue where0 (Op (Not (In_ filters)))
    else where0 in
  q <- readQuery ;;
  let where2 :=
    match Js.truthy (search q) with
    | Some s =>
        let w := setValue where1 (Op (likeContains s)) in
        if (0 <? List.length filters)%nat
        then setValue w (Op (Not (In_ filters)))
        else w
    | None => where1
    end in
  l <- assignLimit ;;
  p <- assignPage ;;
  r <- findAndCount
         {| where_ := where2; relations := [RelUsedBy];
            selectGiftId := false; order := UsedAtDesc;
            take := l; skip := ((p - 1) * l)%Z |} ;;
  ret {| data := fst r; total := snd r |}.

(** [async getWinnerCodes(query: PagingDto)] *)
Definition getWinnerCodes : M Page :=
  allWinners <- winnerRepository_find ;;
  let winnerValues := map Winner.value allWinners in
  let filters := winnerValueFilters winnerValues in
  let where0 :=
    {| w_deletedAt := IsNull; w_isUsed := None; w_value := Undefined |} in
  let where1 :=
    if (0 <? List.length filters)%nat
    then setValue where0 (Op (In_ filters))
    else setValue where0 Null in
  q <- readQuery ;;
  let where2 :=
    match Js.truthy (search q) with
    | Some s =>
        let w := setValue where1 (Op (likeContains s)) in
        if (0 <? List.length filters)%nat
        then setValue w (Op (In_ (filter (fun v => Js.includes v s) filters)))
        else w
    | None => where1
    end in
  l <- assignLimit ;;
  p <- assignPage ;;
  r <- findAndCount
         {| where_ := where2; relations := [RelGift; RelUsedBy];
            selectGiftId := true; order := IdAsc;
            take := l; skip := ((p - 1) * l)%Z |} ;;
  ret {| data := fst r; total := snd r |}.

(** [async getNonWinnerCodes(query: PagingDto)] *)
Definition getNonWinnerCodes : M Page :=
  allWinners <- winnerRepository_find ;;
  let winnerValues := map Winner.value allWinners in
  let filters := winnerValueFilters winnerValues in
  let where0 :=
    {| w_deletedAt := IsNull; w_isUsed := None; w_value := Undefined |} in
  let where1 :=
    if (0 <? List.length filters)%nat
    then setValue where0 (Op (Not (In_ filters)))
    else where0 in
  q <- readQuery ;;
  let where2 :=
    match Js.truthy (search q) with
    | Some s =>
        let w := setValue where1 (Op (likeContains s)) in
        if (0 <? List.length filters)%nat
        then setValue w (Op (Not (In_ filters)))
        else w
    | None => where1
    end in
  l <- assignLimit ;;
  p <- assignPage ;;
  r <- findAndCount
         {| where_ := where2; relations := [RelUsedBy];
            selectGiftId := true; order := IdAsc;
            take := l; skip := ((p - 1) * l)%Z |} ;;
  ret {| data := fst r; total := snd r |}.

End Views.

End CodeService.

(** The views over [repository_findAndCount]. *)
Definition getWinners : M Page :=
  CodeService.getWinners repository_findAndCount.

Definition getLosers : M Page :=
  CodeService.getLosers repository_findAndCount.

Definition getWinnerCodes : M Page :=
  CodeService.getWinnerCodes repository_findAndCount.

Definition getNonWinnerCodes : M Page :=
  CodeService.getNonWinnerCodes repository_findAndCount.

(** The four strings [getCodeMonth] looks a value up by. *)
Definition lookupValues (value : string) : list string :=
  let normalized := norm value in
  [value; withHyphen normalized; normalized; Js.replaceHyphens value].

(** [async getCodeMonth(value: string)]; [code.month || null] turns an
    empty month into null. *)
Definition getCodeMonth (value : string) : M CodeMonth :=
  code <- repository_findOne (lookupValues value) ;;
  match code with
  | None => throw NotFound
  | Some c =>
      ret {| cm_value := Code.value c;
             cm_month := Js.truthy (Code.month c) |}
  end.

(** Running a method on a database and a query object. *)
Definition run {A : Type} (m : M A) (d : DB) (q : PagingDto) : Result A * World :=
  m {| db := d; query := q |}.

Definition resultOf {A : Type} (m : M A) (d : DB) (q : PagingDto) : Result A :=
  fst (run m d q).

Definition worldAfter {A : Type} (m : M A) (d : DB) (q : PagingDto) : World :=
  snd (run m d q).

(** The page of a listing view; the empty page stands for a thrown
    error. *)
Definition pageOf (m : M Page) (d : DB) (q : PagingDto) : Page :=
  match resultOf m d q with
  | Ok p => p
  | Throw _ => {| data := []; total := 0 |}
  end.

(** The query object after the two default assignments. *)
Definition withDefaults (q : PagingDto) : PagingDto :=
  {| search := search q;
     limit := Some (Js.nullish (limit q) 10%Z);
     page := Some (Js.nullish (page q) 1%Z);
     orderBy := orderBy q; orderType := orderType q |}.

(** ** Vocabulary of the statements *)

(** Characters the case mapping leaves alone, and characters other than
    the hyphen. *)
Definition upperFixed (c : ascii) : bool := Ascii.eqb (Js.toUpperChar c) c.
Definition notHyphen (c : ascii) : bool := negb (Js.isHyphen c).

Definition headIsWhiteSpace (s : string) : bool :=
  match s with
  | EmptyString => false
  | String c _ => Js.isWhiteSpace c
  end.

(** The values of the winner records that are not deleted, and the variant
    list every view builds from them. *)
Definition winnerValuesOf (d : DB) : list string :=
  map Winner.value (Orm.findWinners d).

Definition filtersOf (d : DB) : list string :=
  winnerValueFilters (winnerValuesOf d).

(** The search term of a query contains-tests a value ([true] without a
    term). *)
Definition searchHit (q : PagingDto) (v : string) : bool :=
  match Js.truthy (search q) with
  | Some s => Js.includes v s
  | None => true
  end.

(** The same test as the database runs it, through [LIKE '%term%']. *)
Definition searchLike (q : PagingDto) (v : string) : bool :=
  match Js.truthy (search q) with
  | Some s => Orm.sqlLike ("%" ++ s ++ "%")%string v
  | None => true
  end.

(** A listing: the rows of the code table that satisfy [pred], in the order
    [o], cut to the page the (defaulted) query asks for, with the number of
    all rows that satisfy [pred]. *)
Definition listing (d : DB) (pred : Code.t -> bool) (o : Order)
    (rels : list Relation) (withGiftId : bool) (q : PagingDto) : Page :=
  let l := Js.nullish (limit q) 10%Z in
  let p := Js.nullish (page q) 1%Z in
  let rows := Orm.sort o (filter pred (codes d)) in
  {| data := map (Orm.project d rels withGiftId)
                 (Orm.paginate l ((p - 1) * l)%Z rows);
     total := List.length (filter pred (codes d)) |}.

(** Order of two returned rows. *)
Definition rowBefore (o : Order) (a b : CodeRow.t) : Prop :=
  match o with
  | UsedAtDesc =>
      match CodeRow.usedAt a, CodeRow.usedAt b with
      | None, _ => True
      | Some _, None => False
      | Some x, Some y => (y <= x)%Z
      end
  | IdAsc => (CodeRow.id a <= CodeRow.id b)%Z
  end.

(** The condition a membership-positive view ([getWinners],
    [getWinnerCodes]) ends up putting on the value column: with winner
    values, membership in the variant list, narrowed to the variants that
    contain the search term when there is one; without winner values, the
    [LIKE] test of the search term, or nothing at all. *)
Definition positiveTest (d : DB) (q : PagingDto) (v : string) : bool :=
  match filtersOf d with
  | [] => searchLike q v
  | fs =>
      match Js.truthy (search q) with
      | Some s => member v (filter (fun x => Js.includes x s) fs)
      | None => member v fs
      end
  end.

(** The same for a membership-negative view ([getLosers],
    [getNonWinnerCodes]). *)
Definition negativeTest (d : DB) (q : PagingDto) (v : string) : bool :=
  match filtersOf d with
  | [] => searchLike q v
  | fs => negb (member v fs)
  end.

Definition winnersPred (d : DB) (q : PagingDto) (c : Code.t) : bool :=
  Orm.notDeleted c && Code.isUsed c && positiveTest d q (Code.value c).

Definition losersPred (d : DB) (q : PagingDto) (c : Code.t) : bool :=
  Orm.notDeleted c && Code.isUsed c && negativeTest d q (Code.value c).

Definition winnerCodesPred (d : DB) (q : PagingDto) (c : Code.t) : bool :=
  Orm.notDeleted c && positiveTest d q (Code.value c).

Definition nonWinnerCodesPred (d : DB) (q : PagingDto) (c : Code.t) : bool :=
  Orm.notDeleted c && negativeTest d q (Code.value c).

(** [a] may stand before [b] in the order [o]. *)
Definition beforeP (o : Order) (a b : Code.t) : Prop := Orm.before o a b = true.

(** The four listing views and what distinguishes their queries. *)
Inductive View := Winners | Losers | WinnerCodes | NonWinnerCodes.

Definition method (v : View) : M Page :=
  match v with
  | Winners => getWinners
  | Losers => getLosers
  | WinnerCodes => getWinnerCodes
  | NonWinnerCodes => getNonWinnerCodes
  end.

Definition viewPred (v : View) : DB -> PagingDto -> Code.t -> bool :=
  match v with
  | Winners => winnersPred
  | Losers => losersPred
  | WinnerCodes => winnerCodesPred
  | NonWinnerCodes => nonWinnerCodesPred
  end.

Definition viewOrder (v : View) : Order :=
  match v with
  | Winners | Losers => UsedAtDesc
  | WinnerCodes | NonWinnerCodes => IdAsc
  end.

Definition viewRelations (v : View) : list Relation :=
  match v with
  | Winners => [RelUsedBy; RelGift]
  | Losers => [RelUsedBy]
  | WinnerCodes => [RelGift; RelUsedBy]
  | NonWinnerCodes => [RelUsedBy]
  end.

Definition viewGiftId (v : View) : bool :=
  match v with
  | Losers => false
  | _ => true
  end.

(** All the rows a view matches, in its order, before the page is cut. *)
Definition fullListing (v : View) (d : DB) (q : PagingDto) : list CodeRow.t :=
  map (Orm.project d (viewRelations v) (viewGiftId v))
      (Orm.sort (viewOrder v) (filter (viewPred v d q) (codes d))).

(** Two lists hold the same strings, whatever the order and the
    repetitions. *)
Definition sameSet (l1 l2 : list string) : bool :=
  forallb (fun x => member x l2) l1 && forallb (fun x => member x l1) l2.

(** The database [d] with [ws] for its winners table. *)
Definition withWinners (d : DB) (ws : list Winner.t) : DB :=
  {| codes := codes d; winners := ws; gifts := gifts d; users := users d |}.

Definition winnerEntry (v : string) : Winner.t :=
  {| Winner.value := v; Winner.deletedAt := None |}.

(** The Losers view as the classification table words it: the query of the
    Winners view (redeemed codes, search term honoured, same columns and
    relations, most recent first) with the membership test negated. *)
Definition losersAsTabled (d : DB) (q : PagingDto) : Page :=
  listing d
    (fun c => Orm.notDeleted c && Code.isUsed c
              && negb (member (Code.value c) (filtersOf d))
              && searchHit q (Code.value c))
    UsedAtDesc [RelUsedBy; RelGift] true q.

(** ** Sample data *)

Module Sample.

Definition cup : Gift.t :=
  {| Gift._id := "g1"; Gift.id := 1; Gift.name := "Cup";
     Gift.type := "symbolic"; Gift.image := "cup.png"; Gift.images := [];
     Gift.deletedAt := None |}.

Definition usedCode (oid : string) (n : Z) (v : string) (g : option string)
    (at_ : Z) : Code.t :=
  {| Code._id := oid; Code.id := n; Code.value := v; Code.giftId := g;
     Code.isUsed := true; Code.usedAt := Some at_; Code.usedById := None;
     Code.month := None; Code.deletedAt := None |}.

Definition twoCodes : list Code.t :=
  [usedCode "c1" 1 "AAAA111111" (Some "g1") 100;
   usedCode "c2" 2 "BBBB222222" None 200].

(** One winner that is none of the two codes. *)
Definition oneWinner : DB :=
  {| codes := twoCodes; winners := [winnerEntry "WINNER0001"];
     gifts := [cup]; users := [] |}.

(** No winner at all. *)
Definition noWinner : DB :=
  {| codes := twoCodes; winners := []; gifts := [cup]; users := [] |}.

(** Two spellings of one code, both redeemed. *)
Definition spellings : DB :=
  {| codes := [usedCode "c1" 1 "ab1234cd56" None 100;
               usedCode "c2" 2 "Ab1234cd56" None 200];
     winners := []; gifts := []; users := [] |}.

(** Redeemed codes written in lower case with a hyphen, and with the
    hyphen in another place. *)
Definition hyphenated : DB :=
  {| codes := [usedCode "c1" 1 "ab1234-cd56" None 100;
               usedCode "c2" 2 "AB12-34CD56" None 200];
     winners := []; gifts := []; users := [] |}.

Definition plain : PagingDto :=
  {| search := None; limit := None; page := None;
     orderBy := None; orderType := None |}.

Definition searching (s : string) : PagingDto :=
  {| search := Some s; limit := None; page := None;
     orderBy := None; orderType := None |}.

Definition paged (l p : Z) : PagingDto :=
  {| search := None; limit := Some l; page := Some p;
     orderBy := None; orderType := None |}.

(** A code table for [getCodeMonth]. *)
Definition months : DB :=
  {| codes :=
       [{| Code._id := "c1"; Code.id := 1; Code.value := "AB12CD-3456";
           Code.giftId := None; Code.isUsed := false; Code.usedAt := None;
           Code.usedById := None; Code.month := Some "2024-05";
           Code.deletedAt := None |}];
     winners := []; gifts := []; users := [] |}.

End Sample.

(** Characters with a meaning of their own in a [LIKE] pattern, and search
    terms free of them. *)
Definition likeMeta (c : ascii) : bool :=
  Ascii.eqb c "%" || Ascii.eqb c "_" || Ascii.eqb c "\".

Definition plainTerm (s : string) : bool :=
  Js.all (fun c => negb (likeMeta c)) s.

(** ** Further vocabulary *)

(** The lower case letters of ASCII. *)
Definition isLower (c : ascii) : bool :=
  let n := nat_of_ascii c in ((97 <=? n) && (n <=? 122))%nat.

(** The code units of ASCII; on strings made of them the case mapping and
    the trim above are those of JavaScript. *)
Definition isAscii (c : ascii) : bool := (nat_of_ascii c <? 128)%nat.

(** The database takes a query whose limit and offset are not negative and
    rejects any other. *)
Definition databaseAccepts (q : PagingDto) : Prop :=
  let l := Js.nullish (limit q) 10%Z in
  let p := Js.nullish (page q) 1%Z in
  (0 <= l)%Z /\ (0 <= (p - 1) * l)%Z.

(** The query object with another page number, or another search term. *)
Definition atPage (q : PagingDto) (p : Z) : PagingDto :=
  {| search := search q; limit := limit q; page := Some p;
     orderBy := orderBy q; orderType := orderType q |}.

(** The database with another code table. *)
Definition withCodes (d : DB) (cs : list Code.t) : DB :=
  {| codes := cs; winners := winners d; gifts := gifts d; users := users d |}.

Definition activeWinner (w : Winner.t) : bool :=
  match Winner.deletedAt w with None => true | Some _ => false end.

(** ** [parseInt]

    [parseInt(s)] without a radix: leading white space is skipped, one sign
    is read, a prefix [0x] or [0X] selects base 16, and the longest run of
    digits of the base gives the value; without any digit the result is
    [NaN] ([None]).  The value is the exact integer; JavaScript rounds it to
    a double from 2^53 on. *)

Module ParseInt.

Definition digitValue (c : ascii) : option nat :=
  let n := nat_of_ascii c in
  if ((48 <=? n) && (n <=? 57))%nat then Some (n - 48)
  else if ((97 <=? n) && (n <=? 122))%nat then Some (n - 87)
  else if ((65 <=? n) && (n <=? 90))%nat then Some (n - 55)
  else None.

(** The digits of base [radix] at the head of [s], most significant
    first. *)
Fixpoint digits (radix : nat) (s : string) : list nat :=
  match s with
  | EmptyString => []
  | String c s' =>
      match digitValue c with
      | Some v => if (v <? radix)%nat then v :: digits radix s' else []
      | None => []
      end
  end.

Definition valueOf (radix : nat) (ds : list nat) : Z :=
  fold_left (fun acc v => (acc * Z.of_nat radix + Z.of_nat v)%Z) ds 0%Z.

Definition signOf (s : string) : bool * string :=
  match s with
  | String c s' =>
      if Ascii.eqb c "-" then (true, s')
      else if Ascii.eqb c "+" then (false, s')
      else (false, s)
  | EmptyString => (false, s)
  end.

Definition radixOf (s : string) : nat * string :=
  match s with
  | String c (String x s') =>
      if Ascii.eqb c "0" && (Ascii.eqb x "x" || Ascii.eqb x "X")
      then (16, s') else (10, s)
  | _ => (10, s)
  end.

Definition parseInt (s : string) : option Z :=
  let (negative, unsigned) := signOf (Js.trimStart s) in
  let (radix, body) := radixOf unsigned in
  match digits radix body with
  | [] => None
  | ds => Some (if negative then (- valueOf radix ds)%Z else valueOf radix ds)
  end.

End ParseInt.

(** ** The other listings of the code service *)

(** [IsNull()] and [Not(IsNull())]. *)
Inductive Nullness := NullIs | NullIsNot.

(** What the listings assign to [where.value], [where.giftId]. *)
Inductive GiftIdCond :=
| GiftIdNotNull
| GiftIdIs (g : string).

(** The [where] object of the listings below; a field that was never
    assigned is [None]. *)
Record CodeWhere := mkCodeWhere
  { cw_deletedAt : NullTest;
    cw_usedAt : option Nullness;
    cw_isUsed : option bool;
    cw_id : option Z;
    cw_value : option FindOperator;
    cw_giftId : option GiftIdCond;
    cw_month : option string;
    cw_usedById : option string }.

Definition whereNotDeleted : CodeWhere :=
  {| cw_deletedAt := IsNull; cw_usedAt := None; cw_isUsed := None;
     cw_id := None; cw_value := None; cw_giftId := None; cw_month := None;
     cw_usedById := None |}.

Definition setUsedAt (w : CodeWhere) (n : Nullness) : CodeWhere :=
  {| cw_deletedAt := cw_deletedAt w; cw_usedAt := Some n;
     cw_isUsed := cw_isUsed w; cw_id := cw_id w; cw_value := cw_value w;
     cw_giftId := cw_giftId w; cw_month := cw_month w;
     cw_usedById := cw_usedById w |}.

Definition setId (w : CodeWhere) (n : Z) : CodeWhere :=
  {| cw_deletedAt := cw_deletedAt w; cw_usedAt := cw_usedAt w;
     cw_isUsed := cw_isUsed w; cw_id := Some n; cw_value := cw_value w;
     cw_giftId := cw_giftId w; cw_month := cw_month w;
     cw_usedById := cw_usedById w |}.

Definition setValueOp (w : CodeWhere) (op : FindOperator) : CodeWhere :=
  {| cw_deletedAt := cw_deletedAt w; cw_usedAt := cw_usedAt w;
     cw_isUsed := cw_isUsed w; cw_id := cw_id w; cw_value := Some op;
     cw_giftId := cw_giftId w; cw_month := cw_month w;
     cw_usedById := cw_usedById w |}.

Definition setGiftId (w : CodeWhere) (g : GiftIdCond) : CodeWhere :=
  {| cw_deletedAt := cw_deletedAt w; cw_usedAt := cw_usedAt w;
     cw_isUsed := cw_isUsed w; cw_id := cw_id w; cw_value := cw_value w;
     cw_giftId := Some g; cw_month := cw_month w;
     cw_usedById := cw_usedById w |}.


Record CodePaging := mkCodePaging
  { cp_data : list CodeRow.t; cp_total : nat; cp_totalUsedCount : nat }.


Module Repo.

Definition isSome {A : Type} (o : option A) : bool :=
  match o with Some _ => true | None => false end.

Definition eqOpt (o : option string) (v : string) : bool :=
  match o with Some x => String.eqb x v | None => false end.

Definition codeMatches (w : CodeWhere) (c : Code.t) : bool :=
  match cw_deletedAt w with IsNull => Orm.notDeleted c end
  && match cw_usedAt w with
     | None => true
     | Some NullIs => negb (isSome (Code.usedAt c))
     | Some NullIsNot => isSome (Code.usedAt c)
     end
  && match cw_isUsed w with
     | None => true
     | Some b => Bool.eqb (Code.isUsed c) b
     end
  && match cw_id w with
     | None => true
     | Some n => (Code.id c =? n)%Z
     end
  && match cw_value w with
     | None => true
     | Some op => Orm.evalOperator op (Code.value c)
     end
  && match cw_giftId w with
     | None => true
     | Some GiftIdNotNull => isSome (Code.giftId c)
     | Some (GiftIdIs g) => eqOpt (Code.giftId c) g
     end
  && match cw_month w with
     | None => true
     | Some m => eqOpt (Code.month c) m
     end
  && match cw_usedById w with
     | None => true
     | Some u => eqOpt (Code.usedById c) u
     end.

(** Several [order] keys compare one after the other: the next key decides
    between rows the keys before it do not tell apart. *)
Fixpoint lexBefore (keys : list Order) (a b : Code.t) : bool :=
  match keys with
  | [] => true
  | k :: keys' =>
      if Orm.before k a b
      then (if Orm.before k b a then lexBefore keys' a b else true)
      else false
  end.

Fixpoint insertBy {A : Type} (leb : A -> A -> bool) (x : A) (l : list A) : list A :=
  match l with
  | [] => [x]
  | y :: l' => if leb x y then x :: l else y :: insertBy leb x l'
  end.

Fixpoint sortBy {A : Type} (leb : A -> A -> bool) (l : list A) : list A :=
  match l with
  | [] => []
  | x :: l' => insertBy leb x (sortBy leb l')
  end.

(** The matching code records in order, before the page is cut. *)
Definition selectCodes (leb : Code.t -> Code.t -> bool) (w : CodeWhere)
    (d : DB) : list Code.t :=
  sortBy leb (filter (codeMatches w) (codes d)).

(** [repository.count({ where })] *)
Definition count (w : CodeWhere) (d : DB) : nat :=
  List.length (filter (codeMatches w) (codes d)).

End Repo.

(** The block every listing below starts its search with:
    [const searchNum = parseInt(query.search);
     if (!isNaN(searchNum)) where.id = searchNum;
     else where.value = Like(`%${query.search}%`)]. *)
Definition applySearch (w : CodeWhere) (search : option string) : CodeWhere :=
  match Js.truthy search with
  | Some s =>
      match ParseInt.parseInt s with
      | Some n => setId w n
      | None => setValueOp w (likeContains s)
      end
  | None => w
  end.

(** [repository.findAndCount({ where, relations, select, order, take, skip })]
    on the code table: [leb] is the order, [proj] the selected columns and
    relations.  As [repository_findAndCount], this is the call on the
    queries a page is cut for: a [take] of at least 1, a [skip] that is not
    negative, and an order on columns the table has. *)
Definition repository_findAndCountBy {R : Type} (leb : Code.t -> Code.t -> bool)
    (w : CodeWhere) (proj : DB -> Code.t -> R) (take skip : Z)
  : M (list R * nat) :=
  fun world =>
    let rows := Repo.selectCodes leb w (db world) in
    (Ok (map (proj (db world)) (Orm.paginate take skip rows), List.length rows),
     world).

Definition repository_count (w : CodeWhere) : M nat :=
  fun world => (Ok (Repo.count w (db world)), world).

(** [order: { usedAt: 'DESC', id: 'ASC' }] *)
Definition byUsedAtThenId : Code.t -> Code.t -> bool :=
  Repo.lexBefore [UsedAtDesc; IdAsc].

(** [async getPaging(query: CodePagingDto)].  Modelled from the spec: the
    class [CodePagingDto] is not among the sources; it is the paging object
    with the two filters [isUsed] and [giftId] the method reads, given here
    as arguments since the method never assigns them. *)
Definition getPaging (isUsed : option bool) (giftId : option string)
  : M CodePaging :=
  let where0 := whereNotDeleted in
  let where1 :=
    match isUsed with
    | Some b => setUsedAt where0 (if b then NullIsNot else NullIs)
    | None => where0
    end in
  q <- readQuery ;;
  let where2 := applySearch where1 (search q) in
  let where3 :=
    match Js.truthy giftId with
    | Some g =>
        if String.eqb g "withGift" then setGiftId where2 GiftIdNotNull
        else setGiftId where2 (GiftIdIs g)
    | None => where2
    end in
  l <- assignLimit ;;
  p <- assignPage ;;
  r <- repository_findAndCountBy byUsedAtThenId where3
         (fun d => Orm.project d [RelGift; RelUsedBy] true)
         l ((p - 1) * l)%Z ;;
  totalUsedCount <-
    repository_count
      {| cw_deletedAt := IsNull; cw_usedAt := Some NullIsNot;
         cw_isUsed := Some true; cw_id := None; cw_value := None;
         cw_giftId := None; cw_month := None; cw_usedById := None |} ;;
  ret {| cp_data := fst r; cp_total := snd r;
         cp_totalUsedCount := totalUsedCount |}.

(** [async getUsedByUserPaging(query: PagingDto, usedById: string)].  The
    order is [{ [query.orderBy || 'id']: orderType }]: how the rows compare
    on a named column is the database's, so [columnBefore name] is taken as
    given (the ascending order on the column [name]); descending is its
    converse. *)
Definition getUsedByUserPaging (columnBefore : string -> Code.t -> Code.t -> bool)
    (usedById : string) : M Page :=
  let where0 :=
    {| cw_deletedAt := IsNull; cw_usedAt := None; cw_isUsed := None;
       cw_id := None; cw_value := None; cw_giftId := None;
       cw_month := None; cw_usedById := Some usedById |} in
  q <- readQuery ;;
  let where1 := applySearch where0 (search q) in
  l <- assignLimit ;;
  p <- assignPage ;;
  let ascending :=
    match orderType q with
    | Some t => String.eqb t "ASC"
    | None => false
    end in
  let column :=
    match Js.truthy (orderBy q) with
    | Some c => c
    | None => "id"
    end in
  let leb :=
    if ascending then columnBefore column
    else fun a b => columnBefore column b a in
  r <- repository_findAndCountBy leb where1
         (fun d => Orm.project d [RelGift] true)
         l ((p - 1) * l)%Z ;;
  ret {| data := fst r; total := snd r |}.


(** [giftRepository.findOne({ where: { _id: id, deletedAt: IsNull() } })] *)
Definition giftRepository_findOne (id : string) : M (option Gift.t) :=
  fun world =>
    (Ok (find (fun g => String.eqb (Gift._id g) id
                        && match Gift.deletedAt g with
                           | None => true
                           | Some _ => false
                           end)
              (gifts (db world))),
     world).

Record CheckedCode := mkCheckedCode
  { cc_value : string; cc_gift : option Gift.t }.

(** [async checkCode(value: string)].  The inherited
    [this.findOne({ value, deletedAt: IsNull() }, { value: true, giftId: true })]
    is not among the sources: [baseFindOne value] stands for it. *)
Definition checkCode (baseFindOne : string -> M (option Code.t))
    (value : string) : M CheckedCode :=
  code <- baseFindOne value ;;
  match code with
  | None => throw NotFound
  | Some c =>
      match Js.truthy (Code.giftId c) with
      | None => ret {| cc_value := Code.value c; cc_gift := None |}
      | Some g =>
          gift <- giftRepository_findOne g ;;
          match gift with
          | None => ret {| cc_value := Code.value c; cc_gift := None |}
          | Some gf => ret {| cc_value := Code.value c; cc_gift := Some gf |}
          end
      end
  end.

(** The exact-value lookup on the code table, one way to read the inherited
    [findOne]. *)
Definition exactFindOne (value : string) : M (option Code.t) :=
  fun world =>
    (Ok (find (fun c => Orm.notDeleted c && String.eqb (Code.value c) value)
              (codes (db world))),
     world).

(** ** Vocabulary for the other listings *)

Definition isDecimalDigit (c : ascii) : bool :=
  let n := nat_of_ascii c in ((48 <=? n) && (n <=? 57))%nat.

Definition startsWithX (s : string) : bool :=
  match s with
  | String x _ => Ascii.eqb x "x" || Ascii.eqb x "X"
  | EmptyString => false
  end.

(** What the search block asks of a code record: the identifier when the
    term parses as a number, the [LIKE] test on the value otherwise. *)
Definition searchFilter (search : option string) (c : Code.t) : bool :=
  match Js.truthy search with
  | None => true
  | Some s =>
      match ParseInt.parseInt s with
      | Some n => (Code.id c =? n)%Z
      | None => Orm.sqlLike ("%" ++ s ++ "%")%string (Code.value c)
      end
  end.

Definition usedAtFilter (isUsed : option bool) (c : Code.t) : bool :=
  match isUsed with
  | None => true
  | Some true => Repo.isSome (Code.usedAt c)
  | Some false => negb (Repo.isSome (Code.usedAt c))
  end.

Definition giftFilter (giftId : option string) (c : Code.t) : bool :=
  match Js.truthy giftId with
  | None => true
  | Some g =>
      if String.eqb g "withGift" then Repo.isSome (Code.giftId c)
      else Repo.eqOpt (Code.giftId c) g
  end.

Definition pagingPred (isUsed : option bool) (giftId : option string)
    (q : PagingDto) (c : Code.t) : bool :=
  Orm.notDeleted c && usedAtFilter isUsed c && searchFilter (search q) c
  && giftFilter giftId c.


Definition userPred (usedById : string) (q : PagingDto) (c : Code.t) : bool :=
  Orm.notDeleted c && Repo.eqOpt (Code.usedById c) usedById
  && searchFilter (search q) c.

(** The result of a method, or [fallback] if it threw. *)
Definition valueOr {A : Type} (fallback : A) (r : Result A) : A :=
  match r with
  | Ok a => a
  | Throw _ => fallback
  end.

Definition pagingOf (isUsed : option bool) (giftId : option string) (d : DB)
    (q : PagingDto) : CodePaging :=
  valueOr {| cp_data := []; cp_total := 0; cp_totalUsedCount := 0 |}
          (resultOf (getPaging isUsed giftId) d q).


Definition userPageOf (columnBefore : string -> Code.t -> Code.t -> bool)
    (usedById : string) (d : DB) (q : PagingDto) : Page :=
  valueOr {| data := []; total := 0 |}
          (resultOf (getUsedByUserPaging columnBefore usedById) d q).

(** Most recent redemption first, and by ascending identifier among rows
    with the same redemption date. *)
Definition rowBeforeLex (a b : CodeRow.t) : Prop :=
  rowBefore UsedAtDesc a b /\
  (rowBefore UsedAtDesc b a -> rowBefore IdAsc a b).

(** The order [getUsedByUserPaging] asks for. *)
Definition userOrder (columnBefore : string -> Code.t -> Code.t -> bool)
    (q : PagingDto) (a b : Code.t) : bool :=
  let column := match Js.truthy (orderBy q) with Some c => c | None => "id" end in
  match orderType q with
  | Some t => if String.eqb t "ASC" then columnBefore column a b
              else columnBefore column b a
  | None => columnBefore column b a
  end.

Module Sample2.

Definition code (oid : string) (n : Z) (v : string) (g : option string)
    (used : bool) (at_ : option Z) (by_ : option string) (m : option string)
  : Code.t :=
  {| Code._id := oid; Code.id := n; Code.value := v; Code.giftId := g;
     Code.isUsed := used; Code.usedAt := at_; Code.usedById := by_;
     Code.month := m; Code.deletedAt := None |}.

(** A code whose value begins with digits, one that contains the same
    text further in, and a code marked used without a redemption date. *)
Definition shop : DB :=
  {| codes :=
       [code "c1" 12 "12AB000000" (Some "g1") true (Some 100%Z) (Some "u1")
             (Some "2024-05");
        code "c2" 2 "X12AB00000" None false (Some 200%Z) (Some "u2") None;
        code "c3" 3 "ZZ" None true None (Some "u1") (Some "2024-05")];
     winners := []; gifts := [Sample.cup]; users := [] |}.

(** The ascending order of the columns [id] and [usedAt]. *)
Definition columnBefore (name : string) (a b : Code.t) : bool :=
  if String.eqb name "usedAt" then Orm.before UsedAtDesc b a
  else Orm.before IdAsc a b.

Definition ordered (t : string) : PagingDto :=
  {| search := None; limit := None; page := None;
     orderBy := None; orderType := Some t |}.

End Sample2.

(** ** UserService

    Modelled from the spec: the entity [User], the enumeration [UserRole],
    the class [UserDto] and the exceptions of [UserException] are not among
    the sources; they carry what the methods below read and write.  The
    methods inherited from the base services ([findByIdAndUpdate],
    [deleteById], [hashPassword]) are not among the sources either: they
    are taken as given. *)

Module Users.

Inductive Role := USER | ADMIN | SUPER_ADMIN.

Inductive Exn :=
| NotFound
| AllreadyExist (what : string)
| PasswordsDoNotMatch
| NotEnoughPermission (message : string).

Record Account := mkAccount
  { _id : string; username : option string; role : Role;
    password : option string;
    firstName : option string; lastName : option string;
    phoneNumber : option string; email : option string;
    address : option string; birthday : option string;
    gender : option string; status : option string; lang : option string;
    tgFirstName : option string; tgLastName : option string;
    tgUsername : option string;
    deletedAt : option Z }.

(** The request object; [d_role = None] stands for a missing role. *)
Record UserDto := mkUserDto
  { d_id : string; d_username : option string; d_role : option Role;
    d_password : option string; d_confirmPassword : option string;
    d_firstName : option string; d_lastName : option string;
    d_phoneNumber : option string; d_email : option string;
    d_address : option string; d_birthday : option string;
    d_gender : option string; d_status : option string; d_lang : option string;
    d_tgFirstName : option string; d_tgLastName : option string;
    d_tgUsername : option string }.

(** [Partial<User>] as the two update methods fill it; [None] in [up_role]
    and [up_password] is a property that was not set. *)
Record UpdateData := mkUpdateData
  { up_firstName : option string; up_lastName : option string;
    up_username : option string; up_phoneNumber : option string;
    up_email : option string; up_address : option string;
    up_birthday : option string; up_gender : option string;
    up_status : option string; up_lang : option string;
    up_tgFirstName : option string; up_tgLastName : option string;
    up_tgUsername : option string;
    up_role : option Role; up_password : option string }.

(** What an update returns: the user without the password, and its
    identifier once more as [id]. *)
Record Updated := mkUpdated { u_user : Account; u_id : string }.

Definition Store : Type := list Account.

Inductive Result (A : Type) : Type :=
| Ok (a : A)
| Throw (e : Exn).
Arguments Ok {A} a.
Arguments Throw {A} e.

Definition M (A : Type) : Type := Store -> Result A * Store.

Definition ret {A : Type} (a : A) : M A := fun st => (Ok a, st).

Definition throw {A : Type} (e : Exn) : M A := fun st => (Throw e, st).

Definition bind {A B : Type} (m : M A) (k : A -> M B) : M B :=
  fun st =>
    match m st with
    | (Ok a, st') => k a st'
    | (Throw e, st') => (Throw e, st')
    end.

(** [repository.findOne({ where })]: the first row that passes. *)
Definition findOne (p : Account -> bool) : M (option Account) :=
  fun st => (Ok (find p st), st).

Definition notDeleted (a : Account) : bool :=
  match deletedAt a with None => true | Some _ => false end.

Definition isAdmin (r : Role) : bool :=
  match r with ADMIN => true | _ => false end.

Definition isSuperAdmin (r : Role) : bool :=
  match r with SUPER_ADMIN => true | _ => false end.

Definition sameOpt (a b : option string) : bool :=
  match a, b with
  | Some x, Some y => String.eqb x y
  | None, None => true
  | _, _ => false
  end.

Definition hasUsername (name : string) (a : Account) : bool :=
  match username a with Some x => String.eqb x name | None => false end.

(** The thirteen fields both update methods copy from the request. *)
Definition copied (data : UserDto) : UpdateData :=
  {| up_firstName := d_firstName data; up_lastName := d_lastName data;
     up_username := d_username data; up_phoneNumber := d_phoneNumber data;
     up_email := d_email data; up_address := d_address data;
     up_birthday := d_birthday data; up_gender := d_gender data;
     up_status := d_status data; up_lang := d_lang data;
     up_tgFirstName := d_tgFirstName data; up_tgLastName := d_tgLastName data;
     up_tgUsername := d_tgUsername data;
     up_role := None; up_password := None |}.

Definition setRole (u : UpdateData) (r : Role) : UpdateData :=
  {| up_firstName := up_firstName u; up_lastName := up_lastName u;
     up_username := up_username u; up_phoneNumber := up_phoneNumber u;
     up_email := up_email u; up_address := up_address u;
     up_birthday := up_birthday u; up_gender := up_gender u;
     up_status := up_status u; up_lang := up_lang u;
     up_tgFirstName := up_tgFirstName u; up_tgLastName := up_tgLastName u;
     up_tgUsername := up_tgUsername u;
     up_role := Some r; up_password := up_password u |}.

Definition setPassword (u : UpdateData) (hashed : string) : UpdateData :=
  {| up_firstName := up_firstName u; up_lastName := up_lastName u;
     up_username := up_username u; up_phoneNumber := up_phoneNumber u;
     up_email := up_email u; up_address := up_address u;
     up_birthday := up_birthday u; up_gender := up_gender u;
     up_status := up_status u; up_lang := up_lang u;
     up_tgFirstName := up_tgFirstName u; up_tgLastName := up_tgLastName u;
     up_tgUsername := up_tgUsername u;
     up_role := up_role u; up_password := Some hashed |}.

(** [const { password, ...userWithoutPassword } = user] with [_id] and [id]
    set from the identifier. *)
Definition withoutPassword (a : Account) : Updated :=
  {| u_user :=
       {| _id := _id a; username := username a; role := role a;
          password := None;
          firstName := firstName a; lastName := lastName a;
          phoneNumber := phoneNumber a; email := email a;
          address := address a; birthday := birthday a;
          gender := gender a; status := status a; lang := lang a;
          tgFirstName := tgFirstName a; tgLastName := tgLastName a;
          tgUsername := tgUsername a; deletedAt := deletedAt a |};
     u_id := _id a |}.

Section Service.

Variable hashPassword : string -> string.
Variable findByIdAndUpdate : string -> UpdateData -> M (option Account).
Variable deleteById : string -> string -> M string.

(** The user name check both update methods share:
    [if (data.username && data._id.toString() !== user._id.toString())]. *)
Definition checkUsername (data : UserDto) (user : Account)
    (p : string -> Account -> bool) : M unit :=
  match Js.truthy (d_username data) with
  | Some name =>
      if negb (String.eqb (d_id data) (_id user)) then
        bind (findOne (p name))
             (fun userByUsername =>
                match userByUsername with
                | Some _ => throw (AllreadyExist "username")
                | None => ret tt
                end)
      else ret tt
  | None => ret tt
  end.

Definition finish (newUser : option Account) : M Updated :=
  match newUser with
  | None => throw NotFound
  | Some a => ret (withoutPassword a)
  end.

(** [async findByIdAndUpdateUser(data: UserDto)] *)
Definition findByIdAndUpdateUser (data : UserDto) : M Updated :=
  bind (findOne (fun a => String.eqb (_id a) (d_id data)))
       (fun user =>
          match user with
          | None => throw NotFound
          | Some user =>
              if negb (isAdmin (role user)) then throw NotFound
              else
                bind (checkUsername data user hasUsername)
                     (fun _ =>
                        let updateData := copied data in
                        let updateData :=
                          match Js.truthy (d_password data) with
                          | Some pw => setPassword updateData (hashPassword pw)
                          | None => updateData
                          end in
                        bind (findByIdAndUpdate (d_id data) updateData) finish)
          end).

(** [async updateAnyUser(data: UserDto, allowRoleChange: boolean = false)] *)
Definition updateAnyUser (data : UserDto) (allowRoleChange : bool) : M Updated :=
  bind (findOne (fun a => String.eqb (_id a) (d_id data) && notDeleted a))
       (fun user =>
          match user with
          | None => throw NotFound
          | Some user =>
              bind (checkUsername data user
                      (fun name a => hasUsername name a && notDeleted a))
                   (fun _ =>
                      let updateData := copied data in
                      let updateData :=
                        match allowRoleChange, d_role data with
                        | true, Some r => setRole updateData r
                        | _, _ => updateData
                        end in
                      match Js.truthy (d_password data) with
                      | Some pw =>
                          if negb (sameOpt (d_password data) (d_confirmPassword data))
                          then throw PasswordsDoNotMatch
                          else
                            bind (findByIdAndUpdate (d_id data)
                                    (setPassword updateData (hashPassword pw)))
                                 finish
                      | None =>
                          bind (findByIdAndUpdate (d_id data) updateData) finish
                      end)
          end).

(** [async deleteAnyUser(id: string, deletedBy: string)] *)
Definition deleteAnyUser (id deletedBy : string) : M string :=
  bind (findOne (fun a => String.eqb (_id a) id && notDeleted a))
       (fun user =>
          match user with
          | None => throw NotFound
          | Some user =>
              if isSuperAdmin (role user)
              then throw (NotEnoughPermission "Cannot delete SUPER_ADMIN")
              else deleteById id deletedBy
          end).

End Service.

(** Sample data: a store with a super administrator, an administrator and
    a deleted user, and base methods that mark a row deleted and write the
    fields of an update. *)
Definition account (oid name : string) (r : Role) (del : option Z) : Account :=
  {| _id := oid; username := Some name; role := r; password := Some "h";
     firstName := None; lastName := None; phoneNumber := None;
     email := None; address := None; birthday := None; gender := None;
     status := None; lang := None; tgFirstName := None; tgLastName := None;
     tgUsername := None; deletedAt := del |}.

Definition staff : Store :=
  [account "u0" "root" SUPER_ADMIN None;
   account "u1" "anna" ADMIN None;
   account "u2" "bob" USER (Some 5%Z);
   account "u3" "carl" USER None].

Definition markDeleted (id : string) (a : Account) : Account :=
  if String.eqb (_id a) id then
    {| _id := _id a; username := username a; role := role a;
       password := password a;
       firstName := firstName a; lastName := lastName a;
       phoneNumber := phoneNumber a; email := email a;
       address := address a; birthday := birthday a;
       gender := gender a; status := status a; lang := lang a;
       tgFirstName := tgFirstName a; tgLastName := tgLastName a;
       tgUsername := tgUsername a; deletedAt := Some 9%Z |}
  else a.

Definition sampleDeleteById (id deletedBy : string) : M string :=
  fun st => (Ok id, map (markDeleted id) st).

Definition applyUpdate (id : string) (u : UpdateData) (a : Account) : Account :=
  if String.eqb (_id a) id then
    {| _id := _id a; username := up_username u;
       role := match up_role u with Some r => r | None => role a end;
       password := match up_password u with Some p => Some p | None => password a end;
       firstName := up_firstName u; lastName := up_lastName u;
       phoneNumber := up_phoneNumber u; email := up_email u;
       address := up_address u; birthday := up_birthday u;
       gender := up_gender u; status := up_status u; lang := up_lang u;
       tgFirstName := up_tgFirstName u; tgLastName := up_tgLastName u;
       tgUsername := up_tgUsername u; deletedAt := deletedAt a |}
  else a.

Definition sampleUpdate (id : string) (u : UpdateData) : M (option Account) :=
  fun st =>
    let st' := map (applyUpdate id u) st in
    (Ok (find (fun a => String.eqb (_id a) id) st'), st').

Definition sampleHash (pw : string) : string := ("#" ++ pw)%string.

Definition request (id : string) (name : option string) (r : option Role)
    (pw confirm : option string) : UserDto :=
  {| d_id := id; d_username := name; d_role := r; d_password := pw;
     d_confirmPassword := confirm;
     d_firstName := None; d_lastName := None; d_phoneNumber := None;
     d_email := None; d_address := None; d_birthday := None;
     d_gender := None; d_status := None; d_lang := None;
     d_tgFirstName := None; d_tgLastName := None; d_tgUsername := None |}.

(** The request with another confirmation of the password. *)
Definition withConfirm (data : UserDto) (c : option string) : UserDto :=
  {| d_id := d_id data; d_username := d_username data; d_role := d_role data;
     d_password := d_password data; d_confirmPassword := c;
     d_firstName := d_firstName data; d_lastName := d_lastName data;
     d_phoneNumber := d_phoneNumber data; d_email := d_email data;
     d_address := d_address data; d_birthday := d_birthday data;
     d_gender := d_gender data; d_status := d_status data;
     d_lang := d_lang data; d_tgFirstName := d_tgFirstName data;
     d_tgLastName := d_tgLastName data; d_tgUsername := d_tgUsername data |}.

(** The request with its role left out. *)
Definition withoutRole (data : UserDto) : UserDto :=
  {| d_id := d_id data; d_username := d_username data; d_role := None;
     d_password := d_password data;
     d_confirmPassword := d_confirmPassword data;
     d_firstName := d_firstName data; d_lastName := d_lastName data;
     d_phoneNumber := d_phoneNumber data; d_email := d_email data;
     d_address := d_address data; d_birthday := d_birthday data;
     d_gender := d_gender data; d_status := d_status data;
     d_lang := d_lang data; d_tgFirstName := d_tgFirstName data;
     d_tgLastName := d_tgLastName data; d_tgUsername := d_tgUsername data |}.

End Users.


(** ** The repository on every query

    What [repository.findAndCount] does with a query whatever its [take] and
    [skip].  The ORM leaves the [LIMIT] clause out when [take] is 0, so that
    every row from the offset on is returned; the database rejects a
    negative [LIMIT] or [OFFSET]; and among rows with equal sort keys the
    database returns the order it pleases, which may change from one query
    to the next: [arrange] stands for that choice. *)

Module Postgres.

Definition cut {A : Type} (take skip : Z) (l : list A) : list A :=
  let rest := skipn (Z.to_nat skip) l in
  if (take =? 0)%Z then rest else firstn (Z.to_nat take) rest.

Definition accepts (o : FindOptions) : bool :=
  ((0 <=? take o) && (0 <=? skip o))%Z.

Section Engine.

Variable arrange : FindOptions -> list Code.t -> list Code.t.

Definition findAndCount (o : FindOptions) : M (list CodeRow.t * nat) :=
  fun w =>
    if accepts o then
      let matched := filter (Orm.rowMatches (where_ o)) (codes (db w)) in
      (Ok (map (Orm.project (db w) (relations o) (selectGiftId o))
               (cut (take o) (skip o) (arrange o matched)),
           List.length matched),
       w)
    else (Throw QueryFailed, w).

End Engine.

(** One choice of the database: rows with equal keys in table order. *)
Definition tableOrder (o : FindOptions) (l : list Code.t) : list Code.t :=
  Orm.sort (order o) l.

(** Another one: rows with equal keys in reverse table order. *)
Definition reverseOrder (o : FindOptions) (l : list Code.t) : list Code.t :=
  Orm.sort (order o) (rev l).

End Postgres.

(** What every choice of the database has to respect: the rows returned are
    the matching rows, each as often as it matches, in the order asked
    for. *)
Definition lawful (arrange : FindOptions -> list Code.t -> list Code.t) : Prop :=
  forall o l,
    Permutation (arrange o l) l /\ Sorted (beforeP (order o)) (arrange o l).

(** The views over a [findAndCount], and over the repository on every
    query. *)
Definition methodOn (findAndCount : FindOptions -> M (list CodeRow.t * nat))
    (v : View) : M Page :=
  match v with
  | Winners => CodeService.getWinners findAndCount
  | Losers => CodeService.getLosers findAndCount
  | WinnerCodes => CodeService.getWinnerCodes findAndCount
  | NonWinnerCodes => CodeService.getNonWinnerCodes findAndCount
  end.

Definition served (arrange : FindOptions -> list Code.t -> list Code.t)
    (v : View) : M Page :=
  methodOn (Postgres.findAndCount arrange) v.

(** The rows a view matches, as table rows. *)
Definition matched (v : View) (d : DB) (q : PagingDto) : list Code.t :=
  filter (viewPred v d q) (codes d).

(** No two matched rows share the sort key of the view. *)
Definition distinctKeys (v : View) (d : DB) (q : PagingDto) : Prop :=
  forall a b, In a (matched v d q) -> In b (matched v d q) ->
    Orm.before (viewOrder v) a b = true -> Orm.before (viewOrder v) b a = true ->
    a = b.

(** The page as the specification words it: the [limit] rows that start at
    the offset [(page - 1) * limit] of the rows the view matches. *)
Definition pageAsWorded (v : View) (d : DB) (q : PagingDto) : list CodeRow.t :=
  let l := Js.nullish (limit q) 10%Z in
  let p := Js.nullish (page q) 1%Z in
  firstn (Z.to_nat l) (skipn (Z.to_nat ((p - 1) * l)) (fullListing v d q)).

(** ** Spellings of a code value *)




(** * Properties *)

(** ** Strings *)

Section StringFacts.

Lemma toUpperChar_fixed (c : ascii) : upperFixed (Js.toUpperChar c) = true.
Proof.
  destruct c as [b0 b1 b2 b3 b4 b5 b6 b7].
  destruct b0, b1, b2, b3, b4, b5, b6, b7; reflexivity.
Qed.

Lemma all_toUpperCase (s : string) :
  Js.all upperFixed (Js.toUpperCase s) = true.
Proof.
  induction s as [|c s IH]; simpl; [reflexivity|].
  now rewrite toUpperChar_fixed, IH.
Qed.

Lemma all_replaceHyphens_keeps (P : ascii -> bool) (s : string) :
  Js.all P s = true -> Js.all P (Js.replaceHyphens s) = true.
Proof.
  induction s as [|c s IH]; simpl; [trivial|].
  intros H. apply andb_true_iff in H as [Hc Hs].
  destruct (Js.isHyphen c); simpl; [auto|].
  now rewrite Hc, IH.
Qed.

Lemma all_replaceHyphens_clean (s : string) :
  Js.all notHyphen (Js.replaceHyphens s) = true.
Proof.
  induction s as [|c s IH]; simpl; [reflexivity|].
  destruct (Js.isHyphen c) eqn:E; simpl; [assumption|].
  unfold notHyphen at 1. now rewrite E, IH.
Qed.

Lemma all_trimStart (P : ascii -> bool) (s : string) :
  Js.all P s = true -> Js.all P (Js.trimStart s) = true.
Proof.
  induction s as [|c s IH]; simpl; [trivial|].
  intros H. destruct (Js.isWhiteSpace c); [|exact H].
  apply andb_true_iff in H as [_ Hs]. auto.
Qed.

Lemma all_trimEnd (P : ascii -> bool) (s : string) :
  Js.all P s = true -> Js.all P (Js.trimEnd s) = true.
Proof.
  induction s as [|c s IH]; simpl; [trivial|].
  intros H. apply andb_true_iff in H as [Hc Hs].
  specialize (IH Hs).
  destruct (Js.trimEnd s) as [|d t].
  - destruct (Js.isWhiteSpace c); simpl; [reflexivity|].
    now rewrite Hc.
  - change (P c && Js.all P (String d t) = true). now rewrite Hc, IH.
Qed.

Lemma all_trim (P : ascii -> bool) (s : string) :
  Js.all P s = true -> Js.all P (Js.trim s) = true.
Proof. intros H. unfold Js.trim. now apply all_trimEnd, all_trimStart. Qed.

Lemma toUpperCase_fixed (s : string) :
  Js.all upperFixed s = true -> Js.toUpperCase s = s.
Proof.
  induction s as [|c s IH]; simpl; [trivial|].
  intros H. apply andb_true_iff in H as [Hc Hs].
  apply Ascii.eqb_eq in Hc. now rewrite Hc, IH.
Qed.

Lemma replaceHyphens_fixed (s : string) :
  Js.all notHyphen s = true -> Js.replaceHyphens s = s.
Proof.
  induction s as [|c s IH]; simpl; [trivial|].
  intros H. apply andb_true_iff in H as [Hc Hs].
  unfold notHyphen in Hc. apply negb_true_iff in Hc.
  now rewrite Hc, IH.
Qed.

Lemma orEmpty_id (s : string) : Js.orEmpty s = s.
Proof. now destruct s. Qed.

Lemma head_trimStart (s : string) : headIsWhiteSpace (Js.trimStart s) = false.
Proof.
  induction s as [|c s IH]; simpl; [reflexivity|].
  destruct (Js.isWhiteSpace c) eqn:E; [assumption|]. simpl. exact E.
Qed.

Lemma trimStart_fixed (s : string) :
  headIsWhiteSpace s = false -> Js.trimStart s = s.
Proof. destruct s as [|c s]; simpl; [trivial|]. now intros ->. Qed.

Lemma head_trimEnd (s : string) :
  headIsWhiteSpace s = false -> headIsWhiteSpace (Js.trimEnd s) = false.
Proof.
  destruct s as [|c s]; simpl; [trivial|].
  intros H. destruct (Js.trimEnd s); [rewrite H|]; simpl; assumption.
Qed.

Lemma trimEnd_idem (s : string) : Js.trimEnd (Js.trimEnd s) = Js.trimEnd s.
Proof.
  induction s as [|c s IH]; simpl; [reflexivity|].
  destruct (Js.trimEnd s) as [|d t] eqn:E.
  - destruct (Js.isWhiteSpace c) eqn:W; simpl; [reflexivity|].
    now rewrite W.
  - change (Js.trimEnd (String c (String d t))) with
      (match Js.trimEnd (String d t) with
       | EmptyString =>
           if Js.isWhiteSpace c then EmptyString else String c EmptyString
       | u => String c u
       end).
    now rewrite IH.
Qed.

Lemma trim_idem (s : string) : Js.trim (Js.trim s) = Js.trim s.
Proof.
  unfold Js.trim.
  rewrite (trimStart_fixed (Js.trimEnd (Js.trimStart s))).
  - apply trimEnd_idem.
  - apply head_trimEnd, head_trimStart.
Qed.

Lemma norm_unfold (s : string) :
  norm s = Js.replaceHyphens (Js.toUpperCase (Js.trim s)).
Proof. unfold norm. now rewrite orEmpty_id. Qed.

Lemma norm_upperFixed (s : string) : Js.all upperFixed (norm s) = true.
Proof. rewrite norm_unfold. apply all_replaceHyphens_keeps, all_toUpperCase. Qed.

Lemma norm_notHyphen (s : string) : Js.all notHyphen (norm s) = true.
Proof. rewrite norm_unfold. apply all_replaceHyphens_clean. Qed.

(** On a string without hyphens and without lower case letters the
    normaliser only trims. *)
Lemma norm_of_clean (s : string) :
  Js.all upperFixed s = true -> Js.all notHyphen s = true ->
  norm s = Js.trim s.
Proof.
  intros Hu Hh. rewrite norm_unfold.
  rewrite toUpperCase_fixed by now apply all_trim.
  apply replaceHyphens_fixed. now apply all_trim.
Qed.

Lemma norm_norm (s : string) : norm (norm s) = Js.trim (norm s).
Proof. apply norm_of_clean; [apply norm_upperFixed | apply norm_notHyphen]. Qed.

Lemma length_toUpperCase (s : string) :
  String.length (Js.toUpperCase s) = String.length s.
Proof. induction s as [|c s IH]; simpl; congruence. Qed.

Lemma length_replaceHyphens (s : string) :
  String.length (Js.replaceHyphens s) <= String.length s.
Proof.
  induction s as [|c s IH]; simpl; [lia|].
  destruct (Js.isHyphen c); simpl; lia.
Qed.

Lemma length_trimStart (s : string) :
  String.length (Js.trimStart s) <= String.length s.
Proof.
  induction s as [|c s IH]; simpl; [lia|].
  destruct (Js.isWhiteSpace c); simpl; lia.
Qed.

Lemma length_trimEnd (s : string) :
  String.length (Js.trimEnd s) <= String.length s.
Proof.
  induction s as [|c s IH]; simpl; [lia|].
  destruct (Js.trimEnd s) as [|d t].
  - destruct (Js.isWhiteSpace c); simpl; lia.
  - simpl in *. lia.
Qed.

(** White space at the ends. *)

Lemma trimStart_fixed_iff (s : string) :
  Js.trimStart s = s <-> headIsWhiteSpace s = false.
Proof.
  split; [|apply trimStart_fixed].
  intros H. rewrite <- H. apply head_trimStart.
Qed.











End StringFacts.

(** C5, as the code has it: [norm] is the total function trim, upper case,
    remove hyphens; applying it to its own result trims that result once
    more and changes nothing else, so [norm (norm s) = norm s] holds exactly
    when [norm s] has no white space left at its ends, and a third
    application never changes anything. *)
Theorem norm_spec_and_second_pass (s : string) :
  norm s = norm_spec s /\
  norm (norm s) = Js.trim (norm s) /\
  (norm (norm s) = norm s <-> Js.trim (norm s) = norm s) /\
  norm (norm (norm s)) = norm (norm s).
Proof.
  split; [apply norm_unfold|].
  split; [apply norm_norm|].
  split.
  - now rewrite norm_norm.
  - rewrite (norm_norm (norm s)), (norm_norm s). apply trim_idem.
Qed.

(** C5, counterexample: removing the hyphen of ["- a"] uncovers a space
    that the trim, which ran first, did not see. *)
Lemma norm_not_idempotent :
  norm "- a" = " A" /\ norm (norm "- a") = "A" /\
  ~ (forall s : string, norm (norm s) = norm s).
Proof.
  split; [reflexivity|]. split; [reflexivity|].
  intros H. specialize (H "- a"). discriminate H.
Qed.

(** ** The variant list *)

Lemma member_In (v : string) (l : list string) : member v l = true <-> In v l.
Proof.
  unfold member. rewrite existsb_exists. split.
  - intros [x [Hx E]]. apply String.eqb_eq in E. now subst.
  - intros H. exists v. split; [assumption | apply String.eqb_refl].
Qed.

Lemma member_false (v : string) (l : list string) :
  member v l = false <-> ~ In v l.
Proof.
  rewrite <- member_In. destruct (member v l); intuition congruence.
Qed.

Lemma push_loop (ws acc : list string) :
  fold_left (fun acc code => acc ++ pushed code) ws acc = acc ++ flat_map pushed ws.
Proof.
  revert acc. induction ws as [|w ws IH]; intros acc; simpl.
  - now rewrite app_nil_r.
  - rewrite IH. now rewrite <- app_assoc.
Qed.

Lemma winnerValueFilters_flat_map (ws : list string) :
  winnerValueFilters ws = flat_map pushed ws.
Proof. unfold winnerValueFilters. now rewrite push_loop. Qed.

Lemma winnerValueFilters_In (ws : list string) (x : string) :
  In x (winnerValueFilters ws) <-> exists w, In w ws /\ In x (pushed w).
Proof. rewrite winnerValueFilters_flat_map. apply in_flat_map. Qed.

Lemma winnerValueFilters_length (ws : list string) :
  List.length (winnerValueFilters ws) = 4 * List.length ws.
Proof.
  rewrite winnerValueFilters_flat_map.
  induction ws as [|w ws IH]; [reflexivity|].
  cbn [flat_map]. rewrite length_app, IH. cbn [pushed List.length]. lia.
Qed.

Lemma winnerValueFilters_nil_iff (ws : list string) :
  winnerValueFilters ws = [] <-> ws = [].
Proof.
  split; [|now intros ->].
  intros H. apply (f_equal (@List.length string)) in H.
  rewrite winnerValueFilters_length in H.
  destruct ws; [reflexivity | discriminate].
Qed.

Lemma withHyphen_ten (n : string) :
  String.length n = 10 ->
  withHyphen n = (substring 0 6 n ++ "-" ++ substring 6 4 n)%string.
Proof.
  intros H. unfold withHyphen, Js.slice, Js.sliceFrom. now rewrite H.
Qed.

Lemma withHyphen_other (n : string) :
  String.length n <> 10 -> withHyphen n = n.
Proof.
  intros H. unfold withHyphen.
  destruct (Nat.eqb_spec (String.length n) 10); [contradiction | reflexivity].
Qed.

(** C6: a normalised form of length 10 is rendered as its first six
    characters, a hyphen, and its last four, and this rendering is pushed
    into the variant list: the strings pushed for the winner are then the
    raw value, the rendering, the normalised value and the raw value
    without hyphens.  For any other length the hyphenation step yields the
    normalised form itself, so the strings pushed for the winner are the raw
    value, the normalised value and the raw value without hyphens, and
    nothing else. *)
Theorem withHyphen_six_four (w : string) :
  (String.length (norm w) = 10 ->
   withHyphen (norm w)
   = (substring 0 6 (norm w) ++ "-" ++ substring 6 4 (norm w))%string /\
   (forall x,
       In x (pushed w) <->
       In x [w; (substring 0 6 (norm w) ++ "-" ++ substring 6 4 (norm w))%string;
             norm w; Js.replaceHyphens w]) /\
   (forall ws, In w ws ->
       In (substring 0 6 (norm w) ++ "-" ++ substring 6 4 (norm w))%string
          (winnerValueFilters ws))) /\
  (String.length (norm w) <> 10 ->
   withHyphen (norm w) = norm w /\
   forall x, In x (pushed w) <-> In x [w; norm w; Js.replaceHyphens w]).
Proof.
  split.
  - intros H. split; [now apply withHyphen_ten|]. split.
    + intros x. unfold pushed. rewrite (withHyphen_ten _ H). reflexivity.
    + intros ws Hw. apply winnerValueFilters_In. exists w.
      split; [assumption|]. unfold pushed. rewrite (withHyphen_ten _ H).
      simpl. auto.
  - intros H. split; [now apply withHyphen_other|].
    intros x. unfold pushed. rewrite (withHyphen_other _ H). simpl. tauto.
Qed.

Lemma withHyphen_six_four_witness :
  (String.length (norm "ab12-cd3456") = 10 /\
   withHyphen (norm "ab12-cd3456") = "AB12CD-3456" /\
   In "AB12CD-3456" (winnerValueFilters ["x"; "ab12-cd3456"])) /\
  (String.length (norm "ab-c") <> 10 /\
   withHyphen (norm "ab-c") = "ABC" /\
   (In "ABC" (pushed "ab-c") <-> In "ABC" ["ab-c"; norm "ab-c"; Js.replaceHyphens "ab-c"])).
Proof.
  split.
  - split; [reflexivity|].
    destruct (proj1 (withHyphen_six_four "ab12-cd3456") eq_refl) as [E [_ G]].
    split; [exact E|].
    apply (G ["x"; "ab12-cd3456"]). simpl. right. left. reflexivity.
  - assert (H : String.length (norm "ab-c") <> 10) by (vm_compute; lia).
    split; [exact H|].
    split.
    + exact (proj1 (proj2 (withHyphen_six_four "ab-c") H)).
    + exact (proj2 (proj2 (withHyphen_six_four "ab-c") H) "ABC").
Defined.

(** C4: the variant list holds four entries per winner value, and a string
    occurs in it exactly when it is, for some winner value, the raw value,
    the six-four hyphenated rendering of a normalised form of length 10, the
    normalised value, or the raw value with its hyphens removed (case
    untouched). *)
Theorem winnerValueFilters_exact (ws : list string) :
  List.length (winnerValueFilters ws) = 4 * List.length ws /\
  (forall w, pushed w = [w; withHyphen (norm w); norm w; Js.replaceHyphens w]) /\
  forall x,
    In x (winnerValueFilters ws) <->
    exists w, In w ws /\
      (x = w \/
       (String.length (norm w) = 10 /\
        x = (substring 0 6 (norm w) ++ "-" ++ substring 6 4 (norm w))%string) \/
       x = norm w \/
       x = Js.replaceHyphens w).
Proof.
  split; [apply winnerValueFilters_length|]. split; [reflexivity|].
  intros x. rewrite winnerValueFilters_In. split.
  - intros [w [Hw Hx]]. exists w. split; [assumption|].
    unfold pushed in Hx. simpl in Hx.
    destruct Hx as [E|[E|[E|[E|[]]]]]; subst x; auto.
    destruct (Nat.eq_dec (String.length (norm w)) 10) as [L|L].
    + right; left. split; [assumption | now apply withHyphen_ten].
    + right; right; left. now apply withHyphen_other.
  - intros [w [Hw Hx]]. exists w. split; [assumption|].
    unfold pushed. simpl.
    destruct Hx as [E|[[L E]|[E|E]]]; subst x; auto.
    right; left. now apply withHyphen_ten.
Qed.

(** The worked example of C4: the strings pushed for ["ab12-cd3456"]. *)
Example pushed_ab12 :
  winnerValueFilters ["ab12-cd3456"]
  = ["ab12-cd3456"; "AB12CD-3456"; "AB12CD3456"; "ab12cd3456"].
Proof. reflexivity. Qed.

(** Spellings that are matched. *)








(** The classifier on that input: neither spelling is listed as a winner. *)
Example same_norm_not_listed :
  total (pageOf getWinners
           (withWinners Sample.hyphenated [winnerEntry "AB1234CD56"])
           Sample.plain) = 0.
Proof. reflexivity. Qed.

(** ** The ORM model *)

Section OrmFacts.

Lemma before_total (o : Order) (a b : Code.t) :
  Orm.before o a b = false -> Orm.before o b a = true.
Proof.
  unfold Orm.before. destruct o.
  - destruct (Code.usedAt a), (Code.usedAt b); try (intros; discriminate);
      try reflexivity.
    rewrite Z.leb_gt. intros H. apply Z.leb_le. lia.
  - rewrite Z.leb_gt. intros H. apply Z.leb_le. lia.
Qed.

Lemma insert_length (o : Order) (x : Code.t) (l : list Code.t) :
  List.length (Orm.insert o x l) = S (List.length l).
Proof.
  induction l as [|y l IH]; simpl; [reflexivity|].
  destruct (Orm.before o x y); simpl; [reflexivity | now rewrite IH].
Qed.

Lemma sort_length (o : Order) (l : list Code.t) :
  List.length (Orm.sort o l) = List.length l.
Proof.
  induction l as [|x l IH]; simpl; [reflexivity|].
  now rewrite insert_length, IH.
Qed.

Lemma insert_In (o : Order) (x y : Code.t) (l : list Code.t) :
  In x (Orm.insert o y l) <-> x = y \/ In x l.
Proof.
  induction l as [|z l IH]; simpl.
  - intuition.
  - destruct (Orm.before o y z); simpl; [intuition|].
    rewrite IH. intuition.
Qed.

Lemma sort_In (o : Order) (x : Code.t) (l : list Code.t) :
  In x (Orm.sort o l) <-> In x l.
Proof.
  induction l as [|y l IH]; simpl; [tauto|].
  rewrite insert_In, IH. intuition.
Qed.

Lemma insert_Sorted (o : Order) (x : Code.t) (l : list Code.t) :
  Sorted (beforeP o) l -> Sorted (beforeP o) (Orm.insert o x l).
Proof.
  induction l as [|y l IH]; simpl; intros H.
  - repeat constructor.
  - destruct (Orm.before o x y) eqn:E.
    + constructor; [assumption|]. constructor. exact E.
    + inversion H as [|? ? Hs Hh]; subst.
      constructor; [auto|].
      destruct l as [|z l]; simpl.
      * constructor. now apply before_total.
      * destruct (Orm.before o x z).
        -- constructor. now apply before_total.
        -- constructor. now inversion Hh.
Qed.

Lemma sort_Sorted (o : Order) (l : list Code.t) :
  Sorted (beforeP o) (Orm.sort o l).
Proof.
  induction l as [|x l IH]; simpl; [constructor | now apply insert_Sorted].
Qed.

Lemma Sorted_skipn {A : Type} (R : A -> A -> Prop) (n : nat) (l : list A) :
  Sorted R l -> Sorted R (skipn n l).
Proof.
  revert l. induction n as [|n IH]; intros l H; [exact H|].
  destruct l as [|x l]; [constructor|].
  simpl. apply IH. now inversion H.
Qed.

Lemma Sorted_firstn {A : Type} (R : A -> A -> Prop) (n : nat) (l : list A) :
  Sorted R l -> Sorted R (firstn n l).
Proof.
  revert l. induction n as [|n IH]; intros l H; [constructor|].
  destruct l as [|x l]; [constructor|].
  simpl. inversion H as [|? ? Hs Hh]; subst.
  constructor; [auto|].
  destruct n, l; simpl; constructor. now inversion Hh.
Qed.

Lemma Sorted_map {A B : Type} (R : A -> A -> Prop) (R' : B -> B -> Prop)
    (f : A -> B) (l : list A) :
  (forall a b, R a b -> R' (f a) (f b)) ->
  Sorted R l -> Sorted R' (map f l).
Proof.
  intros HR. induction l as [|x l IH]; simpl; intros H; [constructor|].
  inversion H as [|? ? Hs Hh]; subst.
  constructor; [auto|].
  destruct l; simpl; constructor. inversion Hh; auto.
Qed.

Lemma project_before (d : DB) (rels : list Relation) (g : bool) (o : Order)
    (a b : Code.t) :
  beforeP o a b ->
  rowBefore o (Orm.project d rels g a) (Orm.project d rels g b).
Proof.
  unfold beforeP, Orm.before, rowBefore. destruct o; simpl.
  - destruct (Code.usedAt a), (Code.usedAt b); try discriminate; auto.
    apply Z.leb_le.
  - apply Z.leb_le.
Qed.

Lemma member_filter (f : string -> bool) (v : string) (l : list string) :
  member v (filter f l) = member v l && f v.
Proof.
  induction l as [|x l IH]; simpl; [reflexivity|].
  destruct (f x) eqn:Fx; simpl; rewrite IH.
  - destruct (String.eqb_spec v x); simpl; [subst; now rewrite Fx | reflexivity].
  - destruct (String.eqb_spec v x); simpl; [subst; rewrite Fx|reflexivity].
    now rewrite andb_false_r.
Qed.

End OrmFacts.

(** ** What each view computes *)

Section Views.

Variable d : DB.
Variable q : PagingDto.

Lemma findAndCount_listing (w : Where) (rels : list Relation) (g : bool)
    (o : Order) (pred : Code.t -> bool) :
  (forall c, Orm.rowMatches w c = pred c) ->
  let l := Js.nullish (limit q) 10%Z in
  let p := Js.nullish (page q) 1%Z in
  let r := Orm.findAndCount d
             {| where_ := w; relations := rels; selectGiftId := g;
                order := o; take := l; skip := ((p - 1) * l)%Z |} in
  {| data := fst r; total := snd r |} = listing d pred o rels g q.
Proof.
  intros H. unfold listing, Orm.findAndCount, Orm.selected. cbn.
  rewrite sort_length. now rewrite (filter_ext _ _ H).
Qed.

Lemma eqb_true_r (b : bool) : Bool.eqb b true = b.
Proof. now destruct b. Qed.

Ltac solve_view_run pred test :=
  unfold run, bind, winnerRepository_find, readQuery, assignLimit,
    assignPage, repository_findAndCount, ret;
  cbv beta iota zeta; cbn [db query];
  f_equal; f_equal;
  apply findAndCount_listing; intros c;
  unfold pred, test, Orm.rowMatches;
  change (winnerValueFilters (map Winner.value (Orm.findWinners d)))
    with (filtersOf d);
  destruct (filtersOf d) as [|f fs];
  destruct (Js.truthy (search q)) eqn:S;
  unfold searchLike; rewrite ?S; cbn;
  rewrite ?eqb_true_r, ?andb_true_r; reflexivity.

Lemma getWinners_run :
  run getWinners d q
  = (Ok (listing d (winnersPred d q) UsedAtDesc [RelUsedBy; RelGift] true q),
     {| db := d; query := withDefaults q |}).
Proof. unfold getWinners, CodeService.getWinners. solve_view_run winnersPred positiveTest. Qed.

Lemma getWinnerCodes_run :
  run getWinnerCodes d q
  = (Ok (listing d (winnerCodesPred d q) IdAsc [RelGift; RelUsedBy] true q),
     {| db := d; query := withDefaults q |}).
Proof. unfold getWinnerCodes, CodeService.getWinnerCodes. solve_view_run winnerCodesPred positiveTest. Qed.

Lemma getLosers_run :
  run getLosers d q
  = (Ok (listing d (losersPred d q) UsedAtDesc [RelUsedBy] false q),
     {| db := d; query := withDefaults q |}).
Proof. unfold getLosers, CodeService.getLosers. solve_view_run losersPred negativeTest. Qed.

Lemma getNonWinnerCodes_run :
  run getNonWinnerCodes d q
  = (Ok (listing d (nonWinnerCodesPred d q) IdAsc [RelUsedBy] true q),
     {| db := d; query := withDefaults q |}).
Proof. unfold getNonWinnerCodes, CodeService.getNonWinnerCodes. solve_view_run nonWinnerCodesPred negativeTest. Qed.

End Views.

Lemma view_run (v : View) (d : DB) (q : PagingDto) :
  run (method v) d q
  = (Ok (listing d (viewPred v d q) (viewOrder v) (viewRelations v)
                 (viewGiftId v) q),
     {| db := d; query := withDefaults q |}).
Proof.
  destruct v; simpl.
  - apply getWinners_run.
  - apply getLosers_run.
  - apply getWinnerCodes_run.
  - apply getNonWinnerCodes_run.
Qed.

Lemma pageOf_listing (v : View) (d : DB) (q : PagingDto) :
  pageOf (method v) d q
  = listing d (viewPred v d q) (viewOrder v) (viewRelations v) (viewGiftId v) q.
Proof. unfold pageOf, resultOf. now rewrite view_run. Qed.

Lemma paginate_map {A B : Type} (f : A -> B) (t s : Z) (l : list A) :
  map f (Orm.paginate t s l) = Orm.paginate t s (map f l).
Proof. unfold Orm.paginate. now rewrite <- firstn_map, <- skipn_map. Qed.

Lemma pageOf_data (v : View) (d : DB) (q : PagingDto) :
  data (pageOf (method v) d q)
  = Orm.paginate (Js.nullish (limit q) 10%Z)
      ((Js.nullish (page q) 1%Z - 1) * Js.nullish (limit q) 10%Z)%Z
      (fullListing v d q).
Proof.
  rewrite pageOf_listing. unfold listing, fullListing. cbn [data].
  apply paginate_map.
Qed.

Lemma pageOf_total (v : View) (d : DB) (q : PagingDto) :
  total (pageOf (method v) d q) = List.length (filter (viewPred v d q) (codes d)).
Proof. now rewrite pageOf_listing. Qed.

Lemma fullListing_length (v : View) (d : DB) (q : PagingDto) :
  List.length (fullListing v d q) = total (pageOf (method v) d q).
Proof.
  rewrite pageOf_total. unfold fullListing.
  now rewrite length_map, sort_length.
Qed.

Lemma fullListing_Sorted (v : View) (d : DB) (q : PagingDto) :
  Sorted (rowBefore (viewOrder v)) (fullListing v d q).
Proof.
  unfold fullListing.
  apply (Sorted_map (beforeP (viewOrder v))); [apply project_before|].
  apply sort_Sorted.
Qed.

Lemma pageOf_Sorted (v : View) (d : DB) (q : PagingDto) :
  Sorted (rowBefore (viewOrder v)) (data (pageOf (method v) d q)).
Proof.
  rewrite pageOf_data. unfold Orm.paginate.
  apply Sorted_firstn, Sorted_skipn, fullListing_Sorted.
Qed.

Lemma In_firstn {A : Type} (n : nat) (l : list A) (x : A) :
  In x (firstn n l) -> In x l.
Proof.
  revert l. induction n as [|n IH]; intros [|y l]; simpl; try tauto.
  intros [E|H]; auto.
Qed.

Lemma In_skipn {A : Type} (n : nat) (l : list A) (x : A) :
  In x (skipn n l) -> In x l.
Proof.
  revert l. induction n as [|n IH]; intros [|y l]; simpl; try tauto.
  intros H. right. now apply IH.
Qed.

Lemma paginate_In {A : Type} (t s : Z) (l : list A) (x : A) :
  In x (Orm.paginate t s l) -> In x l.
Proof.
  unfold Orm.paginate. intros H.
  apply In_firstn in H. now apply In_skipn in H.
Qed.

(** Every returned row is the projection of a table row that satisfies the
    predicate of the view. *)
Lemma pageOf_row (v : View) (d : DB) (q : PagingDto) (r : CodeRow.t) :
  In r (data (pageOf (method v) d q)) ->
  exists c, In c (codes d) /\ viewPred v d q c = true /\
            r = Orm.project d (viewRelations v) (viewGiftId v) c.
Proof.
  rewrite pageOf_data. intros H. apply paginate_In in H.
  unfold fullListing in H. apply in_map_iff in H as [c [E H]].
  apply sort_In in H. apply filter_In in H as [Hc Hp].
  exists c. auto.
Qed.

(** The query a view sends: whatever the repository, a view reads the
    winners, writes the two defaults into the query object and makes one
    call of [findAndCount], with a condition equivalent to the test of the
    view, the relations, columns and order of the view, [take = limit] and
    [skip = (page - 1) * limit]; what the call gives is what the view
    gives. *)
Lemma methodOn_run (find : FindOptions -> M (list CodeRow.t * nat)) (v : View)
    (d : DB) (q : PagingDto) :
  exists o,
    (forall c, Orm.rowMatches (where_ o) c = viewPred v d q c) /\
    relations o = viewRelations v /\ selectGiftId o = viewGiftId v /\
    order o = viewOrder v /\
    take o = Js.nullish (limit q) 10%Z /\
    skip o = ((Js.nullish (page q) 1 - 1) * Js.nullish (limit q) 10)%Z /\
    run (methodOn find v) d q
    = match find o {| db := d; query := withDefaults q |} with
      | (Ok r, w) => (Ok {| data := fst r; total := snd r |}, w)
      | (Throw e, w) => (Throw e, w)
      end.
Proof.
  destruct v; cbn [methodOn];
    unfold CodeService.getWinners, CodeService.getLosers,
      CodeService.getWinnerCodes, CodeService.getNonWinnerCodes;
    unfold run, bind, winnerRepository_find, readQuery, assignLimit,
      assignPage, ret;
    cbv beta iota zeta; cbn [db query limit page];
    change (winnerValueFilters (map Winner.value (Orm.findWinners d)))
      with (filtersOf d);
    (eexists; split; [|split; [|split; [|split; [|split; [|split]]]]];
     [ | | | | | | unfold withDefaults; reflexivity]; try reflexivity;
     intros c; cbn [where_ viewPred];
     unfold winnersPred, losersPred, winnerCodesPred, nonWinnerCodesPred,
       positiveTest, negativeTest, Orm.rowMatches;
     destruct (filtersOf d) as [|f fs];
     destruct (Js.truthy (search q)) eqn:S;
     unfold searchLike; rewrite ?S; cbn;
     rewrite ?eqb_true_r, ?andb_true_r; reflexivity).
Qed.

(** ** The repository on every query *)

Lemma insert_Permutation (o : Order) (x : Code.t) (l : list Code.t) :
  Permutation (Orm.insert o x l) (x :: l).
Proof.
  induction l as [|y l IH]; simpl; [reflexivity|].
  destruct (Orm.before o x y); [reflexivity|].
  rewrite IH. apply perm_swap.
Qed.

Lemma sort_Permutation (o : Order) (l : list Code.t) :
  Permutation (Orm.sort o l) l.
Proof.
  induction l as [|x l IH]; simpl; [reflexivity|].
  rewrite insert_Permutation. now constructor.
Qed.

Lemma tableOrder_lawful : lawful Postgres.tableOrder.
Proof.
  intros o l. unfold Postgres.tableOrder. split.
  - apply sort_Permutation.
  - apply sort_Sorted.
Qed.

Lemma reverseOrder_lawful : lawful Postgres.reverseOrder.
Proof.
  intros o l. unfold Postgres.reverseOrder. split.
  - rewrite sort_Permutation. symmetry. apply Permutation_rev.
  - apply sort_Sorted.
Qed.

(** What a view gives over the repository on every query. *)
Lemma served_run (arrange : FindOptions -> list Code.t -> list Code.t)
    (v : View) (d : DB) (q : PagingDto) :
  let l := Js.nullish (limit q) 10%Z in
  let p := Js.nullish (page q) 1%Z in
  exists o,
    order o = viewOrder v /\
    run (served arrange v) d q
    = (if ((0 <=? l) && (0 <=? (p - 1) * l))%Z
       then Ok {| data := map (Orm.project d (viewRelations v) (viewGiftId v))
                              (Postgres.cut l ((p - 1) * l)%Z
                                            (arrange o (matched v d q)));
                  total := List.length (matched v d q) |}
       else Throw QueryFailed,
       {| db := d; query := withDefaults q |}).
Proof.
  intros l p.
  destruct (methodOn_run (Postgres.findAndCount arrange) v d q)
    as [o [W [R [G [O [T [S E]]]]]]].
  exists o. split; [exact O|].
  unfold served. rewrite E. unfold Postgres.findAndCount, Postgres.accepts.
  rewrite T, S, R, G. fold l p. cbn [db].
  rewrite (filter_ext _ _ W). fold (matched v d q).
  destruct ((0 <=? l) && (0 <=? (p - 1) * l))%Z; reflexivity.
Qed.

Lemma databaseAccepts_iff (q : PagingDto) :
  databaseAccepts q <->
  ((0 <=? Js.nullish (limit q) 10)
   && (0 <=? (Js.nullish (page q) 1 - 1) * Js.nullish (limit q) 10))%Z = true.
Proof.
  unfold databaseAccepts. cbv zeta.
  rewrite andb_true_iff, !Z.leb_le. reflexivity.
Qed.

(** On the queries a page is cut for, and with ties in table order, the
    repository on every query is [repository_findAndCount]. *)
Lemma served_tableOrder (v : View) (d : DB) (q : PagingDto) :
  (1 <= Js.nullish (limit q) 10)%Z ->
  (0 <= (Js.nullish (page q) 1 - 1) * Js.nullish (limit q) 10)%Z ->
  run (served Postgres.tableOrder v) d q = run (method v) d q.
Proof.
  intros L S.
  destruct (served_run Postgres.tableOrder v d q) as [o [O E]].
  rewrite E, view_run. cbv zeta.
  replace (0 <=? Js.nullish (limit q) 10)%Z with true
    by (symmetry; apply Z.leb_le; lia).
  replace (0 <=? (Js.nullish (page q) 1 - 1) * Js.nullish (limit q) 10)%Z
    with true by (symmetry; now apply Z.leb_le).
  cbn [andb]. unfold listing, Postgres.tableOrder, Postgres.cut, matched,
    Orm.paginate.
  rewrite O.
  replace (Js.nullish (limit q) 10 =? 0)%Z with false
    by (symmetry; apply Z.eqb_neq; lia).
  reflexivity.
Qed.

(** ** Effects of the views *)

Section Served.

Variable arrange : FindOptions -> list Code.t -> list Code.t.
Hypothesis arrange_lawful : lawful arrange.

(** The rows the database hands to a view: the matched rows, each as often
    as the table has it, in the order of the view. *)
Lemma served_rows (v : View) (d : DB) (q : PagingDto) :
  let l := Js.nullish (limit q) 10%Z in
  let p := Js.nullish (page q) 1%Z in
  exists rows,
    Permutation rows (matched v d q) /\
    Sorted (beforeP (viewOrder v)) rows /\
    run (served arrange v) d q
    = (if ((0 <=? l) && (0 <=? (p - 1) * l))%Z
       then Ok {| data := map (Orm.project d (viewRelations v) (viewGiftId v))
                              (Postgres.cut l ((p - 1) * l)%Z rows);
                  total := List.length (matched v d q) |}
       else Throw QueryFailed,
       {| db := d; query := withDefaults q |}).
Proof.
  intros l p. destruct (served_run arrange v d q) as [o [O E]].
  exists (arrange o (matched v d q)).
  destruct (arrange_lawful o (matched v d q)) as [P S].
  split; [exact P|]. split; [now rewrite <- O | exact E].
Qed.

(** C10, as the code has it: a listing view leaves the database as it found
    it; on the query object it writes the limit (10 when there was none)
    and the page (1 when there was none) and nothing else, also when the
    database then rejects the query.  The rows the view matches come in the
    order of the view, rows with equal keys in an order the database
    chooses; for a limit of at least 1 and an offset [(page - 1) * limit]
    that is not negative the view returns the rows, [limit] at most, that
    follow the first [(page - 1) * limit] of them; for the limit 0 it
    returns them all; and for a negative limit or offset the database
    rejects the query.  The total is the number of matched rows. *)
Theorem views_only_default_the_query (v : View) (d : DB) (q : PagingDto) :
  let l := Js.nullish (limit q) 10%Z in
  let p := Js.nullish (page q) 1%Z in
  let after := worldAfter (served arrange v) d q in
  db after = d /\
  query after
  = {| search := search q; limit := Some l; page := Some p;
       orderBy := orderBy q; orderType := orderType q |} /\
  (limit q = None -> limit (query after) = Some 10%Z) /\
  (page q = None -> page (query after) = Some 1%Z) /\
  (forall x, limit q = Some x -> limit (query after) = Some x) /\
  (forall x, page q = Some x -> page (query after) = Some x) /\
  exists rows,
    Permutation rows (matched v d q) /\
    Sorted (beforeP (viewOrder v)) rows /\
    ((1 <= l)%Z -> (0 <= (p - 1) * l)%Z ->
     resultOf (served arrange v) d q
     = Ok {| data := map (Orm.project d (viewRelations v) (viewGiftId v))
                         (firstn (Z.to_nat l)
                                 (skipn (Z.to_nat ((p - 1) * l)) rows));
             total := List.length (matched v d q) |}) /\
    (l = 0%Z ->
     resultOf (served arrange v) d q
     = Ok {| data := map (Orm.project d (viewRelations v) (viewGiftId v)) rows;
             total := List.length (matched v d q) |}) /\
    ((l < 0)%Z \/ ((p - 1) * l < 0)%Z ->
     resultOf (served arrange v) d q = Throw QueryFailed).
Proof.
  intros l p after.
  destruct (served_rows v d q) as [rows [P [S E]]]. fold l p in E.
  assert (A : after = {| db := d; query := withDefaults q |}).
  { unfold after, worldAfter. now rewrite E. }
  rewrite A. cbn [db query limit page withDefaults].
  split; [reflexivity|]. split; [reflexivity|].
  split; [now intros ->|]. split; [now intros ->|].
  split; [now intros x ->|]. split; [now intros x ->|].
  exists rows. split; [exact P|]. split; [exact S|].
  unfold resultOf. rewrite E. cbn [fst]. split; [|split].
  - intros Hl Hs.
    replace (0 <=? l)%Z with true by (symmetry; apply Z.leb_le; lia).
    replace (0 <=? (p - 1) * l)%Z with true by (symmetry; now apply Z.leb_le).
    cbn [andb]. unfold Postgres.cut.
    replace (l =? 0)%Z with false by (symmetry; apply Z.eqb_neq; lia).
    reflexivity.
  - intros Hl. rewrite Hl, Z.mul_0_r. reflexivity.
  - intros H.
    replace ((0 <=? l) && (0 <=? (p - 1) * l))%Z with false; [reflexivity|].
    symmetry. apply andb_false_iff.
    destruct H as [H|H]; [left | right]; apply Z.leb_gt; exact H.
Qed.

End Served.

Lemma views_only_default_the_query_witness :
  db (worldAfter (served Postgres.tableOrder Losers) Sample.oneWinner Sample.plain)
  = Sample.oneWinner /\
  limit (query (worldAfter (served Postgres.tableOrder Losers) Sample.oneWinner
                  Sample.plain)) = Some 10%Z /\
  page (query (worldAfter (served Postgres.tableOrder Losers) Sample.oneWinner
                 Sample.plain)) = Some 1%Z /\
  (exists rows,
      Permutation rows (matched Losers Sample.oneWinner (Sample.paged 1 2)) /\
      resultOf (served Postgres.tableOrder Losers) Sample.oneWinner
        (Sample.paged 1 2)
      = Ok {| data := map (Orm.project Sample.oneWinner [RelUsedBy] false)
                          (firstn 1 (skipn 1 rows));
              total := 2 |}).
Proof.
  pose proof (views_only_default_the_query Postgres.tableOrder tableOrder_lawful
                Losers Sample.oneWinner Sample.plain)
    as [Hd [_ [Hl [Hp _]]]].
  pose proof (views_only_default_the_query Postgres.tableOrder tableOrder_lawful
                Losers Sample.oneWinner (Sample.paged 1 2))
    as [_ [_ [_ [_ [_ [_ [rows [P [_ [Hpage _]]]]]]]]]].
  split; [exact Hd|].
  split; [exact (Hl eq_refl)|].
  split; [exact (Hp eq_refl)|].
  exists rows. split; [exact P|].
  apply Hpage; vm_compute; discriminate.
Defined.

(** C10, counterexample: with the limit 0 the Losers view returns both
    matched rows, where the page of that size holds none; and asked for
    page 0 it returns no page at all. *)
Lemma limit_zero_is_no_limit :
  map CodeRow.value
      (data (pageOf (served Postgres.tableOrder Losers) Sample.oneWinner
                    (Sample.paged 0 1)))
  = ["BBBB222222"; "AAAA111111"] /\
  pageAsWorded Losers Sample.oneWinner (Sample.paged 0 1) = [] /\
  resultOf (served Postgres.tableOrder Losers) Sample.oneWinner
    (Sample.paged 10 0) = Throw QueryFailed.
Proof. repeat split; reflexivity. Qed.

(** ** Errors *)

Lemma getCodeMonth_run (value : string) (d : DB) (q : PagingDto) :
  run (getCodeMonth value) d q
  = (match Orm.findOneByValues d (lookupValues value) with
     | None => Throw NotFound
     | Some c => Ok {| cm_value := Code.value c;
                       cm_month := Js.truthy (Code.month c) |}
     end,
     {| db := d; query := q |}).
Proof.
  unfold run, getCodeMonth, bind, repository_findOne. cbn.
  now destruct (Orm.findOneByValues d (lookupValues value)).
Qed.

Lemma served_result (arrange : FindOptions -> list Code.t -> list Code.t)
    (v : View) (d : DB) (q : PagingDto) :
  (databaseAccepts q -> exists p, resultOf (served arrange v) d q = Ok p) /\
  (~ databaseAccepts q -> resultOf (served arrange v) d q = Throw QueryFailed) /\
  resultOf (served arrange v) d q <> Throw NotFound.
Proof.
  destruct (served_run arrange v d q) as [o [_ E]]. cbv zeta in E.
  unfold resultOf. rewrite E. cbn [fst].
  rewrite databaseAccepts_iff.
  destruct ((0 <=? Js.nullish (limit q) 10)
            && (0 <=? (Js.nullish (page q) 1 - 1) * Js.nullish (limit q) 10))%Z.
  - split; [intros _; eexists; reflexivity|].
    split; [intros H; now contradiction H | discriminate].
  - split; [discriminate|]. split; [reflexivity | discriminate].
Qed.

(** C9, as the code has it: a listing view raises no exception of its own.
    It returns a page exactly when the database accepts its query, that is
    when the limit (10 when absent) and the offset [(page - 1) * limit]
    (page 1 when absent) are not negative; otherwise the error of the
    database comes out of the view.  [getCodeMonth] throws NotFound exactly
    when no code record that is not deleted has for value one of the four
    spellings of the queried value (raw, hyphenated, normalised, hyphens
    removed), and otherwise returns the stored value of such a record with
    its month, or null when the month is missing or empty. *)
Theorem listing_views_return_when_accepted :
  (forall (arrange : FindOptions -> list Code.t -> list Code.t)
          (v : View) (d : DB) (q : PagingDto),
      (databaseAccepts q -> exists p, resultOf (served arrange v) d q = Ok p) /\
      (~ databaseAccepts q ->
       resultOf (served arrange v) d q = Throw QueryFailed) /\
      resultOf (served arrange v) d q <> Throw NotFound) /\
  (forall (value : string) (d : DB) (q : PagingDto),
      resultOf (getCodeMonth value) d q = Throw NotFound <->
      (forall c, In c (codes d) -> Code.deletedAt c = None ->
                 ~ In (Code.value c)
                      [value; withHyphen (norm value); norm value;
                       Js.replaceHyphens value])) /\
  (forall (value : string) (d : DB) (q : PagingDto),
      resultOf (getCodeMonth value) d q <> Throw NotFound ->
      exists c, In c (codes d) /\ Code.deletedAt c = None /\
                In (Code.value c)
                   [value; withHyphen (norm value); norm value;
                    Js.replaceHyphens value] /\
                resultOf (getCodeMonth value) d q
                = Ok {| cm_value := Code.value c;
                        cm_month := match Code.month c with
                                    | Some EmptyString | None => None
                                    | Some m => Some m
                                    end |}).
Proof.
  split; [|split].
  - intros arrange v d q. apply served_result.
  - intros value d q. unfold resultOf. rewrite getCodeMonth_run. cbn [fst].
    unfold Orm.findOneByValues.
    destruct (find _ (codes d)) as [c|] eqn:F.
    + split; [discriminate|]. intros H. exfalso.
      apply find_some in F as [Hc Hm].
      apply andb_true_iff in Hm as [Hd Hv].
      apply (H c Hc).
      * unfold Orm.notDeleted in Hd. now destruct (Code.deletedAt c).
      * now apply member_In.
    + split; [|reflexivity]. intros _ c Hc Hd Hv.
      pose proof (find_none _ _ F c Hc) as N. cbn beta in N.
      unfold Orm.notDeleted in N. rewrite Hd in N.
      apply member_In in Hv. unfold lookupValues in N.
      cbv zeta in N. rewrite Hv in N. discriminate.
  - intros value d q. unfold resultOf. rewrite getCodeMonth_run. cbn [fst].
    unfold Orm.findOneByValues.
    destruct (find _ (codes d)) as [c|] eqn:F; [|congruence].
    intros _. apply find_some in F as [Hc Hm].
    apply andb_true_iff in Hm as [Hd Hv].
    exists c. split; [assumption|]. split.
    { unfold Orm.notDeleted in Hd. now destruct (Code.deletedAt c). }
    split; [now apply member_In|].
    unfold Js.truthy. now destruct (Code.month c) as [[|]|].
Qed.

Lemma listing_views_return_when_accepted_witness :
  (exists p, resultOf (served Postgres.tableOrder Winners) Sample.oneWinner
               Sample.plain = Ok p) /\
  resultOf (served Postgres.tableOrder Losers) Sample.oneWinner
    (Sample.paged 10 0) = Throw QueryFailed /\
  resultOf (getCodeMonth "ab12cd3456") Sample.months Sample.plain
  = Ok {| cm_value := "AB12CD-3456"; cm_month := Some "2024-05" |} /\
  resultOf (getCodeMonth "zz") Sample.months Sample.plain = Throw NotFound.
Proof.
  destruct listing_views_return_when_accepted as [Hv [Hthrow Hok]].
  split; [|split; [|split]].
  - apply (Hv Postgres.tableOrder Winners Sample.oneWinner Sample.plain).
    split; vm_compute; discriminate.
  - apply (Hv Postgres.tableOrder Losers Sample.oneWinner (Sample.paged 10 0)).
    intros [_ H]. vm_compute in H. now apply H.
  - destruct (Hok "ab12cd3456" Sample.months Sample.plain) as [c [Hc [_ [_ E]]]].
    + vm_compute. discriminate.
    + destruct Hc as [<-|[]]. exact E.
  - apply Hthrow. intros c [<-|[]] _. vm_compute.
    intros [H|[H|[H|[H|[]]]]]; discriminate H.
Defined.

(** C9, counterexample: asked for page 0, the Losers view does not return:
    the offset is -10 and the database rejects the query, whatever order it
    gives to rows with equal keys. *)
Lemma page_zero_is_rejected :
  resultOf (served Postgres.tableOrder Losers) Sample.oneWinner
    (Sample.paged 10 0) = Throw QueryFailed /\
  (forall arrange, resultOf (served arrange Losers) Sample.oneWinner
                     (Sample.paged 10 0) = Throw QueryFailed) /\
  ~ (forall arrange v d q, exists p, resultOf (served arrange v) d q = Ok p).
Proof.
  assert (R : forall arrange, resultOf (served arrange Losers) Sample.oneWinner
                                (Sample.paged 10 0) = Throw QueryFailed).
  { intros arrange.
    apply (served_result arrange Losers Sample.oneWinner (Sample.paged 10 0)).
    intros [_ H]. vm_compute in H. now apply H. }
  split; [apply R|]. split; [exact R|].
  intros H.
  destruct (H Postgres.tableOrder Losers Sample.oneWinner (Sample.paged 10 0))
    as [p E].
  rewrite R in E. discriminate E.
Qed.

(** ** The [LIKE] pattern of a search term *)

Lemma sqlLike_percent (p v : string) :
  Orm.sqlLike (String "%" p) v
  = Orm.sqlLike p v ||
    match v with
    | EmptyString => false
    | String _ v' => Orm.sqlLike (String "%" p) v'
    end.
Proof. destruct v; reflexivity. Qed.

Lemma sqlLike_any (v : string) : Orm.sqlLike "%" v = true.
Proof.
  induction v as [|c v IH]; [reflexivity|].
  rewrite sqlLike_percent, IH. apply orb_true_r.
Qed.

Lemma sqlLike_literal (c : ascii) (p v : string) :
  likeMeta c = false ->
  Orm.sqlLike (String c p) v
  = match v with
    | EmptyString => false
    | String c' v' => Ascii.eqb c c' && Orm.sqlLike p v'
    end.
Proof.
  unfold likeMeta. intros H.
  apply orb_false_iff in H as [H H3]. apply orb_false_iff in H as [H1 H2].
  destruct v; cbn [Orm.sqlLike]; rewrite H1, H2, H3; reflexivity.
Qed.

Lemma sqlLike_plain_prefix (s v : string) :
  plainTerm s = true -> Orm.sqlLike (s ++ "%") v = prefix s v.
Proof.
  revert v. induction s as [|c s IH]; intros v H.
  - cbn [append]. rewrite sqlLike_any. now destruct v.
  - cbn [plainTerm Js.all] in H. apply andb_true_iff in H as [Hc Hs].
    apply negb_true_iff in Hc.
    cbn [append]. rewrite (sqlLike_literal _ _ _ Hc).
    destruct v as [|c' v]; [reflexivity|].
    rewrite (IH v Hs). cbn [prefix].
    destruct (Ascii.eqb_spec c c') as [->|N].
    + destruct (ascii_dec c' c'); [reflexivity | congruence].
    + destruct (ascii_dec c c'); [congruence | reflexivity].
Qed.

(** For a term without [%], [_] and backslash, [LIKE '%term%'] is
    containment, as [includes] tests it. *)
Lemma sqlLike_contains (s v : string) :
  plainTerm s = true ->
  Orm.sqlLike ("%" ++ s ++ "%") v = Js.includes v s.
Proof.
  intros H. induction v as [|c v IH].
  - cbn [append]. rewrite sqlLike_percent.
    rewrite (sqlLike_plain_prefix _ _ H). cbn [Js.includes].
    reflexivity.
  - cbn [append] in *. rewrite sqlLike_percent, IH.
    rewrite (sqlLike_plain_prefix _ _ H). reflexivity.
Qed.

Lemma searchLike_plain (q : PagingDto) (v : string) :
  (forall s, Js.truthy (search q) = Some s -> plainTerm s = true) ->
  searchLike q v = searchHit q v.
Proof.
  unfold searchLike, searchHit. intros H.
  destruct (Js.truthy (search q)) as [s|]; [|reflexivity].
  apply sqlLike_contains. now apply H.
Qed.

(** ** Search, winners and the row tests *)

Lemma filtersOf_nil (d : DB) : filtersOf d = [] <-> winnerValuesOf d = [].
Proof. apply winnerValueFilters_nil_iff. Qed.

(** With winner values, a positive view tests membership in the variants
    that contain the search term: membership and containment together. *)
Lemma positiveTest_with_winners (d : DB) (q : PagingDto) (v : string) :
  filtersOf d <> [] ->
  positiveTest d q v = member v (filtersOf d) && searchHit q v.
Proof.
  unfold positiveTest, searchHit. intros H.
  destruct (filtersOf d) as [|f fs] eqn:F; [contradiction|].
  destruct (Js.truthy (search q)) as [s|].
  - exact (member_filter (fun x => Js.includes x s) v (f :: fs)).
  - now rewrite andb_true_r.
Qed.

(** With winner values, a negative view tests non-membership only: the
    search term is not part of its test. *)
Lemma negativeTest_with_winners (d : DB) (q : PagingDto) (v : string) :
  filtersOf d <> [] ->
  negativeTest d q v = negb (member v (filtersOf d)).
Proof.
  unfold negativeTest. intros H.
  now destruct (filtersOf d) as [|f fs] eqn:F; [contradiction|].
Qed.

Lemma tests_without_winners (d : DB) (q : PagingDto) (v : string) :
  filtersOf d = [] ->
  positiveTest d q v = searchLike q v /\ negativeTest d q v = searchLike q v.
Proof. unfold positiveTest, negativeTest. now intros ->. Qed.

Lemma filter_none {A : Type} (f : A -> bool) (l : list A) :
  (forall x, f x = false) -> filter f l = [].
Proof.
  intros H. induction l as [|x l IH]; simpl; [reflexivity|].
  now rewrite H.
Qed.

(** When no variant contains the search term, a positive view is empty. *)
Lemma positive_view_empty_when_no_variant_survives (d : DB) (q : PagingDto)
    (s : string) :
  filtersOf d <> [] ->
  Js.truthy (search q) = Some s ->
  filter (fun x => Js.includes x s) (filtersOf d) = [] ->
  pageOf getWinners d q = {| data := []; total := 0 |} /\
  pageOf getWinnerCodes d q = {| data := []; total := 0 |}.
Proof.
  intros Hf Hs He.
  assert (T : forall v, positiveTest d q v = false).
  { intros v. unfold positiveTest.
    destruct (filtersOf d) as [|f fs] eqn:F; [contradiction|].
    now rewrite Hs, He. }
  assert (E1 : filter (winnersPred d q) (codes d) = []).
  { apply filter_none. intros c. unfold winnersPred.
    now rewrite T, andb_false_r. }
  assert (E2 : filter (winnerCodesPred d q) (codes d) = []).
  { apply filter_none. intros c. unfold winnerCodesPred.
    now rewrite T, andb_false_r. }
  split.
  - rewrite (pageOf_listing Winners). unfold listing. cbn [viewPred].
    rewrite E1. unfold Orm.paginate. cbn [Orm.sort].
    now rewrite skipn_nil, firstn_nil.
  - rewrite (pageOf_listing WinnerCodes). unfold listing. cbn [viewPred].
    rewrite E2. unfold Orm.paginate. cbn [Orm.sort].
    now rewrite skipn_nil, firstn_nil.
Qed.

(** As soon as there is a winner value, the negative views return the same
    page whatever the search term. *)
Lemma negative_views_ignore_search (d : DB) (q : PagingDto) (s : option string) :
  filtersOf d <> [] ->
  let q' := {| search := s; limit := limit q; page := page q;
               orderBy := orderBy q; orderType := orderType q |} in
  pageOf getLosers d q' = pageOf getLosers d q /\
  pageOf getNonWinnerCodes d q' = pageOf getNonWinnerCodes d q.
Proof.
  intros H q'. split.
  - rewrite !(pageOf_listing Losers). unfold listing. cbn.
    rewrite (filter_ext (losersPred d q') (losersPred d q)); [reflexivity|].
    intros c. unfold losersPred. now rewrite !negativeTest_with_winners.
  - rewrite !(pageOf_listing NonWinnerCodes). unfold listing. cbn.
    rewrite (filter_ext (nonWinnerCodesPred d q') (nonWinnerCodesPred d q));
      [reflexivity|].
    intros c. unfold nonWinnerCodesPred. now rewrite !negativeTest_with_winners.
Qed.

(** C2, at the failing input: one winner, two redeemed codes that are not
    winners, search term ["AAAA"].  The Losers view and the Non-winner-codes
    view return both codes, also the one that does not contain the term. *)
Theorem negative_views_drop_search :
  map CodeRow.value
      (data (pageOf getLosers Sample.oneWinner (Sample.searching "AAAA")))
  = ["BBBB222222"; "AAAA111111"] /\
  total (pageOf getLosers Sample.oneWinner (Sample.searching "AAAA")) = 2 /\
  map CodeRow.value
      (data (pageOf getNonWinnerCodes Sample.oneWinner (Sample.searching "AAAA")))
  = ["AAAA111111"; "BBBB222222"] /\
  total (pageOf getNonWinnerCodes Sample.oneWinner (Sample.searching "AAAA")) = 2 /\
  Js.includes "BBBB222222" "AAAA" = false.
Proof. repeat split; reflexivity. Qed.

(** ** An empty winners table *)

(** C3, at the failing input: no winner record and two redeemed codes.
    Without a search term the Winners view and the Winner-codes view list
    both codes, with total 2, where no code is a winner; with the term
    ["AAAA"] they list the code that contains it.  In general, over an
    empty winners table and without a term the test of the Winners view is
    the one of the redeemed collection and the test of the Winner-codes
    view the one of the whole collection; and the totals are those whatever
    order the database gives to rows with equal keys. *)
Theorem views_without_winners_list_codes :
  winners Sample.noWinner = [] /\
  map CodeRow.value (data (pageOf getWinners Sample.noWinner Sample.plain))
  = ["BBBB222222"; "AAAA111111"] /\
  total (pageOf getWinners Sample.noWinner Sample.plain) = 2 /\
  map CodeRow.value (data (pageOf getWinnerCodes Sample.noWinner Sample.plain))
  = ["AAAA111111"; "BBBB222222"] /\
  total (pageOf getWinnerCodes Sample.noWinner Sample.plain) = 2 /\
  map CodeRow.value
      (data (pageOf getWinners Sample.noWinner (Sample.searching "AAAA")))
  = ["AAAA111111"] /\
  total (pageOf getWinners Sample.noWinner (Sample.searching "AAAA")) = 1 /\
  total (pageOf getWinnerCodes Sample.noWinner (Sample.searching "AAAA")) = 1 /\
  map CodeRow.value (data (pageOf getLosers Sample.noWinner Sample.plain))
  = ["BBBB222222"; "AAAA111111"] /\
  (forall arrange,
      total (pageOf (served arrange Winners) Sample.noWinner Sample.plain) = 2 /\
      total (pageOf (served arrange WinnerCodes) Sample.noWinner Sample.plain) = 2) /\
  (forall d q c,
      winnerValuesOf d = [] -> Js.truthy (search q) = None ->
      winnersPred d q c = Orm.notDeleted c && Code.isUsed c /\
      winnerCodesPred d q c = Orm.notDeleted c).
Proof.
  do 9 (split; [reflexivity|]). split.
  - intros arrange. split.
    + destruct (served_run arrange Winners Sample.noWinner Sample.plain)
        as [o [_ E]].
      unfold pageOf, resultOf. rewrite E. reflexivity.
    + destruct (served_run arrange WinnerCodes Sample.noWinner Sample.plain)
        as [o [_ E]].
      unfold pageOf, resultOf. rewrite E. reflexivity.
  - intros d q c W S. apply filtersOf_nil in W.
    unfold winnersPred, winnerCodesPred.
    rewrite (proj1 (tests_without_winners d q (Code.value c) W)).
    unfold searchLike. rewrite S. now rewrite !andb_true_r.
Qed.

(** ** Repeated winners *)

Lemma sameSet_member (l1 l2 : list string) :
  sameSet l1 l2 = true -> forall x, member x l1 = member x l2.
Proof.
  unfold sameSet. intros H x. apply andb_true_iff in H as [H1 H2].
  rewrite forallb_forall in H1, H2.
  destruct (member x l1) eqn:M1.
  - symmetry. apply H1. now apply member_In.
  - destruct (member x l2) eqn:M2; [|reflexivity].
    apply member_In in M2. apply H2 in M2. congruence.
Qed.

Lemma sameSet_nil (l1 l2 : list string) :
  sameSet l1 l2 = true -> (l1 = [] <-> l2 = []).
Proof.
  intros H. pose proof (sameSet_member _ _ H) as M.
  split; intros ->.
  - destruct l2 as [|x l2]; [reflexivity|].
    specialize (M x). simpl in M. now rewrite String.eqb_refl in M.
  - destruct l1 as [|x l1]; [reflexivity|].
    specialize (M x). simpl in M. now rewrite String.eqb_refl in M.
Qed.

Lemma positiveTest_alt (d : DB) (q : PagingDto) (v : string) :
  positiveTest d q v
  = match filtersOf d with
    | [] => searchLike q v
    | _ => member v (filtersOf d) && searchHit q v
    end.
Proof.
  destruct (filtersOf d) as [|f fs] eqn:F.
  - unfold positiveTest. now rewrite F.
  - rewrite <- F. apply positiveTest_with_winners. rewrite F. discriminate.
Qed.

Lemma tests_same_set (d1 d2 : DB) (q : PagingDto) (v : string) :
  sameSet (filtersOf d1) (filtersOf d2) = true ->
  positiveTest d1 q v = positiveTest d2 q v /\
  negativeTest d1 q v = negativeTest d2 q v.
Proof.
  intros H. pose proof (sameSet_member _ _ H v) as M.
  pose proof (sameSet_nil _ _ H) as N.
  rewrite !positiveTest_alt. unfold negativeTest.
  destruct (filtersOf d1) as [|f1 l1], (filtersOf d2) as [|f2 l2];
    try (now split);
    try (exfalso; destruct N as [N1 N2];
         (discriminate (N1 eq_refl) || discriminate (N2 eq_refl))).
  now rewrite M.
Qed.

(** ** Rows are not repeated *)

Lemma NoDup_filter_ids (keep : Code.t -> bool) (rows : list Code.t) :
  NoDup (map Code._id rows) -> NoDup (map Code._id (filter keep rows)).
Proof.
  induction rows as [|x rows IH]; simpl; [trivial|].
  intros H. inversion H as [|y m N D]; subst.
  destruct (keep x); simpl; [|auto].
  constructor; [|auto].
  intros I. apply N. apply in_map_iff in I as [z [E I]].
  apply filter_In in I as [I _]. apply in_map_iff. now exists z.
Qed.

Lemma NoDup_map_skipn {A B : Type} (f : A -> B) (n : nat) (l : list A) :
  NoDup (map f l) -> NoDup (map f (skipn n l)).
Proof.
  revert l. induction n as [|n IH]; intros [|x l]; simpl; trivial.
  intros H. inversion H; subst. auto.
Qed.

Lemma NoDup_map_firstn {A B : Type} (f : A -> B) (n : nat) (l : list A) :
  NoDup (map f l) -> NoDup (map f (firstn n l)).
Proof.
  revert l. induction n as [|n IH]; intros [|x l]; simpl; trivial;
    [constructor|].
  intros H. inversion H as [|y m N D]; subst.
  constructor; [|auto].
  intros I. apply N. apply in_map_iff in I as [z [E I]].
  apply In_firstn in I. apply in_map_iff. now exists z.
Qed.

Lemma NoDup_map_cut {A B : Type} (f : A -> B) (t s : Z) (l : list A) :
  NoDup (map f l) -> NoDup (map f (Postgres.cut t s l)).
Proof.
  intros H. unfold Postgres.cut. destruct (t =? 0)%Z.
  - now apply NoDup_map_skipn.
  - now apply NoDup_map_firstn, NoDup_map_skipn.
Qed.

Lemma project_id (d : DB) (rels : list Relation) (g : bool) (l : list Code.t) :
  map CodeRow._id (map (Orm.project d rels g) l) = map Code._id l.
Proof. rewrite map_map. reflexivity. Qed.

Lemma pageOf_NoDup (v : View) (d : DB) (q : PagingDto) :
  NoDup (map Code._id (codes d)) ->
  NoDup (map CodeRow._id (data (pageOf (method v) d q))).
Proof.
  intros H. rewrite pageOf_listing. unfold listing. cbn [data].
  rewrite project_id. unfold Orm.paginate.
  apply NoDup_map_firstn, NoDup_map_skipn.
  apply (Permutation_NoDup
           (l := map Code._id (filter (viewPred v d q) (codes d)))).
  - apply Permutation_map. symmetry. apply sort_Permutation.
  - now apply NoDup_filter_ids.
Qed.

Section Once.

Variable arrange : FindOptions -> list Code.t -> list Code.t.
Hypothesis arrange_lawful : lawful arrange.

Lemma served_once (v : View) (d : DB) (q : PagingDto) (p : Page) :
  resultOf (served arrange v) d q = Ok p ->
  total p = List.length (matched v d q) /\
  (NoDup (map Code._id (codes d)) -> NoDup (map CodeRow._id (data p))) /\
  exists rows,
    Permutation rows (matched v d q) /\
    data p = map (Orm.project d (viewRelations v) (viewGiftId v))
                 (Postgres.cut (Js.nullish (limit q) 10%Z)
                    ((Js.nullish (page q) 1 - 1) * Js.nullish (limit q) 10)%Z
                    rows).
Proof.
  destruct (served_rows arrange arrange_lawful v d q) as [rows [P [_ E]]].
  unfold resultOf. rewrite E. cbn [fst].
  destruct ((0 <=? Js.nullish (limit q) 10)
            && (0 <=? (Js.nullish (page q) 1 - 1) * Js.nullish (limit q) 10))%Z;
    [|discriminate].
  intros [= <-]. cbn [data total]. split; [reflexivity|]. split.
  - intros H. rewrite project_id. apply NoDup_map_cut.
    apply (Permutation_NoDup (l := map Code._id (matched v d q))).
    + apply Permutation_map. now symmetry.
    + now apply NoDup_filter_ids.
  - exists rows. split; [exact P | reflexivity].
Qed.

(** C7, as the code has it: the views read the winners table through the
    set of variant strings only.  Two winners tables whose variant lists
    hold the same strings (a winner repeated verbatim, or repeated in a
    spelling whose four variants are already there) make every view match
    the same rows and give the same total, and the same page when rows with
    equal keys come in table order.  The total is the number of code rows
    that pass the test of the view; a returned page is cut out of a
    sequence that holds every matched row as often as the table has it, and
    holds no record twice (records being told apart by their [_id]): a row
    is listed once and counted once however many winner entries match it,
    also whatever order the database gives to rows with equal keys. *)
Theorem views_read_variant_set (v : View) (d : DB) (ws1 ws2 : list Winner.t)
    (q : PagingDto) :
  sameSet (filtersOf (withWinners d ws1)) (filtersOf (withWinners d ws2)) = true ->
  pageOf (method v) (withWinners d ws1) q = pageOf (method v) (withWinners d ws2) q /\
  total (pageOf (method v) (withWinners d ws1) q)
  = List.length (filter (viewPred v (withWinners d ws1) q) (codes d)) /\
  total (pageOf (method v) (withWinners d ws1) q) <= List.length (codes d) /\
  (NoDup (map Code._id (codes d)) ->
   NoDup (map CodeRow._id (data (pageOf (method v) (withWinners d ws1) q)))) /\
  matched v (withWinners d ws1) q = matched v (withWinners d ws2) q /\
  (forall p, resultOf (served arrange v) (withWinners d ws1) q = Ok p ->
     total p = List.length (matched v (withWinners d ws1) q) /\
     (NoDup (map Code._id (codes d)) -> NoDup (map CodeRow._id (data p))) /\
     (exists rows,
         Permutation rows (matched v (withWinners d ws1) q) /\
         data p = map (Orm.project (withWinners d ws1) (viewRelations v)
                                   (viewGiftId v))
                      (Postgres.cut (Js.nullish (limit q) 10%Z)
                         ((Js.nullish (page q) 1 - 1) * Js.nullish (limit q) 10)%Z
                         rows)) /\
     exists p', resultOf (served arrange v) (withWinners d ws2) q = Ok p' /\
                total p' = total p).
Proof.
  intros H.
  assert (P : forall c, viewPred v (withWinners d ws1) q c
                        = viewPred v (withWinners d ws2) q c).
  { intros c.
    destruct (tests_same_set _ _ q (Code.value c) H) as [Tp Tn].
    destruct v; cbn [viewPred];
      unfold winnersPred, losersPred, winnerCodesPred, nonWinnerCodesPred;
      now rewrite ?Tp, ?Tn. }
  assert (Mt : matched v (withWinners d ws1) q = matched v (withWinners d ws2) q).
  { unfold matched. cbn [codes withWinners]. apply filter_ext, P. }
  split; [|split; [|split; [|split; [|split]]]].
  - rewrite !pageOf_listing. unfold listing. cbn [codes withWinners].
    rewrite (filter_ext _ _ P). reflexivity.
  - now rewrite pageOf_total.
  - rewrite pageOf_total. cbn [codes withWinners]. apply filter_length_le.
  - apply (pageOf_NoDup v (withWinners d ws1) q).
  - exact Mt.
  - intros p E.
    destruct (served_once v (withWinners d ws1) q p E) as [T [N A]].
    split; [exact T|]. split; [exact N|]. split; [exact A|].
    destruct (proj1 (served_result arrange v (withWinners d ws2) q)) as [p' E'].
    { destruct (served_run arrange v (withWinners d ws1) q) as [o [_ R]].
      unfold resultOf in E. rewrite R in E. cbn [fst] in E.
      apply databaseAccepts_iff.
      destruct ((0 <=? Js.nullish (limit q) 10)
                && (0 <=? (Js.nullish (page q) 1 - 1)
                          * Js.nullish (limit q) 10))%Z;
        [reflexivity | discriminate]. }
    exists p'. split; [exact E'|].
    rewrite T, Mt. apply (served_once v (withWinners d ws2) q p' E').
Qed.

End Once.

Lemma views_read_variant_set_witness :
  pageOf getWinners
    (withWinners Sample.spellings
       [winnerEntry "ab1234-cd56"; winnerEntry "AB1234CD56"]) Sample.plain
  = pageOf getWinners
      (withWinners Sample.spellings [winnerEntry "ab1234-cd56"]) Sample.plain /\
  total (pageOf getWinners
           (withWinners Sample.spellings
              [winnerEntry "ab1234-cd56"; winnerEntry "AB1234CD56"])
           Sample.plain) <= 2 /\
  NoDup (map CodeRow._id
           (data (pageOf getWinners
                    (withWinners Sample.spellings
                       [winnerEntry "ab1234-cd56"; winnerEntry "AB1234CD56"])
                    Sample.plain))).
Proof.
  destruct (views_read_variant_set Postgres.tableOrder tableOrder_lawful
              Winners Sample.spellings
              [winnerEntry "ab1234-cd56"; winnerEntry "AB1234CD56"]
              [winnerEntry "ab1234-cd56"] Sample.plain eq_refl)
    as [E [_ [L [N _]]]].
  split; [exact E|]. split; [exact L|].
  apply N. vm_compute.
  constructor; [intros [H|[]]; discriminate H|].
  constructor; [intros []|constructor].
Defined.

(** C7, counterexample: two winner entries with the same normalised form,
    ["ab1234-cd56"] and ["Ab1234cd56"].  Together they mark two redeemed
    codes as winners; either of them alone marks one. *)
Lemma two_spellings_are_not_one_entry :
  norm "ab1234-cd56" = norm "Ab1234cd56" /\
  total (pageOf getWinners
           (withWinners Sample.spellings
              [winnerEntry "ab1234-cd56"; winnerEntry "Ab1234cd56"])
           Sample.plain) = 2 /\
  total (pageOf getWinners
           (withWinners Sample.spellings [winnerEntry "ab1234-cd56"])
           Sample.plain) = 1 /\
  total (pageOf getWinners
           (withWinners Sample.spellings [winnerEntry "Ab1234cd56"])
           Sample.plain) = 1.
Proof. repeat split; reflexivity. Qed.

(** ** The four views side by side *)

(** C8, at the failing inputs.  With one winner and the search term
    ["AAAA"], the Losers view returns both redeemed codes, where the query of
    the Winners view with the membership test negated returns the one that
    contains the term: the two views of the pair differ in the search as
    well.  With no winner and no term, the Winners view returns the rows of
    the Losers view and the Winner-codes view those of the Non-winner-codes
    view: membership is not tested at all. *)
Theorem pairs_differ_beyond_membership :
  map CodeRow.value
      (data (pageOf getLosers Sample.oneWinner (Sample.searching "AAAA")))
  = ["BBBB222222"; "AAAA111111"] /\
  map CodeRow.value
      (data (losersAsTabled Sample.oneWinner (Sample.searching "AAAA")))
  = ["AAAA111111"] /\
  total (pageOf getLosers Sample.oneWinner (Sample.searching "AAAA")) = 2 /\
  total (losersAsTabled Sample.oneWinner (Sample.searching "AAAA")) = 1 /\
  winners Sample.noWinner = [] /\
  map CodeRow.value (data (pageOf getWinners Sample.noWinner Sample.plain))
  = ["BBBB222222"; "AAAA111111"] /\
  map CodeRow.value (data (pageOf getLosers Sample.noWinner Sample.plain))
  = ["BBBB222222"; "AAAA111111"] /\
  map CodeRow.value (data (pageOf getWinnerCodes Sample.noWinner Sample.plain))
  = ["AAAA111111"; "BBBB222222"] /\
  map CodeRow.value (data (pageOf getNonWinnerCodes Sample.noWinner Sample.plain))
  = ["AAAA111111"; "BBBB222222"].
Proof. repeat split; reflexivity. Qed.

(** * Further properties *)

(** ** The normaliser *)

Lemma upperFixed_not_lower (c : ascii) : upperFixed c = true -> isLower c = false.
Proof.
  destruct c as [b0 b1 b2 b3 b4 b5 b6 b7].
  destruct b0, b1, b2, b3, b4, b5, b6, b7; vm_compute; congruence.
Qed.

Lemma all_impl (P Q : ascii -> bool) (s : string) :
  (forall c, P c = true -> Q c = true) ->
  Js.all P s = true -> Js.all Q s = true.
Proof.
  intros H. induction s as [|c s IH]; simpl; [trivial|].
  intros A. apply andb_true_iff in A as [Hc Hs].
  now rewrite (H c Hc), IH.
Qed.

Lemma whiteSpace_toUpperChar (c : ascii) :
  Js.isWhiteSpace (Js.toUpperChar c) = Js.isWhiteSpace c.
Proof.
  destruct c as [b0 b1 b2 b3 b4 b5 b6 b7].
  destruct b0, b1, b2, b3, b4, b5, b6, b7; reflexivity.
Qed.

Lemma trimStart_toUpperCase (s : string) :
  Js.trimStart (Js.toUpperCase s) = Js.toUpperCase (Js.trimStart s).
Proof.
  induction s as [|c s IH]; simpl; [reflexivity|].
  rewrite whiteSpace_toUpperChar. now destruct (Js.isWhiteSpace c).
Qed.

Lemma trimEnd_toUpperCase (s : string) :
  Js.trimEnd (Js.toUpperCase s) = Js.toUpperCase (Js.trimEnd s).
Proof.
  induction s as [|c s IH]; simpl; [reflexivity|].
  rewrite IH, whiteSpace_toUpperChar.
  destruct (Js.trimEnd s) as [|d t]; simpl; [|reflexivity].
  now destruct (Js.isWhiteSpace c).
Qed.

Lemma toUpperCase_idem (s : string) :
  Js.toUpperCase (Js.toUpperCase s) = Js.toUpperCase s.
Proof. apply toUpperCase_fixed, all_toUpperCase. Qed.

(** X1: whatever the input, the normalised form holds no hyphen and no
    lower case letter of ASCII; and the normalised form of an ASCII string
    is never longer than the string. *)
Theorem norm_output_shape (s : string) :
  Js.all notHyphen (norm s) = true /\
  Js.all (fun c => negb (isLower c)) (norm s) = true /\
  (Js.all isAscii s = true -> String.length (norm s) <= String.length s).
Proof.
  split; [apply norm_notHyphen|]. split.
  - apply (all_impl upperFixed); [|apply norm_upperFixed].
    intros c H. now rewrite (upperFixed_not_lower c H).
  - intros _. rewrite norm_unfold.
    pose proof (length_replaceHyphens (Js.toUpperCase (Js.trim s))) as H1.
    rewrite length_toUpperCase in H1. unfold Js.trim in *.
    pose proof (length_trimEnd (Js.trimStart s)).
    pose proof (length_trimStart s). lia.
Qed.

Lemma norm_output_shape_witness :
  Js.all notHyphen (norm " ab-12 ") = true /\
  String.length (norm " ab-12 ") <= String.length " ab-12 ".
Proof.
  destruct (norm_output_shape " ab-12 ") as [H [_ L]].
  split; [exact H | exact (L eq_refl)].
Defined.

(** X2: the normaliser does not see the case of letters: two strings with
    the same upper case form have the same normalised form. *)
Theorem norm_ignores_case (s t : string) :
  Js.toUpperCase s = Js.toUpperCase t -> norm s = norm t.
Proof.
  assert (U : forall x, norm x = norm (Js.toUpperCase x)).
  { intros x. rewrite !norm_unfold. unfold Js.trim.
    rewrite trimStart_toUpperCase, trimEnd_toUpperCase.
    now rewrite toUpperCase_idem. }
  intros H. rewrite (U s), (U t). now rewrite H.
Qed.

Lemma norm_ignores_case_witness : norm "ab-12" = norm "Ab-12".
Proof. apply norm_ignores_case. reflexivity. Defined.

(** ** The hyphenated rendering *)

Lemma replaceHyphens_app (a b : string) :
  Js.replaceHyphens (a ++ b) = (Js.replaceHyphens a ++ Js.replaceHyphens b)%string.
Proof.
  induction a as [|c a IH]; simpl; [reflexivity|].
  destruct (Js.isHyphen c); simpl; now rewrite IH.
Qed.

Lemma substring_zero_all (s : string) : substring 0 (String.length s) s = s.
Proof. induction s as [|c s IH]; simpl; [reflexivity | now rewrite IH]. Qed.

Lemma substring_split (k : nat) (s : string) :
  k <= String.length s ->
  (substring 0 k s ++ substring k (String.length s - k) s)%string = s.
Proof.
  revert s. induction k as [|k IH]; intros s H.
  - rewrite Nat.sub_0_r, substring_zero_all. now destruct s.
  - destruct s as [|c s]; simpl in H; [lia|].
    simpl. rewrite IH by lia. reflexivity.
Qed.

Lemma length_append (a b : string) :
  String.length (a ++ b) = String.length a + String.length b.
Proof. induction a as [|c a IH]; simpl; congruence. Qed.

(** X3: removing the hyphens of the hyphenated rendering gives the
    normalised form back, for every winner value; and when the normalised
    form has length 10 the rendering has length 11. *)
Theorem withHyphen_round_trip (w : string) :
  Js.replaceHyphens (withHyphen (norm w)) = norm w /\
  (String.length (norm w) = 10 -> String.length (withHyphen (norm w)) = 11).
Proof.
  pose proof (replaceHyphens_fixed _ (norm_notHyphen w)) as F.
  split.
  - destruct (Nat.eq_dec (String.length (norm w)) 10) as [L|L].
    + rewrite (withHyphen_ten _ L).
      rewrite <- F at 3.
      rewrite <- (substring_split 6 (norm w)) at 3 by lia.
      rewrite L. rewrite !replaceHyphens_app. reflexivity.
    + now rewrite (withHyphen_other _ L).
  - intros L. rewrite (withHyphen_ten _ L).
    pose proof (substring_split 6 (norm w)) as S. rewrite L in S.
    specialize (S ltac:(lia)). apply (f_equal String.length) in S.
    rewrite !length_append in *. simpl in *. lia.
Qed.

Lemma withHyphen_round_trip_witness :
  Js.replaceHyphens (withHyphen (norm "ab12-cd3456")) = "AB12CD3456" /\
  String.length (withHyphen (norm "ab12-cd3456")) = 11.
Proof.
  destruct (withHyphen_round_trip "ab12-cd3456") as [R L].
  split; [exact R | exact (L eq_refl)].
Defined.

(** ** Lookup and listing together *)





(** ** Pages *)

Lemma firstn_then_skipn {A : Type} (n m : nat) (l : list A) :
  firstn n l ++ firstn m (skipn n l) = firstn (n + m) l.
Proof.
  revert l. induction n as [|n IH]; intros l; [reflexivity|].
  destruct l as [|x l]; simpl.
  - now rewrite !firstn_nil.
  - now rewrite IH.
Qed.

Lemma firstn_firstn_skipn {A : Type} (n : nat) (l : list A) :
  firstn n l ++ firstn n (skipn n l) = firstn (2 * n) l.
Proof. rewrite firstn_then_skipn. f_equal. lia. Qed.

Lemma view_total_ignores_paging (v : View) (d : DB) (q q' : PagingDto) :
  search q' = search q ->
  fullListing v d q' = fullListing v d q /\
  filter (viewPred v d q') (codes d) = filter (viewPred v d q) (codes d).
Proof.
  intros S.
  assert (P : forall c, viewPred v d q' c = viewPred v d q c).
  { intros c. destruct v; cbn [viewPred];
      unfold winnersPred, losersPred, winnerCodesPred, nonWinnerCodesPred,
        positiveTest, negativeTest, searchLike; now rewrite S. }
  unfold fullListing. now rewrite (filter_ext _ _ P).
Qed.

(** X5: for a limit and a page of at least 1, a view returns exactly
    [min limit (total - (page - 1) * limit)] rows: full pages up to the
    last one, the rest on the last page, and nothing past the end. *)
Theorem page_size (v : View) (d : DB) (q : PagingDto) :
  let l := Js.nullish (limit q) 10%Z in
  let p := Js.nullish (page q) 1%Z in
  (1 <= l)%Z -> (1 <= p)%Z ->
  List.length (data (pageOf (method v) d q))
  = Nat.min (Z.to_nat l)
      (total (pageOf (method v) d q) - (Z.to_nat p - 1) * Z.to_nat l).
Proof.
  intros l p Hl Hp. rewrite pageOf_data. unfold Orm.paginate. fold l p.
  rewrite length_firstn, length_skipn, fullListing_length.
  replace (Z.to_nat ((p - 1) * l)) with ((Z.to_nat p - 1) * Z.to_nat l);
    [reflexivity|].
  rewrite Z2Nat.inj_mul by lia. rewrite Z2Nat.inj_sub by lia. reflexivity.
Qed.

Lemma page_size_witness :
  List.length (data (pageOf getLosers Sample.oneWinner (Sample.paged 1 2))) = 1 /\
  List.length (data (pageOf getLosers Sample.oneWinner (Sample.paged 1 3))) = 0.
Proof.
  split.
  - etransitivity;
      [apply (page_size Losers Sample.oneWinner (Sample.paged 1 2));
       vm_compute; discriminate | reflexivity].
  - etransitivity;
      [apply (page_size Losers Sample.oneWinner (Sample.paged 1 3));
       vm_compute; discriminate | reflexivity].
Defined.

Lemma before_trans (o : Order) (a b c : Code.t) :
  beforeP o a b -> beforeP o b c -> beforeP o a c.
Proof.
  unfold beforeP, Orm.before. destruct o.
  - destruct (Code.usedAt a), (Code.usedAt b), (Code.usedAt c);
      try congruence; rewrite !Z.leb_le; lia.
  - rewrite !Z.leb_le. lia.
Qed.

Lemma Sorted_strongly (o : Order) (l : list Code.t) :
  Sorted (beforeP o) l -> StronglySorted (beforeP o) l.
Proof.
  apply Sorted_StronglySorted. intros a b c. apply before_trans.
Qed.

(** A list has one arrangement only in which it is sorted, when no two of
    its elements can stand either way round. *)
Lemma sorted_arrangement_unique (o : Order) (l1 l2 : list Code.t) :
  StronglySorted (beforeP o) l1 -> StronglySorted (beforeP o) l2 ->
  Permutation l1 l2 ->
  (forall a b, In a l1 -> In b l1 -> beforeP o a b -> beforeP o b a -> a = b) ->
  l1 = l2.
Proof.
  revert l2. induction l1 as [|a l1 IH]; intros l2 S1 S2 P D.
  - now apply Permutation_nil in P.
  - destruct l2 as [|b l2].
    { symmetry in P. now apply Permutation_nil in P. }
    inversion S1 as [|? ? S1' F1]; subst.
    inversion S2 as [|? ? S2' F2]; subst.
    assert (E : a = b).
    { assert (Ia : In a (b :: l2))
        by (apply (Permutation_in _ P); now left).
      assert (Ib : In b (a :: l1))
        by (apply (Permutation_in _ (Permutation_sym P)); now left).
      destruct Ia as [Ia|Ia]; [now symmetry|].
      destruct Ib as [Ib|Ib]; [assumption|].
      rewrite Forall_forall in F1, F2.
      apply D; [now left | now right | now apply F1 | now apply F2]. }
    subst b. f_equal. apply IH; try assumption.
    + now apply Permutation_cons_inv in P.
    + intros x y Hx Hy. apply D; now right.
Qed.

Section Pages.

Variable arrange : FindOptions -> list Code.t -> list Code.t.
Hypothesis arrange_lawful : lawful arrange.

(** With distinct keys the database has no choice left. *)
Lemma served_distinct (v : View) (d : DB) (q : PagingDto) :
  distinctKeys v d q ->
  run (served arrange v) d q = run (served Postgres.tableOrder v) d q.
Proof.
  intros D.
  destruct (served_rows arrange arrange_lawful v d q) as [r1 [P1 [S1 E1]]].
  destruct (served_rows Postgres.tableOrder tableOrder_lawful v d q)
    as [r2 [P2 [S2 E2]]].
  rewrite E1, E2.
  replace r2 with r1; [reflexivity|].
  apply (sorted_arrangement_unique (viewOrder v)).
  - now apply Sorted_strongly.
  - now apply Sorted_strongly.
  - now rewrite P1, P2.
  - intros a b Ha Hb. apply D.
    + now apply (Permutation_in _ P1).
    + now apply (Permutation_in _ P1).
Qed.

(** X6: when no two rows a view matches share its sort key, two
    consecutive pages of the same limit (at least 1, from a page of at least
    1 on) are both returned, with the same total, and together they are the
    next [2 * limit] rows of the listing: no row is lost or repeated between
    them, whatever the database does with equal keys. *)
Theorem consecutive_pages (v : View) (d : DB) (q : PagingDto) (l p : Z) :
  limit q = Some l -> page q = Some p -> (1 <= l)%Z -> (1 <= p)%Z ->
  distinctKeys v d q ->
  exists p1 p2,
    resultOf (served arrange v) d q = Ok p1 /\
    resultOf (served arrange v) d (atPage q (p + 1)) = Ok p2 /\
    total p2 = total p1 /\
    total p1 = List.length (matched v d q) /\
    data p1 ++ data p2
    = firstn (2 * Z.to_nat l)
        (skipn ((Z.to_nat p - 1) * Z.to_nat l) (fullListing v d q)).
Proof.
  intros Hl Hp L P D.
  assert (D' : distinctKeys v d (atPage q (p + 1))).
  { unfold distinctKeys, matched.
    rewrite (proj2 (view_total_ignores_paging v d q (atPage q (p + 1)) eq_refl)).
    exact D. }
  exists (pageOf (method v) d q), (pageOf (method v) d (atPage q (p + 1))).
  assert (R1 : resultOf (served arrange v) d q = Ok (pageOf (method v) d q)).
  { unfold resultOf, pageOf, resultOf.
    rewrite (served_distinct v d q D), served_tableOrder, view_run;
      rewrite ?Hl, ?Hp; cbn [Js.nullish]; [reflexivity | lia | nia]. }
  assert (R2 : resultOf (served arrange v) d (atPage q (p + 1))
               = Ok (pageOf (method v) d (atPage q (p + 1)))).
  { unfold resultOf, pageOf, resultOf.
    rewrite (served_distinct v d _ D'), served_tableOrder, view_run;
      unfold atPage; cbn [limit page]; rewrite ?Hl; cbn [Js.nullish];
      [reflexivity | lia | nia]. }
  split; [exact R1|]. split; [exact R2|].
  destruct (view_total_ignores_paging v d q (atPage q (p + 1)) eq_refl) as [F T].
  split; [rewrite !pageOf_total; now rewrite T|].
  split; [apply pageOf_total|].
  rewrite !pageOf_data, F. unfold Orm.paginate, atPage.
  cbn [limit page]. rewrite Hl, Hp. cbn [Js.nullish].
  replace (Z.to_nat ((p - 1) * l)) with ((Z.to_nat p - 1) * Z.to_nat l)
    by (rewrite Z2Nat.inj_mul by lia; rewrite Z2Nat.inj_sub by lia;
        reflexivity).
  replace (Z.to_nat ((p + 1 - 1) * l))
    with (Z.to_nat l + (Z.to_nat p - 1) * Z.to_nat l)
    by (rewrite Z2Nat.inj_mul by lia; rewrite Z2Nat.inj_sub by lia;
        rewrite Z2Nat.inj_add by lia; simpl; nia).
  rewrite <- skipn_skipn. apply firstn_firstn_skipn.
Qed.

End Pages.

Lemma consecutive_pages_witness :
  map CodeRow.value
      (data (pageOf (served Postgres.reverseOrder Losers) Sample.oneWinner
                    (Sample.paged 1 1))
       ++ data (pageOf (served Postgres.reverseOrder Losers) Sample.oneWinner
                       (Sample.paged 1 2)))
  = ["BBBB222222"; "AAAA111111"].
Proof.
  destruct (consecutive_pages Postgres.reverseOrder reverseOrder_lawful
              Losers Sample.oneWinner (Sample.paged 1 1) 1 1
              eq_refl eq_refl ltac:(lia) ltac:(lia))
    as [p1 [p2 [E1 [E2 [_ [_ E]]]]]].
  - intros a b [<-|[<-|[]]] [<-|[<-|[]]]; vm_compute; congruence.
  - unfold pageOf. rewrite E1.
    change (Sample.paged 1 2) with (atPage (Sample.paged 1 1) (1 + 1)).
    rewrite E2, E. reflexivity.
Defined.

(** ** Soft-deleted records *)

Lemma viewPred_notDeleted (v : View) (d : DB) (q : PagingDto) (c : Code.t) :
  viewPred v d q c = true -> Orm.notDeleted c = true.
Proof.
  destruct v; cbn [viewPred];
    unfold winnersPred, losersPred, winnerCodesPred, nonWinnerCodesPred;
    intros H; repeat (apply andb_true_iff in H as [H _]); exact H.
Qed.

Lemma filter_filter_sub {A : Type} (f g : A -> bool) (l : list A) :
  (forall x, f x = true -> g x = true) ->
  filter f (filter g l) = filter f l.
Proof.
  intros H. induction l as [|x l IH]; simpl; [reflexivity|].
  destruct (g x) eqn:G; simpl.
  - now rewrite IH.
  - destruct (f x) eqn:F; [|exact IH].
    rewrite (H x F) in G. discriminate.
Qed.

Lemma findWinners_active (d : DB) (ws : list Winner.t) :
  Orm.findWinners (withWinners d (filter activeWinner ws))
  = Orm.findWinners (withWinners d ws).
Proof.
  unfold Orm.findWinners. cbn [winners withWinners].
  apply filter_filter_sub. trivial.
Qed.

(** X7: records that are marked deleted do not count.  A view returns the
    same page and total whether the deleted code records and the deleted
    winner records are in their tables or not, and every row it returns
    comes from a code record that is not deleted. *)
Theorem deleted_records_are_invisible (v : View) (d : DB) (q : PagingDto) :
  pageOf (method v) (withCodes d (filter Orm.notDeleted (codes d))) q
  = pageOf (method v) d q /\
  pageOf (method v) (withWinners d (filter activeWinner (winners d))) q
  = pageOf (method v) d q /\
  (forall r, In r (data (pageOf (method v) d q)) ->
             exists c, In c (codes d) /\ Code.deletedAt c = None /\
                       CodeRow._id r = Code._id c /\
                       CodeRow.value r = Code.value c).
Proof.
  split; [|split].
  - rewrite !pageOf_listing. unfold listing. cbn [codes withCodes].
    assert (P : forall c, viewPred v (withCodes d (filter Orm.notDeleted (codes d))) q c
                          = viewPred v d q c) by (destruct v; reflexivity).
    rewrite (filter_ext _ _ P).
    rewrite (filter_filter_sub _ _ _ (viewPred_notDeleted v d q)).
    reflexivity.
  - rewrite !pageOf_listing. unfold listing. cbn [codes withWinners].
    assert (P : forall c,
               viewPred v (withWinners d (filter activeWinner (winners d))) q c
               = viewPred v d q c).
    { intros c.
      assert (F : filtersOf (withWinners d (filter activeWinner (winners d)))
                  = filtersOf d).
      { unfold filtersOf, winnerValuesOf. rewrite findWinners_active.
        reflexivity. }
      destruct v; cbn [viewPred];
        unfold winnersPred, losersPred, winnerCodesPred, nonWinnerCodesPred,
          positiveTest, negativeTest; now rewrite F. }
    rewrite (filter_ext _ _ P). reflexivity.
  - intros r Hr. apply pageOf_row in Hr as [c [Hc [Hp ->]]].
    exists c. split; [assumption|]. split; [|split; reflexivity].
    apply viewPred_notDeleted in Hp. unfold Orm.notDeleted in Hp.
    now destruct (Code.deletedAt c).
Qed.

(** ** The two views of a pair *)

Lemma row_value_test (v : View) (d : DB) (q : PagingDto) (r : CodeRow.t) :
  In r (data (pageOf (method v) d q)) ->
  match v with
  | Winners | WinnerCodes => positiveTest d q (CodeRow.value r) = true
  | Losers | NonWinnerCodes => negativeTest d q (CodeRow.value r) = true
  end.
Proof.
  intros Hr. apply pageOf_row in Hr as [c [_ [Hp ->]]].
  cbn [Orm.project CodeRow.value].
  destruct v; cbn [viewPred] in Hp;
    unfold winnersPred, losersPred, winnerCodesPred, nonWinnerCodesPred in Hp;
    now apply andb_true_iff in Hp as [_ Hp].
Qed.

(** X8: once there is a winner value, every row of the Winners and
    Winner-codes views carries a value of the variant list that contains
    the search term, if there is one, and no row of the Losers and
    Non-winner-codes views carries a value of the variant list; so a value
    listed by a positive view is never listed by a negative one, whatever
    the two queries. *)
Theorem positive_and_negative_rows (d : DB) (q : PagingDto) :
  filtersOf d <> [] ->
  (forall v r, v = Winners \/ v = WinnerCodes ->
               In r (data (pageOf (method v) d q)) ->
               In (CodeRow.value r) (filtersOf d) /\
               searchHit q (CodeRow.value r) = true) /\
  (forall v r, v = Losers \/ v = NonWinnerCodes ->
               In r (data (pageOf (method v) d q)) ->
               ~ In (CodeRow.value r) (filtersOf d)) /\
  (forall q' vp vn rp rn,
      vp = Winners \/ vp = WinnerCodes -> vn = Losers \/ vn = NonWinnerCodes ->
      In rp (data (pageOf (method vp) d q)) ->
      In rn (data (pageOf (method vn) d q')) ->
      CodeRow.value rp <> CodeRow.value rn).
Proof.
  intros F.
  assert (Pos : forall q0 v r, v = Winners \/ v = WinnerCodes ->
                 In r (data (pageOf (method v) d q0)) ->
                 In (CodeRow.value r) (filtersOf d) /\
                 searchHit q0 (CodeRow.value r) = true).
  { intros q0 v r Hv Hr. apply row_value_test in Hr.
    assert (T : positiveTest d q0 (CodeRow.value r) = true)
      by (destruct Hv as [-> | ->]; exact Hr).
    rewrite positiveTest_with_winners in T by assumption.
    apply andb_true_iff in T as [M S]. split; [now apply member_In | exact S]. }
  assert (Neg : forall q0 v r, v = Losers \/ v = NonWinnerCodes ->
                 In r (data (pageOf (method v) d q0)) ->
                 ~ In (CodeRow.value r) (filtersOf d)).
  { intros q0 v r Hv Hr. apply row_value_test in Hr.
    assert (T : negativeTest d q0 (CodeRow.value r) = true)
      by (destruct Hv as [-> | ->]; exact Hr).
    rewrite negativeTest_with_winners in T by assumption.
    apply negb_true_iff in T. now apply member_false. }
  split; [apply Pos|]. split; [apply Neg|].
  intros q' vp vn rp rn Hp Hn Rp Rn E.
  apply (Neg q' vn rn Hn Rn). rewrite <- E. apply (Pos q vp rp Hp Rp).
Qed.

Lemma positive_and_negative_rows_witness :
  ~ In "BBBB222222" (filtersOf Sample.oneWinner).
Proof.
  assert (F : filtersOf Sample.oneWinner <> []) by (vm_compute; discriminate).
  apply (proj1 (proj2 (positive_and_negative_rows Sample.oneWinner Sample.plain F))
           Losers
           (Orm.project Sample.oneWinner [RelUsedBy] false
              (Sample.usedCode "c2" 2 "BBBB222222" None 200))).
  - left; reflexivity.
  - left; reflexivity.
Defined.

Lemma filter_length_sub {A : Type} (f g : A -> bool) (l : list A) :
  (forall x, f x = true -> g x = true) ->
  List.length (filter f l) <= List.length (filter g l).
Proof.
  intros H. induction l as [|x l IH]; simpl; [lia|].
  destruct (f x) eqn:F.
  - rewrite (H x F). simpl. lia.
  - destruct (g x); simpl; lia.
Qed.

(** X9: the views that look at redeemed codes only list part of what
    their all-codes counterparts list: under the same query, every code the
    Winners view counts is counted by the Winner-codes view, and every code
    the Losers view counts is counted by the Non-winner-codes view. *)
Theorem redeemed_views_within_code_views (d : DB) (q : PagingDto) :
  total (pageOf getWinners d q) <= total (pageOf getWinnerCodes d q) /\
  total (pageOf getLosers d q) <= total (pageOf getNonWinnerCodes d q) /\
  (forall r, In r (fullListing Winners d q) ->
             exists r', In r' (fullListing WinnerCodes d q) /\
                        CodeRow._id r' = CodeRow._id r /\
                        CodeRow.value r' = CodeRow.value r) /\
  (forall r, In r (fullListing Losers d q) ->
             exists r', In r' (fullListing NonWinnerCodes d q) /\
                        CodeRow._id r' = CodeRow._id r /\
                        CodeRow.value r' = CodeRow.value r).
Proof.
  assert (W : forall c, winnersPred d q c = true -> winnerCodesPred d q c = true).
  { intros c. unfold winnersPred, winnerCodesPred. intros H.
    apply andb_true_iff in H as [H T]. apply andb_true_iff in H as [D _].
    now rewrite D, T. }
  assert (L : forall c, losersPred d q c = true -> nonWinnerCodesPred d q c = true).
  { intros c. unfold losersPred, nonWinnerCodesPred. intros H.
    apply andb_true_iff in H as [H T]. apply andb_true_iff in H as [D _].
    now rewrite D, T. }
  split; [|split; [|split]].
  - rewrite (pageOf_total Winners), (pageOf_total WinnerCodes).
    now apply filter_length_sub.
  - rewrite (pageOf_total Losers), (pageOf_total NonWinnerCodes).
    now apply filter_length_sub.
  - intros r Hr. unfold fullListing in *. apply in_map_iff in Hr as [c [<- Hc]].
    apply sort_In in Hc. apply filter_In in Hc as [Hc Hp].
    exists (Orm.project d (viewRelations WinnerCodes) (viewGiftId WinnerCodes) c).
    split; [|split; reflexivity].
    apply in_map, sort_In, filter_In. split; [assumption | now apply W].
  - intros r Hr. unfold fullListing in *. apply in_map_iff in Hr as [c [<- Hc]].
    apply sort_In in Hc. apply filter_In in Hc as [Hc Hp].
    exists (Orm.project d (viewRelations NonWinnerCodes) (viewGiftId NonWinnerCodes) c).
    split; [|split; reflexivity].
    apply in_map, sort_In, filter_In. split; [assumption | now apply L].
Qed.

Lemma redeemed_views_within_code_views_witness :
  total (pageOf getLosers Sample.oneWinner Sample.plain)
  <= total (pageOf getNonWinnerCodes Sample.oneWinner Sample.plain) /\
  (forall r, In r (fullListing Losers Sample.oneWinner Sample.plain) ->
             exists r', In r' (fullListing NonWinnerCodes Sample.oneWinner Sample.plain) /\
                        CodeRow._id r' = CodeRow._id r /\
                        CodeRow.value r' = CodeRow.value r).
Proof.
  destruct (redeemed_views_within_code_views Sample.oneWinner Sample.plain)
    as [_ [L [_ R]]].
  split; [exact L | exact R].
Defined.

(** ** More winners *)

Lemma filtersOf_app (d : DB) (ws ws' : list Winner.t) :
  filtersOf (withWinners d (ws ++ ws'))
  = filtersOf (withWinners d ws) ++ filtersOf (withWinners d ws').
Proof.
  unfold filtersOf, winnerValuesOf, Orm.findWinners. cbn [winners withWinners].
  rewrite filter_app, map_app, !winnerValueFilters_flat_map.
  apply flat_map_app.
Qed.

Lemma member_app (v : string) (l1 l2 : list string) :
  member v (l1 ++ l2) = member v l1 || member v l2.
Proof. unfold member. apply existsb_app. Qed.

(** X10: adding winner records to a winners table that already has a
    winner value never takes a code out of the Winners and Winner-codes
    views and never brings one into the Losers and Non-winner-codes views:
    under the same query the positive totals can only grow and the negative
    totals can only shrink. *)
Theorem more_winners_more_matches (d : DB) (ws ws' : list Winner.t)
    (q : PagingDto) :
  filtersOf (withWinners d ws) <> [] ->
  total (pageOf getWinners (withWinners d ws) q)
  <= total (pageOf getWinners (withWinners d (ws ++ ws')) q) /\
  total (pageOf getWinnerCodes (withWinners d ws) q)
  <= total (pageOf getWinnerCodes (withWinners d (ws ++ ws')) q) /\
  total (pageOf getLosers (withWinners d (ws ++ ws')) q)
  <= total (pageOf getLosers (withWinners d ws) q) /\
  total (pageOf getNonWinnerCodes (withWinners d (ws ++ ws')) q)
  <= total (pageOf getNonWinnerCodes (withWinners d ws) q).
Proof.
  intros F.
  assert (F' : filtersOf (withWinners d (ws ++ ws')) <> []).
  { rewrite filtersOf_app. intros E. apply app_eq_nil in E as [E _]. auto. }
  assert (Pos : forall x, positiveTest (withWinners d ws) q x = true ->
                          positiveTest (withWinners d (ws ++ ws')) q x = true).
  { intros x. rewrite !positiveTest_with_winners by assumption.
    rewrite filtersOf_app, member_app. intros H.
    apply andb_true_iff in H as [M S]. now rewrite M, S. }
  assert (Neg : forall x, negativeTest (withWinners d (ws ++ ws')) q x = true ->
                          negativeTest (withWinners d ws) q x = true).
  { intros x. rewrite !negativeTest_with_winners by assumption.
    rewrite filtersOf_app, member_app. intros H.
    apply negb_true_iff in H. apply orb_false_iff in H as [M _].
    now rewrite M. }
  rewrite (pageOf_total Winners), (pageOf_total Winners),
    (pageOf_total WinnerCodes), (pageOf_total WinnerCodes),
    (pageOf_total Losers), (pageOf_total Losers),
    (pageOf_total NonWinnerCodes), (pageOf_total NonWinnerCodes).
  cbn [viewPred codes withWinners].
  unfold winnersPred, losersPred, winnerCodesPred, nonWinnerCodesPred.
  repeat split; apply filter_length_sub; intros c H;
    apply andb_true_iff in H as [H T];
    (rewrite H; first [now rewrite (Pos _ T) | now rewrite (Neg _ T)]).
Qed.

Lemma more_winners_more_matches_witness :
  total (pageOf getWinners
           (withWinners Sample.spellings [winnerEntry "ab1234-cd56"]) Sample.plain)
  <= total (pageOf getWinners
              (withWinners Sample.spellings
                 ([winnerEntry "ab1234-cd56"] ++ [winnerEntry "Ab1234cd56"]))
              Sample.plain).
Proof.
  apply (more_winners_more_matches Sample.spellings
           [winnerEntry "ab1234-cd56"] [winnerEntry "Ab1234cd56"] Sample.plain).
  vm_compute. discriminate.
Defined.

(** ** [parseInt] *)

Lemma digitValue_decimal (c : ascii) :
  isDecimalDigit c = true ->
  exists v, ParseInt.digitValue c = Some v /\ v < 10.
Proof.
  unfold isDecimalDigit, ParseInt.digitValue. intros H. rewrite H.
  apply andb_true_iff in H as [H1 H2].
  apply Nat.leb_le in H1, H2. eexists. split; [reflexivity | lia].
Qed.

Lemma decimal_not_blank_not_sign (c : ascii) :
  isDecimalDigit c = true ->
  Js.isWhiteSpace c = false /\ Ascii.eqb c "-" = false /\ Ascii.eqb c "+" = false.
Proof.
  destruct c as [b0 b1 b2 b3 b4 b5 b6 b7].
  destruct b0, b1, b2, b3, b4, b5, b6, b7; vm_compute; intros H;
    try discriminate H; repeat split.
Qed.

(** A string that begins with a decimal digit parses as a number, unless
    it begins with [0x] or [0X]. *)
Lemma parseInt_leading_digit (c : ascii) (s : string) :
  isDecimalDigit c = true ->
  Ascii.eqb c "0" && startsWithX s = false ->
  exists n, ParseInt.parseInt (String c s) = Some n.
Proof.
  intros H X.
  destruct (decimal_not_blank_not_sign c H) as [W [M P]].
  destruct (digitValue_decimal c H) as [v [V L]].
  unfold ParseInt.parseInt. cbn [Js.trimStart]. rewrite W.
  unfold ParseInt.signOf. rewrite M, P.
  unfold ParseInt.radixOf.
  destruct s as [|x s].
  - cbn [ParseInt.digits]. rewrite V.
    destruct (Nat.ltb_spec v 10); [eauto | lia].
  - cbn [startsWithX] in X. rewrite X.
    cbn [ParseInt.digits]. rewrite V.
    destruct (Nat.ltb_spec v 10); [eauto | lia].
Qed.

(** ** The generic sort *)

Section SortBy.

Context {A : Type} (leb : A -> A -> bool).

Lemma insertBy_length (x : A) (l : list A) :
  List.length (Repo.insertBy leb x l) = S (List.length l).
Proof.
  induction l as [|y l IH]; simpl; [reflexivity|].
  destruct (leb x y); simpl; [reflexivity | now rewrite IH].
Qed.

Lemma sortBy_length (l : list A) :
  List.length (Repo.sortBy leb l) = List.length l.
Proof.
  induction l as [|x l IH]; simpl; [reflexivity|].
  now rewrite insertBy_length, IH.
Qed.

Lemma insertBy_In (x y : A) (l : list A) :
  In x (Repo.insertBy leb y l) <-> x = y \/ In x l.
Proof.
  induction l as [|z l IH]; simpl.
  - intuition.
  - destruct (leb y z); simpl; [intuition|].
    rewrite IH. intuition.
Qed.

Lemma sortBy_In (x : A) (l : list A) :
  In x (Repo.sortBy leb l) <-> In x l.
Proof.
  induction l as [|y l IH]; simpl; [tauto|].
  rewrite insertBy_In, IH. intuition.
Qed.

Hypothesis leb_total : forall a b, leb a b = false -> leb b a = true.

Lemma insertBy_Sorted (x : A) (l : list A) :
  Sorted (fun a b => leb a b = true) l ->
  Sorted (fun a b => leb a b = true) (Repo.insertBy leb x l).
Proof.
  induction l as [|y l IH]; simpl; intros H.
  - repeat constructor.
  - destruct (leb x y) eqn:E.
    + constructor; [assumption|]. constructor. exact E.
    + inversion H as [|? ? Hs Hh]; subst.
      constructor; [auto|].
      destruct l as [|z l]; simpl.
      * constructor. now apply leb_total.
      * destruct (leb x z).
        -- constructor. now apply leb_total.
        -- constructor. now inversion Hh.
Qed.

Lemma sortBy_Sorted (l : list A) :
  Sorted (fun a b => leb a b = true) (Repo.sortBy leb l).
Proof.
  induction l as [|x l IH]; simpl; [constructor | now apply insertBy_Sorted].
Qed.

End SortBy.

Lemma lexBefore_total (keys : list Order) (a b : Code.t) :
  Repo.lexBefore keys a b = false -> Repo.lexBefore keys b a = true.
Proof.
  induction keys as [|k keys IH]; simpl; [discriminate|].
  destruct (Orm.before k a b) eqn:Eab, (Orm.before k b a) eqn:Eba;
    try discriminate; try reflexivity.
  - exact IH.
  - apply before_total in Eab. congruence.
Qed.

Lemma byUsedAtThenId_rows (d : DB) (rels : list Relation) (g : bool)
    (a b : Code.t) :
  byUsedAtThenId a b = true ->
  rowBeforeLex (Orm.project d rels g a) (Orm.project d rels g b).
Proof.
  unfold byUsedAtThenId, Repo.lexBefore, rowBeforeLex.
  destruct (Orm.before UsedAtDesc a b) eqn:Eab; [|discriminate].
  intros H. split.
  - now apply (project_before d rels g UsedAtDesc).
  - intros R.
    destruct (Orm.before UsedAtDesc b a) eqn:Eba.
    + destruct (Orm.before IdAsc a b) eqn:I; [|discriminate].
      now apply (project_before d rels g IdAsc).
    + exfalso. revert R Eba. unfold rowBefore, Orm.before.
      cbn [Orm.project CodeRow.usedAt].
      destruct (Code.usedAt b), (Code.usedAt a); try discriminate; try tauto.
      intros R E. apply Z.leb_gt in E. lia.
Qed.

(** ** What the other listings compute *)

Lemma codeMatches_applySearch (w : CodeWhere) (s : option string) (c : Code.t) :
  cw_id w = None -> cw_value w = None ->
  Repo.codeMatches (applySearch w s) c
  = Repo.codeMatches w c && searchFilter s c.
Proof.
  intros Hi Hv. unfold applySearch, searchFilter.
  destruct (Js.truthy s) as [t|]; [|now rewrite andb_true_r].
  unfold Repo.codeMatches.
  destruct (ParseInt.parseInt t) as [n|]; cbn; rewrite Hi, Hv;
    repeat rewrite andb_true_r;
    destruct (match cw_deletedAt w with IsNull => Orm.notDeleted c end),
      (match cw_usedAt w with
       | Some NullIs => negb (Repo.isSome (Code.usedAt c))
       | Some NullIsNot => Repo.isSome (Code.usedAt c)
       | None => true
       end),
      (match cw_isUsed w with
       | Some b => Bool.eqb (Code.isUsed c) b
       | None => true
       end),
      (match cw_giftId w with
       | Some GiftIdNotNull => Repo.isSome (Code.giftId c)
       | Some (GiftIdIs g) => Repo.eqOpt (Code.giftId c) g
       | None => true
       end),
      (match cw_month w with
       | Some m => Repo.eqOpt (Code.month c) m
       | None => true
       end),
      (match cw_usedById w with
       | Some u => Repo.eqOpt (Code.usedById c) u
       | None => true
       end); cbn; try reflexivity;
      repeat rewrite andb_true_r; repeat rewrite andb_false_r; reflexivity.
Qed.

Lemma getPaging_run (isUsed : option bool) (giftId : option string) (d : DB)
    (q : PagingDto) :
  run (getPaging isUsed giftId) d q
  = (Ok {| cp_data :=
             map (Orm.project d [RelGift; RelUsedBy] true)
                 (Orm.paginate (Js.nullish (limit q) 10%Z)
                    ((Js.nullish (page q) 1%Z - 1) * Js.nullish (limit q) 10%Z)%Z
                    (Repo.sortBy byUsedAtThenId
                       (filter (pagingPred isUsed giftId q) (codes d))));
           cp_total := List.length (filter (pagingPred isUsed giftId q) (codes d));
           cp_totalUsedCount :=
             List.length
               (filter (fun c => Orm.notDeleted c && Repo.isSome (Code.usedAt c)
                                 && Code.isUsed c) (codes d)) |},
     {| db := d; query := withDefaults q |}).
Proof.
  assert (P : forall w, (w = whereNotDeleted \/
                         exists n, w = setUsedAt whereNotDeleted n) ->
              forall c,
              Repo.codeMatches
                (match Js.truthy giftId with
                 | Some g =>
                     if String.eqb g "withGift"
                     then setGiftId (applySearch w (search q)) GiftIdNotNull
                     else setGiftId (applySearch w (search q)) (GiftIdIs g)
                 | None => applySearch w (search q)
                 end) c
              = Repo.codeMatches w c && searchFilter (search q) c
                && giftFilter giftId c).
  { intros w Hw c. unfold giftFilter.
    assert (Hi : cw_id w = None) by (destruct Hw as [-> | [n ->]]; reflexivity).
    assert (Hv : cw_value w = None) by (destruct Hw as [-> | [n ->]]; reflexivity).
    assert (Hg : cw_giftId (applySearch w (search q)) = None).
    { unfold applySearch. destruct (Js.truthy (search q)) as [t|];
        [destruct (ParseInt.parseInt t)|];
        destruct Hw as [-> | [n ->]]; reflexivity. }
    assert (Hm : cw_month (applySearch w (search q)) = None).
    { unfold applySearch. destruct (Js.truthy (search q)) as [t|];
        [destruct (ParseInt.parseInt t)|];
        destruct Hw as [-> | [n ->]]; reflexivity. }
    assert (Hu : cw_usedById (applySearch w (search q)) = None).
    { unfold applySearch. destruct (Js.truthy (search q)) as [t|];
        [destruct (ParseInt.parseInt t)|];
        destruct Hw as [-> | [n ->]]; reflexivity. }
    rewrite <- (codeMatches_applySearch w (search q) c Hi Hv).
    destruct (Js.truthy giftId) as [g|]; [|now rewrite andb_true_r].
    unfold Repo.codeMatches at 1.
    destruct (String.eqb g "withGift"); cbn; rewrite Hm, Hu;
      rewrite !andb_true_r;
      unfold Repo.codeMatches; rewrite Hg, Hm, Hu; now rewrite !andb_true_r. }
  unfold run, getPaging, bind, readQuery, assignLimit, assignPage,
    repository_findAndCountBy, repository_count, ret.
  cbv beta iota zeta. cbn [db query fst snd limit page].
  unfold Repo.selectCodes, Repo.count. rewrite sortBy_length.
  match goal with
  | |- context [filter (Repo.codeMatches ?w) (codes d)] =>
      match w with
      | context [applySearch] =>
          assert (E : filter (Repo.codeMatches w) (codes d)
                      = filter (pagingPred isUsed giftId q) (codes d))
      end
  end.
  { apply filter_ext. intros c. unfold pagingPred, usedAtFilter.
    destruct isUsed as [[|]|]; rewrite P by (eauto);
      unfold Repo.codeMatches; cbn; now rewrite ?andb_true_r. }
  rewrite E.
  match goal with
  | |- context [filter (Repo.codeMatches ?w) (codes d)] =>
      assert (U : filter (Repo.codeMatches w) (codes d)
                  = filter (fun c => Orm.notDeleted c
                                     && Repo.isSome (Code.usedAt c)
                                     && Code.isUsed c) (codes d))
  end.
  { apply filter_ext. intros c. unfold Repo.codeMatches. cbn.
    rewrite eqb_true_r. now rewrite ?andb_true_r. }
  rewrite U. reflexivity.
Qed.


Lemma insertBy_ext {A : Type} (f g : A -> A -> bool) (x : A) (l : list A) :
  (forall a b, f a b = g a b) -> Repo.insertBy f x l = Repo.insertBy g x l.
Proof.
  intros H. induction l as [|y l IH]; simpl; [reflexivity|].
  now rewrite H, IH.
Qed.

Lemma sortBy_ext {A : Type} (f g : A -> A -> bool) (l : list A) :
  (forall a b, f a b = g a b) -> Repo.sortBy f l = Repo.sortBy g l.
Proof.
  intros H. induction l as [|x l IH]; simpl; [reflexivity|].
  now rewrite IH, (insertBy_ext f g _ _ H).
Qed.

Lemma getUsedByUserPaging_run (columnBefore : string -> Code.t -> Code.t -> bool)
    (usedById : string) (d : DB) (q : PagingDto) :
  run (getUsedByUserPaging columnBefore usedById) d q
  = (Ok {| data :=
             map (Orm.project d [RelGift] true)
                 (Orm.paginate (Js.nullish (limit q) 10%Z)
                    ((Js.nullish (page q) 1%Z - 1) * Js.nullish (limit q) 10%Z)%Z
                    (Repo.sortBy (userOrder columnBefore q)
                       (filter (userPred usedById q) (codes d))));
           total := List.length (filter (userPred usedById q) (codes d)) |},
     {| db := d; query := withDefaults q |}).
Proof.
  unfold run, getUsedByUserPaging, bind, readQuery, assignLimit, assignPage,
    repository_findAndCountBy, ret.
  cbv beta iota zeta. cbn [db query fst snd limit page].
  unfold Repo.selectCodes. rewrite sortBy_length.
  match goal with
  | |- context [filter (Repo.codeMatches ?w) (codes d)] =>
      assert (E : filter (Repo.codeMatches w) (codes d)
                  = filter (userPred usedById q) (codes d))
  end.
  { apply filter_ext. intros c.
    rewrite codeMatches_applySearch by reflexivity.
    unfold userPred, Repo.codeMatches. cbn. now rewrite ?andb_true_r. }
  rewrite E.
  match goal with
  | |- context [Repo.sortBy ?f (filter _ _)] =>
      rewrite (sortBy_ext f (userOrder columnBefore q))
  end; [reflexivity|].
  intros a b. unfold userOrder.
  destruct (orderType q) as [t|]; [|reflexivity].
  now destruct (String.eqb t "ASC").
Qed.

Lemma In_paginate_map {A B : Type} (f : A -> B) (t s : Z) (l : list A) (r : B) :
  In r (map f (Orm.paginate t s l)) -> exists c, In c l /\ r = f c.
Proof.
  intros H. apply in_map_iff in H as [c [E H]].
  apply paginate_In in H. eauto.
Qed.

Lemma pagingOf_eq (isUsed : option bool) (giftId : option string) (d : DB)
    (q : PagingDto) :
  pagingOf isUsed giftId d q = match fst (run (getPaging isUsed giftId) d q) with
                               | Ok p => p
                               | Throw _ => {| cp_data := []; cp_total := 0;
                                               cp_totalUsedCount := 0 |}
                               end.
Proof. reflexivity. Qed.

(** A row [getPaging] returns comes from a code record that passes all the
    filters of the query. *)
Lemma pagingOf_row (isUsed : option bool) (giftId : option string) (d : DB)
    (q : PagingDto) (r : CodeRow.t) :
  In r (cp_data (pagingOf isUsed giftId d q)) ->
  exists c, In c (codes d) /\ pagingPred isUsed giftId q c = true /\
            r = Orm.project d [RelGift; RelUsedBy] true c.
Proof.
  rewrite pagingOf_eq, getPaging_run. cbn [fst cp_data]. intros H.
  apply In_paginate_map in H as [c [Hc ->]].
  apply sortBy_In in Hc. apply filter_In in Hc as [Hc Hp]. eauto.
Qed.

Lemma pagingOf_total (isUsed : option bool) (giftId : option string) (d : DB)
    (q : PagingDto) :
  cp_total (pagingOf isUsed giftId d q)
  = List.length (filter (pagingPred isUsed giftId q) (codes d)) /\
  cp_totalUsedCount (pagingOf isUsed giftId d q)
  = List.length (filter (fun c => Orm.notDeleted c && Repo.isSome (Code.usedAt c)
                                  && Code.isUsed c) (codes d)).
Proof. rewrite pagingOf_eq, getPaging_run. split; reflexivity. Qed.

(** ** [getPaging] *)

(** X11: a search term that begins with a decimal digit (and not with
    [0x]) makes [getPaging] look codes up by identifier: the term parses to
    a number [n]; when [n] is below 2^53, where JavaScript holds it exactly,
    every returned row has [n] for identifier and, for a query the database
    accepts, the total counts the records with that identifier that pass the
    other filters; the value column is not searched. *)
Theorem getPaging_digit_search_is_id_lookup (isUsed : option bool)
    (giftId : option string) (d : DB) (q : PagingDto) (c : ascii) (s : string) :
  search q = Some (String c s) ->
  isDecimalDigit c = true ->
  Ascii.eqb c "0" && startsWithX s = false ->
  exists n,
    ParseInt.parseInt (String c s) = Some n /\
    ((Z.abs n < 2 ^ 53)%Z ->
     (forall r, In r (cp_data (pagingOf isUsed giftId d q)) -> CodeRow.id r = n) /\
     (databaseAccepts q ->
      cp_total (pagingOf isUsed giftId d q)
      = List.length
          (filter (fun x => Orm.notDeleted x && usedAtFilter isUsed x
                            && (Code.id x =? n)%Z && giftFilter giftId x)
                  (codes d)))).
Proof.
  intros S D X. destruct (parseInt_leading_digit c s D X) as [n N].
  exists n. split; [exact N|]. intros _.
  assert (F : forall x, searchFilter (search q) x = (Code.id x =? n)%Z).
  { intros x. unfold searchFilter. rewrite S. cbn [Js.truthy]. now rewrite N. }
  split.
  - intros r Hr. apply pagingOf_row in Hr as [x [_ [Hp ->]]].
    cbn [Orm.project CodeRow.id]. unfold pagingPred in Hp.
    apply andb_true_iff in Hp as [Hp _]. apply andb_true_iff in Hp as [_ Hp].
    rewrite F in Hp. now apply Z.eqb_eq.
  - intros _. rewrite (proj1 (pagingOf_total isUsed giftId d q)).
    f_equal. apply filter_ext. intros x. unfold pagingPred. now rewrite F.
Qed.

Lemma getPaging_digit_search_is_id_lookup_witness :
  map CodeRow.value
      (cp_data (pagingOf None None Sample2.shop (Sample.searching "12AB")))
  = ["12AB000000"] /\
  (forall r, In r (cp_data (pagingOf None None Sample2.shop (Sample.searching "12AB"))) ->
             CodeRow.id r = 12%Z) /\
  cp_total (pagingOf None None Sample2.shop (Sample.searching "12AB")) = 1.
Proof.
  split; [reflexivity|].
  destruct (getPaging_digit_search_is_id_lookup None None Sample2.shop
              (Sample.searching "12AB") "1" "2AB" eq_refl eq_refl eq_refl)
    as [n [N H]].
  injection N as <-.
  destruct (H ltac:(vm_compute; reflexivity)) as [R T].
  split; [exact R|].
  rewrite T; [reflexivity|]. split; vm_compute; discriminate.
Defined.

(** X12: a search term that does not parse as a number is a text search:
    every row [getPaging] returns has a value that passes
    [LIKE '%term%'], which for a term without wildcards means that the
    value contains the term. *)
Theorem getPaging_text_search (isUsed : option bool) (giftId : option string)
    (d : DB) (q : PagingDto) (s : string) :
  Js.truthy (search q) = Some s ->
  ParseInt.parseInt s = None ->
  forall r, In r (cp_data (pagingOf isUsed giftId d q)) ->
            Orm.sqlLike ("%" ++ s ++ "%")%string (CodeRow.value r) = true /\
            (plainTerm s = true -> Js.includes (CodeRow.value r) s = true).
Proof.
  intros S N r Hr. apply pagingOf_row in Hr as [x [_ [Hp ->]]].
  cbn [Orm.project CodeRow.value]. unfold pagingPred in Hp.
  apply andb_true_iff in Hp as [Hp _]. apply andb_true_iff in Hp as [_ Hp].
  unfold searchFilter in Hp. rewrite S, N in Hp.
  split; [exact Hp|]. intros P. now rewrite <- (sqlLike_contains s _ P).
Qed.

Lemma getPaging_text_search_witness :
  Js.includes "X12AB00000" "AB" = true.
Proof.
  apply (getPaging_text_search None None Sample2.shop (Sample.searching "AB")
           "AB" eq_refl eq_refl
           (Orm.project Sample2.shop [RelGift; RelUsedBy] true
              (Sample2.code "c2" 2 "X12AB00000" None false (Some 200%Z)
                 (Some "u2") None))).
  - left; reflexivity.
  - reflexivity.
Defined.

(** X13: the [isUsed] filter of [getPaging] tests the redemption date, not
    the [isUsed] column: with [isUsed = true] every row has a date, with
    [isUsed = false] none has.  For every query the database accepts,
    [totalUsedCount] is the number of code records that are not deleted,
    have a date and have the flag set, whatever the filters of the query,
    and it never exceeds the total of the bare [isUsed = true] query. *)
Theorem getPaging_isUsed_by_date (isUsed : option bool) (giftId : option string)
    (d : DB) (q : PagingDto) :
  (forall r, In r (cp_data (pagingOf isUsed giftId d q)) ->
             match isUsed with
             | Some true => CodeRow.usedAt r <> None
             | Some false => CodeRow.usedAt r = None
             | None => True
             end) /\
  (databaseAccepts q ->
   cp_totalUsedCount (pagingOf isUsed giftId d q)
   = List.length
       (filter (fun c => Orm.notDeleted c && Repo.isSome (Code.usedAt c)
                         && Code.isUsed c) (codes d))) /\
  (databaseAccepts q ->
   forall isUsed' giftId' q', databaseAccepts q' ->
      cp_totalUsedCount (pagingOf isUsed' giftId' d q')
      = cp_totalUsedCount (pagingOf isUsed giftId d q)) /\
  (databaseAccepts q ->
   forall q', databaseAccepts q' -> Js.truthy (search q') = None ->
      cp_totalUsedCount (pagingOf isUsed giftId d q)
      <= cp_total (pagingOf (Some true) None d q')).
Proof.
  split; [|split; [|split]].
  - intros r Hr. apply pagingOf_row in Hr as [x [_ [Hp ->]]].
    cbn [Orm.project CodeRow.usedAt]. unfold pagingPred in Hp.
    apply andb_true_iff in Hp as [Hp _]. apply andb_true_iff in Hp as [Hp _].
    apply andb_true_iff in Hp as [_ Hp]. unfold usedAtFilter in Hp.
    destruct isUsed as [[|]|]; [| |exact I];
      destruct (Code.usedAt x); cbn in Hp; congruence.
  - intros _. apply (proj2 (pagingOf_total isUsed giftId d q)).
  - intros _ isUsed' giftId' q' _.
    now rewrite (proj2 (pagingOf_total isUsed' giftId' d q')),
      (proj2 (pagingOf_total isUsed giftId d q)).
  - intros _ q' _ S.
    rewrite (proj2 (pagingOf_total isUsed giftId d q)),
      (proj1 (pagingOf_total (Some true) None d q')).
    apply filter_length_sub. intros x H.
    apply andb_true_iff in H as [H _]. apply andb_true_iff in H as [Hd Hu].
    unfold pagingPred, usedAtFilter, searchFilter, giftFilter.
    rewrite S, Hd, Hu. reflexivity.
Qed.

Lemma getPaging_isUsed_by_date_witness :
  map CodeRow.isUsed (cp_data (pagingOf (Some true) None Sample2.shop Sample.plain))
  = [false; true] /\
  cp_totalUsedCount (pagingOf (Some true) None Sample2.shop Sample.plain) = 1 /\
  cp_totalUsedCount (pagingOf (Some true) None Sample2.shop Sample.plain)
  <= cp_total (pagingOf (Some true) None Sample2.shop Sample.plain).
Proof.
  assert (A : databaseAccepts Sample.plain) by (split; vm_compute; discriminate).
  destruct (getPaging_isUsed_by_date (Some true) None Sample2.shop Sample.plain)
    as [_ [C [_ L]]].
  split; [reflexivity|]. split.
  - rewrite (C A). reflexivity.
  - apply (L A Sample.plain A eq_refl).
Defined.

(** X14: [getPaging] returns its rows most recent redemption first, and by
    ascending identifier among rows with the same redemption date. *)
Theorem getPaging_order (isUsed : option bool) (giftId : option string)
    (d : DB) (q : PagingDto) :
  Sorted rowBeforeLex (cp_data (pagingOf isUsed giftId d q)).
Proof.
  rewrite pagingOf_eq, getPaging_run. cbn [fst cp_data].
  apply (Sorted_map (fun a b => byUsedAtThenId a b = true));
    [apply byUsedAtThenId_rows|].
  unfold Orm.paginate. apply Sorted_firstn, Sorted_skipn.
  apply sortBy_Sorted. apply lexBefore_total.
Qed.

(** X15: the gift filter of [getPaging]: with [giftId = 'withGift'] every
    row has some gift identifier, with any other non-empty [giftId] every
    row has exactly that gift identifier. *)
Theorem getPaging_gift_filter (isUsed : option bool) (g : string) (d : DB)
    (q : PagingDto) :
  g <> "" ->
  forall r, In r (cp_data (pagingOf isUsed (Some g) d q)) ->
            (g = "withGift" -> exists x, CodeRow.giftId r = Value (Some x)) /\
            (g <> "withGift" -> CodeRow.giftId r = Value (Some g)).
Proof.
  intros G r Hr. apply pagingOf_row in Hr as [x [_ [Hp ->]]].
  cbn [Orm.project CodeRow.giftId]. unfold pagingPred in Hp.
  apply andb_true_iff in Hp as [_ Hp]. unfold giftFilter in Hp.
  assert (T : Js.truthy (Some g) = Some g) by (destruct g; [contradiction | reflexivity]).
  rewrite T in Hp.
  destruct (String.eqb_spec g "withGift") as [E|E]; split; intros E';
    try contradiction.
  - destruct (Code.giftId x) as [y|]; [eauto | discriminate].
  - unfold Repo.eqOpt in Hp. destruct (Code.giftId x) as [y|]; [|discriminate].
    apply String.eqb_eq in Hp. now subst.
Qed.

Lemma getPaging_gift_filter_witness :
  CodeRow.giftId
    (Orm.project Sample2.shop [RelGift; RelUsedBy] true
       (Sample2.code "c1" 12 "12AB000000" (Some "g1") true (Some 100%Z)
          (Some "u1") (Some "2024-05")))
  = Value (Some "g1").
Proof.
  apply (getPaging_gift_filter None "g1" Sample2.shop Sample.plain).
  - discriminate.
  - left; reflexivity.
  - discriminate.
Defined.

(** ** [getCodesByMonth] and [getCodeMonth] *)





(** ** [getUsedByUserPaging] *)

Lemma userPageOf_eq (cb : string -> Code.t -> Code.t -> bool) (u : string)
    (d : DB) (q : PagingDto) :
  userPageOf cb u d q
  = match fst (run (getUsedByUserPaging cb u) d q) with
    | Ok p => p
    | Throw _ => {| data := []; total := 0 |}
    end.
Proof. reflexivity. Qed.


Lemma Sorted_weaken {A : Type} (R R' : A -> A -> Prop) (l : list A) :
  (forall a b, R a b -> R' a b) -> Sorted R l -> Sorted R' l.
Proof.
  intros H S. rewrite <- (map_id l). now apply (Sorted_map R R' (fun x => x)).
Qed.

(** X18: [getUsedByUserPaging] orders by the column [query.orderBy], or by
    [id] when none is given, ascending only when [query.orderType] is
    exactly ['ASC'] and descending in every other case (also when it is
    missing or spelled in lower case).  The rows returned are the
    projections of code records that stand in that order. *)
Theorem user_listing_direction (cb : string -> Code.t -> Code.t -> bool)
    (u : string) (d : DB) (q : PagingDto) :
  let column := match Js.truthy (orderBy q) with Some c => c | None => "id" end in
  (forall a b, cb column a b = false -> cb column b a = true) ->
  exists rows,
    data (userPageOf cb u d q) = map (Orm.project d [RelGift] true) rows /\
    (orderType q = Some "ASC" ->
     Sorted (fun a b => cb column a b = true) rows) /\
    (orderType q <> Some "ASC" ->
     Sorted (fun a b => cb column b a = true) rows).
Proof.
  intros column T.
  rewrite userPageOf_eq, getUsedByUserPaging_run. cbn [fst data].
  eexists. split; [reflexivity|].
  assert (Tot : forall a b, userOrder cb q a b = false -> userOrder cb q b a = true).
  { intros a b. unfold userOrder. fold column.
    destruct (orderType q) as [t|]; [destruct (String.eqb t "ASC")|]; apply T. }
  pose proof (sortBy_Sorted (userOrder cb q) Tot
                (filter (userPred u q) (codes d))) as S.
  split; intros O; unfold Orm.paginate; apply Sorted_firstn, Sorted_skipn.
  - eapply Sorted_weaken; [|exact S]. cbv beta. intros a b.
    unfold userOrder. fold column. rewrite O. now rewrite String.eqb_refl.
  - eapply Sorted_weaken; [|exact S]. cbv beta. intros a b.
    unfold userOrder. fold column.
    destruct (orderType q) as [t|]; [|trivial].
    destruct (String.eqb_spec t "ASC"); [subst; contradiction | trivial].
Qed.

Lemma user_listing_direction_witness :
  map CodeRow.id
      (data (userPageOf Sample2.columnBefore "u1" Sample2.shop (Sample2.ordered "asc")))
  = [12%Z; 3%Z] /\
  exists rows,
    data (userPageOf Sample2.columnBefore "u1" Sample2.shop (Sample2.ordered "asc"))
    = map (Orm.project Sample2.shop [RelGift] true) rows /\
    Sorted (fun a b => Sample2.columnBefore "id" b a = true) rows.
Proof.
  split; [reflexivity|].
  destruct (user_listing_direction Sample2.columnBefore "u1" Sample2.shop
              (Sample2.ordered "asc")) as [rows [E [_ D]]].
  - intros a b. unfold Sample2.columnBefore. cbn [String.eqb Ascii.eqb Bool.eqb].
    apply before_total.
  - exists rows. split; [exact E|]. apply D. discriminate.
Defined.

(** ** UserService *)

Section UserService.

Variable hashPassword : string -> string.
Variable findByIdAndUpdate : string -> Users.UpdateData -> Users.M (option Users.Account).
Variable deleteById : string -> string -> Users.M string.

Lemma found_by_id (p : Users.Account -> bool) (id : string) (st : Users.Store)
    (user : Users.Account) :
  find (fun a => String.eqb (Users._id a) id && p a) st = Some user ->
  Users._id user = id /\ p user = true /\ In user st.
Proof.
  intros F. apply find_some in F as [I H].
  apply andb_true_iff in H as [E P]. apply String.eqb_eq in E. auto.
Qed.

(** The user name is looked up only when the identifier of the request
    differs from that of the user found by this identifier: never. *)
Lemma checkUsername_skipped (data : Users.UserDto) (user : Users.Account)
    (p : string -> Users.Account -> bool) (st : Users.Store) :
  Users._id user = Users.d_id data ->
  Users.checkUsername data user p st = (Users.Ok tt, st).
Proof.
  intros E. unfold Users.checkUsername.
  destruct (Js.truthy (Users.d_username data)); [|reflexivity].
  now rewrite E, String.eqb_refl.
Qed.

(** X19: [deleteAnyUser] never deletes a super administrator and never
    touches a user that is missing or already deleted: when every live row
    with the identifier is a super administrator it throws
    NotEnoughPermission, when there is no live row with the identifier it
    throws NotFound, and in both cases the store is left as it was,
    whatever [deleteById] would do; in every other case the outcome is that
    of [deleteById]. *)
Theorem deleteAnyUser_guards (id deletedBy : string) (st : Users.Store) :
  let live := fun a => String.eqb (Users._id a) id && Users.notDeleted a in
  ((exists a, In a st /\ live a = true) ->
   (forall a, In a st -> live a = true -> Users.role a = Users.SUPER_ADMIN) ->
   Users.deleteAnyUser deleteById id deletedBy st
   = (Users.Throw (Users.NotEnoughPermission "Cannot delete SUPER_ADMIN"), st)) /\
  ((forall a, In a st -> live a = false) ->
   Users.deleteAnyUser deleteById id deletedBy st
   = (Users.Throw Users.NotFound, st)) /\
  ((exists a, In a st /\ live a = true) ->
   (forall a, In a st -> live a = true -> Users.role a <> Users.SUPER_ADMIN) ->
   Users.deleteAnyUser deleteById id deletedBy st = deleteById id deletedBy st).
Proof.
  intros live. unfold Users.deleteAnyUser, Users.bind, Users.findOne.
  fold live.
  split; [|split].
  - intros [a [Ia La]] S.
    destruct (find live st) as [u|] eqn:F.
    + apply find_some in F as [Iu Lu]. now rewrite (S u Iu Lu).
    + now rewrite (find_none _ _ F a Ia) in La.
  - intros N. destruct (find live st) as [u|] eqn:F; [|reflexivity].
    apply find_some in F as [Iu Lu]. now rewrite (N u Iu) in Lu.
  - intros [a [Ia La]] S.
    destruct (find live st) as [u|] eqn:F.
    + apply find_some in F as [Iu Lu]. specialize (S u Iu Lu).
      destruct (Users.role u); try reflexivity. contradiction.
    + now rewrite (find_none _ _ F a Ia) in La.
Qed.

End UserService.

Lemma deleteAnyUser_guards_witness :
  Users.deleteAnyUser Users.sampleDeleteById "u0" "u1" Users.staff
  = (Users.Throw (Users.NotEnoughPermission "Cannot delete SUPER_ADMIN"), Users.staff) /\
  Users.deleteAnyUser Users.sampleDeleteById "u2" "u1" Users.staff
  = (Users.Throw Users.NotFound, Users.staff) /\
  Users.deleteAnyUser Users.sampleDeleteById "u3" "u1" Users.staff
  = Users.sampleDeleteById "u3" "u1" Users.staff.
Proof.
  destruct (deleteAnyUser_guards Users.sampleDeleteById "u0" "u1" Users.staff)
    as [S _].
  destruct (deleteAnyUser_guards Users.sampleDeleteById "u2" "u1" Users.staff)
    as [_ [N _]].
  destruct (deleteAnyUser_guards Users.sampleDeleteById "u3" "u1" Users.staff)
    as [_ [_ D]].
  split; [|split].
  - apply S.
    + exists (Users.account "u0" "root" Users.SUPER_ADMIN None).
      split; [left; reflexivity | reflexivity].
    + intros a [<-|[<-|[<-|[<-|[]]]]] L; (reflexivity || discriminate L).
  - apply N. intros a [<-|[<-|[<-|[<-|[]]]]]; reflexivity.
  - apply D.
    + exists (Users.account "u3" "carl" Users.USER None).
      split; [right; right; right; left; reflexivity | reflexivity].
    + intros a [<-|[<-|[<-|[<-|[]]]]] L; (discriminate || discriminate L).
Defined.

Section UserUpdates.

Variable hashPassword : string -> string.
Variable findByIdAndUpdate : string -> Users.UpdateData -> Users.M (option Users.Account).

Let updateAnyUser := Users.updateAnyUser hashPassword findByIdAndUpdate.
Let findByIdAndUpdateUser := Users.findByIdAndUpdateUser hashPassword findByIdAndUpdate.

Lemma updateAnyUser_found (data : Users.UserDto) (allow : bool)
    (st : Users.Store) (user : Users.Account) :
  find (fun a => String.eqb (Users._id a) (Users.d_id data) && Users.notDeleted a) st
  = Some user ->
  updateAnyUser data allow st
  = (let updateData :=
       match allow, Users.d_role data with
       | true, Some r => Users.setRole (Users.copied data) r
       | _, _ => Users.copied data
       end in
     match Js.truthy (Users.d_password data) with
     | Some pw =>
         if negb (Users.sameOpt (Users.d_password data) (Users.d_confirmPassword data))
         then (Users.Throw Users.PasswordsDoNotMatch, st)
         else Users.bind (findByIdAndUpdate (Users.d_id data)
                            (Users.setPassword updateData (hashPassword pw)))
                         Users.finish st
     | None => Users.bind (findByIdAndUpdate (Users.d_id data) updateData)
                          Users.finish st
     end).
Proof.
  intros F. unfold updateAnyUser, Users.updateAnyUser.
  unfold Users.bind at 1. unfold Users.findOne. rewrite F.
  unfold Users.bind at 1.
  rewrite checkUsername_skipped
    by (now destruct (found_by_id Users.notDeleted _ _ _ F)).
  cbv zeta.
  destruct (Js.truthy (Users.d_password data)); [|reflexivity].
  now destruct (negb (Users.sameOpt (Users.d_password data)
                         (Users.d_confirmPassword data))).
Qed.

Lemma updateAnyUser_missing (data : Users.UserDto) (allow : bool)
    (st : Users.Store) :
  find (fun a => String.eqb (Users._id a) (Users.d_id data) && Users.notDeleted a) st
  = None ->
  updateAnyUser data allow st = (Users.Throw Users.NotFound, st).
Proof.
  intros F. unfold updateAnyUser, Users.updateAnyUser, Users.bind, Users.findOne.
  now rewrite F.
Qed.

Lemma findByIdAndUpdateUser_found (data : Users.UserDto) (st : Users.Store)
    (user : Users.Account) :
  find (fun a => String.eqb (Users._id a) (Users.d_id data)) st = Some user ->
  findByIdAndUpdateUser data st
  = (if negb (Users.isAdmin (Users.role user))
     then (Users.Throw Users.NotFound, st)
     else Users.bind
            (findByIdAndUpdate (Users.d_id data)
               match Js.truthy (Users.d_password data) with
               | Some pw => Users.setPassword (Users.copied data) (hashPassword pw)
               | None => Users.copied data
               end)
            Users.finish st).
Proof.
  intros F. unfold findByIdAndUpdateUser, Users.findByIdAndUpdateUser.
  unfold Users.bind at 1. unfold Users.findOne. rewrite F.
  destruct (negb (Users.isAdmin (Users.role user))); [reflexivity|].
  unfold Users.bind at 1.
  rewrite checkUsername_skipped; [reflexivity|].
  apply find_some in F as [_ E]. now apply String.eqb_eq in E.
Qed.

Lemma findByIdAndUpdateUser_missing (data : Users.UserDto) (st : Users.Store) :
  find (fun a => String.eqb (Users._id a) (Users.d_id data)) st = None ->
  findByIdAndUpdateUser data st = (Users.Throw Users.NotFound, st).
Proof.
  intros F.
  unfold findByIdAndUpdateUser, Users.findByIdAndUpdateUser, Users.bind,
    Users.findOne.
  now rewrite F.
Qed.

Lemma bind_finish_not_exists (m : Users.M (option Users.Account))
    (st : Users.Store) (w : string) :
  fst (m st) <> Users.Throw (Users.AllreadyExist w) ->
  fst (Users.bind m Users.finish st) <> Users.Throw (Users.AllreadyExist w).
Proof.
  unfold Users.bind. destruct (m st) as [[[a|]|e] st']; cbn; intros H;
    try discriminate.
  intros E. apply H. now injection E as ->.
Qed.

(** X20: without [allowRoleChange] the role in the request has no effect
    on [updateAnyUser]: the outcome is that of the same request without a
    role.  With [allowRoleChange], a live user and no new password, the
    role of the request is handed to the update together with the copied
    fields. *)
Theorem updateAnyUser_role_needs_permission (data : Users.UserDto)
    (st : Users.Store) :
  updateAnyUser data false st = updateAnyUser (Users.withoutRole data) false st /\
  (forall user r,
      find (fun a => String.eqb (Users._id a) (Users.d_id data)
                     && Users.notDeleted a) st = Some user ->
      Users.d_role data = Some r ->
      Js.truthy (Users.d_password data) = None ->
      updateAnyUser data true st
      = Users.bind (findByIdAndUpdate (Users.d_id data)
                      (Users.setRole (Users.copied data) r))
                   Users.finish st).
Proof.
  split.
  - destruct (find (fun a => String.eqb (Users._id a) (Users.d_id data)
                             && Users.notDeleted a) st) as [user|] eqn:F.
    + rewrite (updateAnyUser_found data false st user F).
      rewrite (updateAnyUser_found (Users.withoutRole data) false st user F).
      reflexivity.
    + rewrite (updateAnyUser_missing data false st F).
      now rewrite (updateAnyUser_missing (Users.withoutRole data) false st F).
  - intros user r F R P. rewrite (updateAnyUser_found data true st user F).
    cbv zeta. now rewrite R, P.
Qed.

(** X21: [updateAnyUser] asks for the password twice: for a live user, a
    new password whose confirmation differs is refused with
    PasswordsDoNotMatch before anything is written.  [findByIdAndUpdateUser]
    does not read the confirmation at all. *)
Theorem password_confirmation (data : Users.UserDto) (st : Users.Store) :
  (forall allow pw,
      (exists a, In a st /\
                 String.eqb (Users._id a) (Users.d_id data) && Users.notDeleted a = true) ->
      Js.truthy (Users.d_password data) = Some pw ->
      Users.d_confirmPassword data <> Users.d_password data ->
      updateAnyUser data allow st = (Users.Throw Users.PasswordsDoNotMatch, st)) /\
  (forall c, findByIdAndUpdateUser (Users.withConfirm data c) st
             = findByIdAndUpdateUser data st).
Proof.
  split.
  - intros allow pw [a [Ia La]] P C.
    destruct (find (fun a => String.eqb (Users._id a) (Users.d_id data)
                             && Users.notDeleted a) st) as [user|] eqn:F.
    + rewrite (updateAnyUser_found data allow st user F). cbv zeta. rewrite P.
      assert (S : Users.sameOpt (Users.d_password data)
                    (Users.d_confirmPassword data) = false).
      { unfold Users.sameOpt.
        destruct (Users.d_password data) as [x|], (Users.d_confirmPassword data) as [y|];
          try reflexivity; try discriminate P.
        destruct (String.eqb_spec x y); [subst; contradiction | reflexivity]. }
      now rewrite S.
    + pose proof (find_none _ _ F a Ia) as N. cbv beta in N. congruence.
  - intros c.
    destruct (find (fun a => String.eqb (Users._id a) (Users.d_id data)) st)
      as [user|] eqn:F.
    + rewrite (findByIdAndUpdateUser_found data st user F).
      now rewrite (findByIdAndUpdateUser_found (Users.withConfirm data c) st user F).
    + rewrite (findByIdAndUpdateUser_missing data st F).
      now rewrite (findByIdAndUpdateUser_missing (Users.withConfirm data c) st F).
Qed.

(** X22: neither update method ever refuses a user name as taken: the
    user found by the identifier of the request has that identifier, so the
    look-up by name is never reached.  Unless [findByIdAndUpdate] itself
    throws it, AllreadyExist is not thrown. *)
Theorem updates_never_check_the_username (data : Users.UserDto) (allow : bool)
    (st : Users.Store) (w : string) :
  (forall u, fst (findByIdAndUpdate (Users.d_id data) u st)
             <> Users.Throw (Users.AllreadyExist w)) ->
  fst (updateAnyUser data allow st) <> Users.Throw (Users.AllreadyExist w) /\
  fst (findByIdAndUpdateUser data st) <> Users.Throw (Users.AllreadyExist w).
Proof.
  intros H. split.
  - destruct (find (fun a => String.eqb (Users._id a) (Users.d_id data)
                             && Users.notDeleted a) st) as [user|] eqn:F.
    + rewrite (updateAnyUser_found data allow st user F). cbv zeta.
      destruct (Js.truthy (Users.d_password data)).
      * destruct (negb _); [discriminate | apply bind_finish_not_exists, H].
      * apply bind_finish_not_exists, H.
    + rewrite (updateAnyUser_missing data allow st F). discriminate.
  - destruct (find (fun a => String.eqb (Users._id a) (Users.d_id data)) st)
      as [user|] eqn:F.
    + rewrite (findByIdAndUpdateUser_found data st user F).
      destruct (negb _); [discriminate | apply bind_finish_not_exists, H].
    + rewrite (findByIdAndUpdateUser_missing data st F). discriminate.
Qed.

(** X23: [findByIdAndUpdateUser] updates administrators only and does not
    look at the deletion mark: when the first row with the identifier is
    not an administrator, or there is no such row, it throws NotFound and
    leaves the store as it was; when it is an administrator, deleted or
    not, the update is carried out. *)
Theorem findByIdAndUpdateUser_admins_only (data : Users.UserDto)
    (st : Users.Store) :
  (forall user,
      find (fun a => String.eqb (Users._id a) (Users.d_id data)) st = Some user ->
      Users.role user <> Users.ADMIN ->
      findByIdAndUpdateUser data st = (Users.Throw Users.NotFound, st)) /\
  (find (fun a => String.eqb (Users._id a) (Users.d_id data)) st = None ->
   findByIdAndUpdateUser data st = (Users.Throw Users.NotFound, st)) /\
  (forall user,
      find (fun a => String.eqb (Users._id a) (Users.d_id data)) st = Some user ->
      Users.role user = Users.ADMIN ->
      findByIdAndUpdateUser data st
      = Users.bind
          (findByIdAndUpdate (Users.d_id data)
             match Js.truthy (Users.d_password data) with
             | Some pw => Users.setPassword (Users.copied data) (hashPassword pw)
             | None => Users.copied data
             end)
          Users.finish st).
Proof.
  split; [|split].
  - intros user F R. rewrite (findByIdAndUpdateUser_found data st user F).
    destruct (Users.role user); try reflexivity. contradiction.
  - apply findByIdAndUpdateUser_missing.
  - intros user F R. rewrite (findByIdAndUpdateUser_found data st user F).
    now rewrite R.
Qed.

End UserUpdates.

Lemma updateAnyUser_role_needs_permission_witness :
  Users.updateAnyUser Users.sampleHash Users.sampleUpdate
    (Users.request "u3" (Some "carl") (Some Users.SUPER_ADMIN) None None)
    true Users.staff
  = Users.bind
      (Users.sampleUpdate "u3"
         (Users.setRole
            (Users.copied
               (Users.request "u3" (Some "carl") (Some Users.SUPER_ADMIN) None None))
            Users.SUPER_ADMIN))
      Users.finish Users.staff.
Proof.
  apply (proj2 (updateAnyUser_role_needs_permission Users.sampleHash
                  Users.sampleUpdate
                  (Users.request "u3" (Some "carl") (Some Users.SUPER_ADMIN) None None)
                  Users.staff)
           (Users.account "u3" "carl" Users.USER None) Users.SUPER_ADMIN);
    reflexivity.
Defined.

Lemma password_confirmation_witness :
  Users.updateAnyUser Users.sampleHash Users.sampleUpdate
    (Users.request "u3" None None (Some "secret") (Some "secrets"))
    false Users.staff
  = (Users.Throw Users.PasswordsDoNotMatch, Users.staff).
Proof.
  apply (proj1 (password_confirmation Users.sampleHash Users.sampleUpdate
                  (Users.request "u3" None None (Some "secret") (Some "secrets"))
                  Users.staff) false "secret").
  - exists (Users.account "u3" "carl" Users.USER None).
    split; [right; right; right; left; reflexivity | reflexivity].
  - reflexivity.
  - discriminate.
Defined.

Lemma updates_never_check_the_username_witness :
  fst (Users.updateAnyUser Users.sampleHash Users.sampleUpdate
         (Users.request "u3" (Some "anna") None None None) false Users.staff)
  <> Users.Throw (Users.AllreadyExist "username") /\
  map Users.username
      (snd (Users.updateAnyUser Users.sampleHash Users.sampleUpdate
              (Users.request "u3" (Some "anna") None None None) false Users.staff))
  = [Some "root"; Some "anna"; Some "bob"; Some "anna"].
Proof.
  split; [|reflexivity].
  apply (updates_never_check_the_username Users.sampleHash Users.sampleUpdate
           (Users.request "u3" (Some "anna") None None None) false Users.staff
           "username").
  intros u. discriminate.
Defined.

Lemma findByIdAndUpdateUser_admins_only_witness :
  Users.findByIdAndUpdateUser Users.sampleHash Users.sampleUpdate
    (Users.request "u3" None None None None) Users.staff
  = (Users.Throw Users.NotFound, Users.staff) /\
  fst (Users.findByIdAndUpdateUser Users.sampleHash Users.sampleUpdate
         (Users.request "u1" (Some "anna") None None None) Users.staff)
  <> Users.Throw Users.NotFound.
Proof.
  destruct (findByIdAndUpdateUser_admins_only Users.sampleHash Users.sampleUpdate
              (Users.request "u3" None None None None) Users.staff) as [N _].
  destruct (findByIdAndUpdateUser_admins_only Users.sampleHash Users.sampleUpdate
              (Users.request "u1" (Some "anna") None None None) Users.staff)
    as [_ [_ A]].
  split.
  - apply (N (Users.account "u3" "carl" Users.USER None)); [reflexivity | discriminate].
  - rewrite (A (Users.account "u1" "anna" Users.ADMIN None) eq_refl eq_refl).
    vm_compute. discriminate.
Defined.

(** ** [checkCode] *)

(** X24: [checkCode] fails only where the code look-up fails: it throws
    NotFound when the look-up finds nothing, and the gift is never a reason
    to fail.  The gift it reports is the gift the code points to, taken from
    the gift table and not deleted; a code without gift, or whose gift is
    missing or deleted, is reported with a null gift. *)
Theorem checkCode_gift (baseFindOne : string -> M (option Code.t))
    (value : string) (w : World) :
  (forall w', baseFindOne value w = (Ok None, w') ->
              checkCode baseFindOne value w = (Throw NotFound, w')) /\
  (forall c w', baseFindOne value w = (Ok (Some c), w') ->
     exists gift,
       checkCode baseFindOne value w
       = (Ok {| cc_value := Code.value c; cc_gift := gift |}, w') /\
       match gift with
       | Some g => In g (gifts (db w')) /\ Gift.deletedAt g = None /\
                   Code.giftId c = Some (Gift._id g)
       | None => forall g, In g (gifts (db w')) ->
                           Code.giftId c = Some (Gift._id g) ->
                           Gift._id g <> "" -> Gift.deletedAt g <> None
       end).
Proof.
  split.
  - intros w' B. unfold checkCode, bind. now rewrite B.
  - intros c w' B. unfold checkCode, bind. rewrite B.
    destruct (Js.truthy (Code.giftId c)) as [g|] eqn:T.
    + assert (G : Code.giftId c = Some g /\ g <> "").
      { unfold Js.truthy in T. destruct (Code.giftId c) as [[|a s]|];
          try discriminate; injection T as <-. split; [reflexivity | discriminate]. }
      destruct G as [G _].
      unfold giftRepository_findOne.
      destruct (find _ (gifts (db w'))) as [gf|] eqn:F.
      * exists (Some gf). split; [reflexivity|].
        apply find_some in F as [I H]. apply andb_true_iff in H as [E D].
        apply String.eqb_eq in E. split; [exact I|]. split.
        -- now destruct (Gift.deletedAt gf).
        -- now rewrite G, E.
      * exists None. split; [reflexivity|].
        intros x Ix Ex _ Dx. pose proof (find_none _ _ F x Ix) as N.
        cbv beta in N. rewrite G in Ex. injection Ex as ->.
        now rewrite String.eqb_refl, Dx in N.
    + exists None. split; [reflexivity|].
      intros x Ix Ex Nx. unfold Js.truthy in T. rewrite Ex in T.
      destruct (Gift._id x); [contradiction | discriminate].
Qed.

Lemma checkCode_gift_witness :
  (exists gift,
      checkCode exactFindOne "AAAA111111"
        {| db := Sample.oneWinner; query := Sample.plain |}
      = (Ok {| cc_value := "AAAA111111"; cc_gift := gift |},
         {| db := Sample.oneWinner; query := Sample.plain |})) /\
  checkCode exactFindOne "aaaa111111"
    {| db := Sample.oneWinner; query := Sample.plain |}
  = (Throw NotFound, {| db := Sample.oneWinner; query := Sample.plain |}).
Proof.
  destruct (checkCode_gift exactFindOne "AAAA111111"
              {| db := Sample.oneWinner; query := Sample.plain |}) as [_ H].
  destruct (checkCode_gift exactFindOne "aaaa111111"
              {| db := Sample.oneWinner; query := Sample.plain |}) as [N _].
  split.
  - destruct (H (Sample.usedCode "c1" 1 "AAAA111111" (Some "g1") 100)
                {| db := Sample.oneWinner; query := Sample.plain |} eq_refl)
      as [gift [E _]].
    exists gift. exact E.
  - exact (N {| db := Sample.oneWinner; query := Sample.plain |} eq_refl).
Defined.
